(** * Notes-sharing catalog: the SQLite-backed [NotesDatabase] of [app.py]

    The development embeds the database manager class of [src/app.py]
    (tables [users], [notes], [download_history], [ratings] and the
    process-wide [current_user]) as pure state-passing functions and proves
    the catalog, ledger and query properties of the specification.

    Modelling conventions.
    - A table is the list of its rows in rowid order; [INSERT] appends,
      [UPDATE] maps, [DELETE] filters, [SELECT ... WHERE] filters.
    - SQL [INTEGER] and Python [int] are [Z]. A call whose note id does not
      fit a 64-bit signed integer makes [sqlite3] raise before any row is
      read or written; the operations are modelled for the ids that fit
      ([sqlite_integer]), which include the id of every stored note.
    - SQL [TEXT] and Python [str] are [string]: the UTF-8 bytes of the
      text, which is how the engine stores and compares it. A character is
      a byte that is not a continuation byte together with the continuation
      bytes that follow it; [len], [str.strip] and LIKE work on characters.
      The engine stores a NUL character like any other, but LIKE reads its
      two operands only up to their first NUL ([c_string]).
    - The surrogate [id] columns of [download_history] and [ratings] are
      never read by the program and are left out of the rows.
    - [CURRENT_TIMESTAMP] is an input of every operation that inserts a row.
    - SHA-256, [json.dumps], [json.loads] and [round] on doubles are library
      primitives and enter as section variables.
    - The uploaded files themselves are outside the model. The engine
      refuses a LIKE pattern of more than 50000 bytes ([like_pattern_limit]);
      a search is modelled for the texts within that limit
      ([within_like_limit]). *)

From Stdlib Require Import ZArith QArith List String Ascii Bool Lia.
From Stdlib Require Import Permutation Sorted.
Import ListNotations.

Local Open Scope string_scope.
Local Open Scope Z_scope.

(** ** Rows of the four tables *)

Record user_row := mk_user {
  u_id : Z;
  u_username : string;
  u_password : string;
  u_email : string;
  u_role : string;
  u_created_at : string
}.

Record note_row := mk_note {
  n_id : Z;
  n_title : string;
  n_category : string;
  n_subject : string;
  n_description : option string;
  n_uploader_id : Z;
  n_upload_date : string;
  n_downloads : Z;
  n_tags : string;
  n_file_path : string;
  n_file_name : string;
  n_file_size : Z;
  n_rating_sum : Z;
  n_rating_count : Z
}.

Record download_row := mk_download {
  d_note_id : Z;
  d_user_id : Z;
  d_download_date : string
}.

Record rating_row := mk_rating {
  r_note_id : Z;
  r_user_id : Z;
  r_rating : Z;
  r_review : string;
  r_created_at : string
}.

(** The dict stored in [self.current_user]. *)
Record session := mk_session {
  s_id : Z;
  s_username : string;
  s_role : string
}.

(** The object state: the database file and [self.current_user].
    [users_seq] and [notes_seq] are the [sqlite_sequence] entries of the two
    AUTOINCREMENT keys that the program reads back. *)
Record NotesDatabase := mk_db {
  users : list user_row;
  notes : list note_row;
  download_history : list download_row;
  ratings : list rating_row;
  users_seq : Z;
  notes_seq : Z;
  current_user : option session
}.

Definition set_users (db : NotesDatabase) (us : list user_row) (sq : Z) :=
  mk_db us (notes db) (download_history db) (ratings db) sq (notes_seq db)
        (current_user db).

Definition set_notes (db : NotesDatabase) (ns : list note_row) (sq : Z) :=
  mk_db (users db) ns (download_history db) (ratings db) (users_seq db) sq
        (current_user db).

Definition set_download_history (db : NotesDatabase) (ds : list download_row) :=
  mk_db (users db) (notes db) ds (ratings db) (users_seq db) (notes_seq db)
        (current_user db).

Definition set_ratings (db : NotesDatabase) (rs : list rating_row) :=
  mk_db (users db) (notes db) (download_history db) rs (users_seq db)
        (notes_seq db) (current_user db).

Definition set_current_user (db : NotesDatabase) (cu : option session) :=
  mk_db (users db) (notes db) (download_history db) (ratings db)
        (users_seq db) (notes_seq db) cu.

(** ** Row-level SQL helpers *)

(** [SELECT * FROM notes WHERE id = ?] followed by [fetchone()]. *)
Definition find_note (db : NotesDatabase) (note_id : Z) : option note_row :=
  find (fun n => n_id n =? note_id) (notes db).

(** The integers the engine binds to a query parameter: 64-bit signed.
    The note id of a call is bound before any row is read. *)
Definition sqlite_integer (z : Z) : Prop := - 2 ^ 63 <= z < 2 ^ 63.

(** [SELECT ... FROM users WHERE username = ?] followed by [fetchone()]. *)
Definition find_user (db : NotesDatabase) (username : string)
    : option user_row :=
  find (fun u => (u_username u =? username)%string) (users db).

(** The rows of [ratings] with [note_id = ?]. *)
Definition ratings_of (rs : list rating_row) (note_id : Z) : list rating_row :=
  filter (fun r => r_note_id r =? note_id) rs.

(** [SELECT SUM(rating) FROM ratings WHERE note_id = ?]; the program only
    evaluates it right after the upsert, when a row exists. *)
Definition sum_rating (rs : list rating_row) (note_id : Z) : Z :=
  fold_right Z.add 0 (map r_rating (ratings_of rs note_id)).

(** [SELECT COUNT( * ) FROM ratings WHERE note_id = ?]. *)
Definition count_rating (rs : list rating_row) (note_id : Z) : Z :=
  Z.of_nat (List.length (ratings_of rs note_id)).

Definition same_key (note_id user_id : Z) (r : rating_row) : bool :=
  (r_note_id r =? note_id) && (r_user_id r =? user_id).

(** [DO UPDATE SET rating = ?, review = ?] on the conflicting row, which
    keeps its [created_at]. *)
Definition overwrite (note_id user_id rating : Z) (review : string)
    (r : rating_row) : rating_row :=
  if same_key note_id user_id r
  then mk_rating (r_note_id r) (r_user_id r) rating review (r_created_at r)
  else r.

(** [INSERT INTO ratings (note_id, user_id, rating, review) VALUES ...
    ON CONFLICT(note_id, user_id) DO UPDATE SET rating = ?, review = ?]. *)
Definition upsert_rating (rs : list rating_row) (note_id user_id rating : Z)
    (review now : string) : list rating_row :=
  if existsb (same_key note_id user_id) rs
  then map (overwrite note_id user_id rating review) rs
  else (rs ++ [mk_rating note_id user_id rating review now])%list.

(** [UPDATE notes SET rating_sum = (SELECT SUM ...), rating_count =
    (SELECT COUNT ...) WHERE id = ?]. *)
Definition update_rating_summary (ns : list note_row) (rs : list rating_row)
    (note_id : Z) : list note_row :=
  map (fun n => if n_id n =? note_id
                then mk_note (n_id n) (n_title n) (n_category n) (n_subject n)
                       (n_description n) (n_uploader_id n) (n_upload_date n)
                       (n_downloads n) (n_tags n) (n_file_path n)
                       (n_file_name n) (n_file_size n)
                       (sum_rating rs note_id) (count_rating rs note_id)
                else n) ns.

(** [UPDATE notes SET downloads = downloads + 1 WHERE id = ?]. *)
Definition bump_downloads (ns : list note_row) (note_id : Z) : list note_row :=
  map (fun n => if n_id n =? note_id
                then mk_note (n_id n) (n_title n) (n_category n) (n_subject n)
                       (n_description n) (n_uploader_id n) (n_upload_date n)
                       (n_downloads n + 1) (n_tags n) (n_file_path n)
                       (n_file_name n) (n_file_size n)
                       (n_rating_sum n) (n_rating_count n)
                else n) ns.

(** ** Operations that do not depend on library primitives *)

(** [rate_note]: the returned pair is the Python tuple [(ok, message)]. *)
Definition rate_note (db : NotesDatabase) (now : string) (note_id rating : Z)
    (review : string) : NotesDatabase * (bool * string) :=
  match current_user db with
  | None => (db, (false, "Please login first"))
  | Some cu =>
      if (rating <? 1) || (rating >? 5)
      then (db, (false, "Rating must be between 1 and 5"))
      else
        let rs := upsert_rating (ratings db) note_id (s_id cu) rating review
                                now in
        let ns := update_rating_summary (notes db) rs note_id in
        (set_notes (set_ratings db rs) ns (notes_seq db),
         (true, "✅ Rating submitted successfully!"))
  end.

(** [download_note]: the triple is [(ok, message, file_path)]. *)
Definition download_note (db : NotesDatabase) (now : string) (note_id : Z)
    : NotesDatabase * (bool * string * option string) :=
  match current_user db with
  | None => (db, (false, "Please login first", None))
  | Some cu =>
      match find_note db note_id with
      | None => (db, (false, "Note not found", None))
      | Some note =>
          let ns := bump_downloads (notes db) note_id in
          let ds := (download_history db
                     ++ [mk_download note_id (s_id cu) now])%list in
          (set_download_history (set_notes db ns (notes_seq db)) ds,
           (true, "✅ '" ++ n_title note ++ "' ready for download",
            Some (n_file_path note)))
      end
  end.

(** [delete_note]: removing the physical file touches no modelled state and
    its failure is swallowed by the bare [except]. *)
Definition delete_note (db : NotesDatabase) (note_id : Z)
    : NotesDatabase * (bool * string) :=
  match current_user db with
  | None => (db, (false, "Please login first"))
  | Some cu =>
      match find_note db note_id with
      | None => (db, (false, "Note not found"))
      | Some note =>
          if negb (n_uploader_id note =? s_id cu)
             && negb (s_role cu =? "admin")%string
          then (db, (false, "You don't have permission to delete this note"))
          else
            let ns := filter (fun n => negb (n_id n =? note_id)) (notes db) in
            let ds := filter (fun d => negb (d_note_id d =? note_id))
                             (download_history db) in
            let rs := filter (fun r => negb (r_note_id r =? note_id))
                             (ratings db) in
            (set_ratings
               (set_download_history (set_notes db ns (notes_seq db)) ds) rs,
             (true, "✅ Note deleted successfully"))
      end
  end.

(** [logout] of the UI layer: [db.current_user = None]. *)
Definition logout (db : NotesDatabase) : NotesDatabase :=
  set_current_user db None.

(** ** Text helpers of the Python standard library *)

Definition is_empty (s : string) : bool :=
  match s with EmptyString => true | String _ _ => false end.

(** The text with the given UTF-8 bytes. *)
Definition bytes (l : list N) : string :=
  string_of_list_ascii (map ascii_of_N l).

(** A byte [10xxxxxx] continues the character begun before it. *)
Definition is_continuation (c : ascii) : bool :=
  let k := N_of_ascii c in ((128 <=? k) && (k <? 192))%N.

(** [len(s)] counts characters: every byte except the continuation bytes. *)
Fixpoint len (s : string) : nat :=
  match s with
  | EmptyString => O
  | String c s' => if is_continuation c then len s' else S (len s')
  end.

(** The characters for which [str.isspace] holds, in UTF-8: TAB..CR,
    FS..US, SPACE, U+0085, U+00A0, U+1680, U+2000..U+200A, U+2028, U+2029,
    U+202F, U+205F and U+3000. *)
Definition whitespace : list string :=
  map bytes
    ([[9]; [10]; [11]; [12]; [13]; [28]; [29]; [30]; [31]; [32];
      [194; 133]; [194; 160]; [225; 154; 128];
      [226; 128; 128]; [226; 128; 129]; [226; 128; 130]; [226; 128; 131];
      [226; 128; 132]; [226; 128; 133]; [226; 128; 134]; [226; 128; 135];
      [226; 128; 136]; [226; 128; 137]; [226; 128; 138];
      [226; 128; 168]; [226; 128; 169]; [226; 128; 175];
      [226; 129; 159]; [227; 128; 128]])%N.

(** [s] is exactly one white-space character. *)
Definition is_space (s : string) : bool :=
  existsb (String.eqb s) whitespace.

(** [str.lstrip()]: a white-space character has one, two or three bytes. *)
Fixpoint lstrip (s : string) : string :=
  match s with
  | EmptyString => EmptyString
  | String c1 s1 =>
      if is_space (String c1 EmptyString) then lstrip s1
      else
        match s1 with
        | EmptyString => s
        | String c2 s2 =>
            if is_space (String c1 (String c2 EmptyString)) then lstrip s2
            else
              match s2 with
              | EmptyString => s
              | String c3 s3 =>
                  if is_space (String c1 (String c2 (String c3 EmptyString)))
                  then lstrip s3
                  else s
              end
        end
  end.

(** [str.rstrip()]: going back from the end, a character is dropped when
    everything kept after its first byte completes a white-space character
    and nothing else. *)
Fixpoint rstrip (s : string) : string :=
  match s with
  | EmptyString => EmptyString
  | String c s' =>
      let r := rstrip s' in
      if is_space (String c r) then EmptyString else String c r
  end.

(** [str.strip()]. *)
Definition strip (s : string) : string := rstrip (lstrip s).

(** [str.split(sep)] for a one-character separator. *)
Fixpoint split (sep : ascii) (s : string) : list string :=
  match s with
  | EmptyString => [EmptyString]
  | String c s' =>
      if (c =? sep)%char then EmptyString :: split sep s'
      else match split sep s' with
           | [] => [String c EmptyString]
           | h :: t => String c h :: t
           end
  end.

(** [[tag.strip() for tag in tags.split(",") if tag.strip()]]. *)
Definition split_tags (tags : string) : list string :=
  map strip (filter (fun tag => negb (is_empty (strip tag))) (split "," tags)).

Fixpoint ends_with_slash (s : string) : bool :=
  match s with
  | EmptyString => false
  | String c EmptyString => (c =? "/")%char
  | String _ s' => ends_with_slash s'
  end.

(** [os.path.join] of two components (POSIX). *)
Definition os_path_join (a b : string) : string :=
  match b with
  | String "/" _ => b
  | _ => if is_empty a || ends_with_slash a then a ++ b else a ++ "/" ++ b
  end.

(** [os.path.basename] (POSIX): the part after the last slash. *)
Fixpoint os_path_basename (p : string) : string :=
  match p with
  | EmptyString => EmptyString
  | String c p' =>
      if (c =? "/")%char then os_path_basename p'
      else if existsb (fun d => (d =? "/")%char) (list_ascii_of_string p')
           then os_path_basename p' else p
  end.

(** ** The LIKE operator of the query engine *)

(** ASCII lower-casing, the only case folding LIKE performs. *)
Definition to_lower (c : ascii) : ascii :=
  let k := N_of_ascii c in
  if ((65 <=? k) && (k <=? 90))%N then ascii_of_N (k + 32) else c.

(** The text left once the continuation bytes at its head are skipped. *)
Fixpoint skip_continuation (s : string) : string :=
  match s with
  | EmptyString => s
  | String c s' => if is_continuation c then skip_continuation s' else s
  end.

(** The engine's [sqlite3Utf8Read]: what follows the character that begins
    with the byte [c]. A lead byte (0xC0 and above) takes the continuation
    bytes after it; any other byte is a character of its own. *)
Definition after_char (c : ascii) (s' : string) : string :=
  if (192 <=? N_of_ascii c)%N then skip_continuation s' else s'.

(** [like_pattern p s]: does the whole of [s] match the pattern [p]?
    [%] matches any run of characters, [_] exactly one character, every
    other byte of the pattern itself up to ASCII case; no ESCAPE clause is
    given. *)
Fixpoint like_pattern (p : string) : string -> bool :=
  match p with
  | EmptyString => is_empty
  | String c p' =>
      if (c =? "%")%char then
        fix any (s : string) : bool :=
          like_pattern p' s
          || match s with
             | EmptyString => false
             | String d s' => any (after_char d s')
             end
      else if (c =? "_")%char then
        fun s => match s with
                 | EmptyString => false
                 | String d s' => like_pattern p' (after_char d s')
                 end
      else
        fun s => match s with
                 | EmptyString => false
                 | String d s' =>
                     (to_lower c =? to_lower d)%char && like_pattern p' s'
                 end
  end.

(** [SQLITE_MAX_LIKE_PATTERN_LENGTH]: a longer pattern makes the LIKE
    operator, and with it the query, fail. *)
Definition like_pattern_limit : Z := 50000.

(** The engine hands both operands of LIKE to the matcher as C strings: a
    text ends at its first NUL character, if it has one. *)
Fixpoint c_string (s : string) : string :=
  match s with
  | EmptyString => EmptyString
  | String c s' =>
      if (c =? zero)%char then EmptyString else String c (c_string s')
  end.

(** [x LIKE pattern] with SQL's three truth values: [None] is NULL. *)
Definition sql_like (x : option string) (pattern : string) : option bool :=
  match x with
  | None => None
  | Some s => Some (like_pattern (c_string pattern) (c_string s))
  end.

(** SQL [OR] on three truth values. *)
Definition sql_or (a b : option bool) : option bool :=
  match a, b with
  | Some true, _ | _, Some true => Some true
  | Some false, Some false => Some false
  | _, _ => None
  end.

(** A [WHERE] clause keeps a row only when its condition is TRUE. *)
Definition sql_is_true (a : option bool) : bool :=
  match a with Some true => true | _ => false end.

(** The text condition appended by [if query:]. *)
Definition text_filter (query : string) (n : note_row) : bool :=
  if is_empty query then true
  else
    let search_term := "%" ++ query ++ "%" in
    sql_is_true
      (sql_or (sql_or (sql_or (sql_like (Some (n_title n)) search_term)
                              (sql_like (n_description n) search_term))
                      (sql_like (Some (n_subject n)) search_term))
              (sql_like (Some (n_tags n)) search_term)).

(** The category condition appended by [if category != "All":]. *)
Definition category_filter (category : string) (n : note_row) : bool :=
  if (category =? "All")%string then true
  else (n_category n =? category)%string.

(** ** Joining, sorting and projecting *)

(** [CASE WHEN rating_count > 0 THEN CAST(rating_sum AS FLOAT) / rating_count
    ELSE 0 END], as an exact rational. *)
Definition avg_rating (n : note_row) : Q :=
  if n_rating_count n >? 0
  then (inject_Z (n_rating_sum n) / inject_Z (n_rating_count n))%Q
  else 0%Q.

(** A row of the search query: [n.*], [uploader_name], [avg_rating]. *)
Record search_row := mk_row {
  row_note : note_row;
  row_uploader_name : string;
  row_avg_rating : Q
}.

(** [FROM notes n JOIN users u ON n.uploader_id = u.id]: an inner join. *)
Definition join_users (us : list user_row) (ns : list note_row)
    : list search_row :=
  flat_map (fun n =>
              map (fun u => mk_row n (u_username u) (avg_rating n))
                  (filter (fun u => n_uploader_id n =? u_id u) us)) ns.

(** [ORDER BY key DESC]: the engine leaves the order of equal keys open;
    the model keeps them in scan order. [geb a b] reads "a sorts before
    or with b". *)
Fixpoint insert_desc {A : Type} (geb : A -> A -> bool) (x : A) (l : list A)
    : list A :=
  match l with
  | [] => [x]
  | y :: l' => if geb x y then x :: y :: l' else y :: insert_desc geb x l'
  end.

Definition order_by_desc {A : Type} (geb : A -> A -> bool) (l : list A)
    : list A :=
  fold_right (insert_desc geb) [] l.

Definition recent_geb (a b : search_row) : bool :=
  String.leb (n_upload_date (row_note b)) (n_upload_date (row_note a)).

Definition popular_geb (a b : search_row) : bool :=
  n_downloads (row_note b) <=? n_downloads (row_note a).

Definition rating_geb (a b : search_row) : bool :=
  Qle_bool (row_avg_rating b) (row_avg_rating a).

(** The [ORDER BY] selected by [sort_by]; any other key leaves scan order. *)
Definition sort_rows (sort_by : string) (rows : list search_row)
    : list search_row :=
  if (sort_by =? "recent")%string then order_by_desc recent_geb rows
  else if (sort_by =? "popular")%string then order_by_desc popular_geb rows
  else if (sort_by =? "rating")%string then order_by_desc rating_geb rows
  else rows.

(** The rows fetched by [cursor.execute(sql, params)] in [search_notes]. *)
Definition search_rows (db : NotesDatabase) (query category sort_by : string)
    : list search_row :=
  sort_rows sort_by
    (filter (fun r => text_filter query (row_note r)
                      && category_filter category (row_note r))
            (join_users (users db) (notes db))).

(** The dict built for each row of the result. *)
Record NoteView := mk_view {
  v_id : Z;
  v_title : string;
  v_category : string;
  v_subject : string;
  v_description : option string;
  v_uploader_name : string;
  v_upload_date : string;
  v_downloads : Z;
  v_tags : list string;
  v_file_path : string;
  v_file_name : string;
  v_file_size : Z;
  v_avg_rating : Q
}.

(** What [add_note] learns from outside the database: the local-time stamp
    of [datetime.now()], the outcome of [shutil.copy] and [os.path.getsize]
    (the size, or the text of the exception), and [CURRENT_TIMESTAMP]. *)
Record upload_env := mk_env {
  env_timestamp : string;
  env_copy : string + Z;
  env_now : string
}.

(** AUTOINCREMENT: one more than the largest rowid the table ever held. *)
Definition next_rowid (seq : Z) (ids : list Z) : Z :=
  Z.max seq (fold_right Z.max 0 ids) + 1.

Definition empty_db : NotesDatabase := mk_db [] [] [] [] 0 0 None.

(** An entry of [sample_notes] in [_create_demo_data]. *)
Record sample_note := mk_sample {
  sn_title : string;
  sn_category : string;
  sn_subject : string;
  sn_description : string;
  sn_uploader_id : Z;
  sn_tags : list string;
  sn_file_name : string
}.

Definition demo_users : list (string * string * string * string) :=
  [ ("admin", "admin123", "admin@university.edu", "admin");
    ("student1", "pass123", "student1@university.edu", "student");
    ("professor", "prof123", "professor@university.edu", "teacher") ].

Definition sample_notes : list sample_note :=
  [ mk_sample "Introduction to Python Programming" "Computer Science"
      "Programming"
      "Comprehensive guide covering Python basics, data structures, OOP, and best practices for beginners"
      1 ["python"; "programming"; "basics"; "oop"] "intro_python.pdf";
    mk_sample "Calculus I - Derivatives and Integrals" "Mathematics"
      "Calculus"
      "Complete notes on differential and integral calculus with solved examples and practice problems"
      2 ["calculus"; "derivatives"; "integrals"; "mathematics"]
      "calculus_notes.pdf";
    mk_sample "Database Management Systems" "Computer Science" "Databases"
      "SQL, normalization, transactions, indexing, and database design patterns"
      1 ["database"; "sql"; "dbms"; "normalization"] "dbms_notes.pdf";
    mk_sample "Organic Chemistry Reactions" "Chemistry" "Organic Chemistry"
      "Common organic reactions, mechanisms, and synthesis strategies"
      3 ["chemistry"; "organic"; "reactions"; "mechanisms"] "organic_chem.pdf";
    mk_sample "Data Structures and Algorithms" "Computer Science" "DSA"
      "Arrays, linked lists, trees, graphs, sorting, searching, and dynamic programming"
      2 ["dsa"; "algorithms"; "data-structures"; "programming"]
      "dsa_notes.pdf" ].

Definition newline : string := String (ascii_of_N 10) EmptyString.

(** [os.path.getsize] of the dummy file written for a sample note. *)
Definition demo_file_size (title : string) : Z :=
  Z.of_nat (String.length
    ("Sample content for " ++ title ++ newline
     ++ "This is a demo file created for the notes sharing system."
     ++ newline)).

(** [storage_dir], at its default. *)
Definition storage_dir : string := "uploaded_files".

Section Primitives.

(** [hashlib.sha256(password.encode()).hexdigest()]. *)
Variable _hash_password : string -> string.
(** [json.dumps] and [json.loads] on lists of strings; [None] stands for
    an exception. *)
Variable json_dumps : list string -> string.
Variable json_loads : string -> option (list string).
(** [round(x, 1)]. *)
Variable round1 : Q -> Q.

(** [INSERT INTO users (username, password, email, role) VALUES ...];
    [None] is the [IntegrityError] of the UNIQUE constraint. *)
Definition insert_user (db : NotesDatabase) (now username password email
    role : string) : option NotesDatabase :=
  if existsb (fun u => (u_username u =? username)%string) (users db)
  then None
  else
    let id := next_rowid (users_seq db) (map u_id (users db)) in
    Some (set_users db
            (users db ++ [mk_user id username password email role now])%list
            id).

(** [INSERT INTO notes (title, category, subject, description,
    uploader_id, tags, file_path, file_name, file_size) VALUES ...]: the
    remaining columns take their defaults. *)
Definition insert_note (db : NotesDatabase) (now title category subject
    : string) (description : option string) (uploader_id : Z) (tags
    file_path file_name : string) (file_size : Z) : NotesDatabase :=
  let id := next_rowid (notes_seq db) (map n_id (notes db)) in
  set_notes db
    (notes db ++ [mk_note id title category subject description uploader_id
                          now 0 tags file_path file_name file_size 0 0])%list
    id.

(** [_create_demo_data]: [clock k] is [CURRENT_TIMESTAMP] at the [k]-th
    insert. *)
Definition _create_demo_data (db : NotesDatabase) (clock : nat -> string)
    : NotesDatabase :=
  if (0 <? List.length (users db))%nat then db
  else
    let db1 :=
      fst (fold_left
             (fun (acc : NotesDatabase * nat)
                '(username, password, email, role) =>
                let '(d, k) := acc in
                (match insert_user d (clock k) username
                         (_hash_password password) email role with
                 | Some d' => d'
                 | None => d
                 end, S k))
             demo_users (db, 0%nat)) in
    fst (fold_left
           (fun (acc : NotesDatabase * nat) note =>
              let '(d, k) := acc in
              (insert_note d (clock k) (sn_title note) (sn_category note)
                 (sn_subject note) (Some (sn_description note))
                 (sn_uploader_id note) (json_dumps (sn_tags note))
                 (os_path_join storage_dir (sn_file_name note))
                 (sn_file_name note) (demo_file_size (sn_title note)),
               S k))
           sample_notes (db1, 3%nat)).

(** [NotesDatabase()] on a fresh database file. *)
Definition init (clock : nat -> string) : NotesDatabase :=
  _create_demo_data empty_db clock.

(** [authenticate]: the triple is [(ok, message, user_id)]. *)
Definition authenticate (db : NotesDatabase) (username password : string)
    : NotesDatabase * (bool * string * option Z) :=
  match find_user db username with
  | Some user =>
      if (u_password user =? _hash_password password)%string
      then (set_current_user db
              (Some (mk_session (u_id user) (u_username user) (u_role user))),
            (true, "Welcome back, " ++ username ++ "!", Some (u_id user)))
      else (db, (false, "Invalid username or password", None))
  | None => (db, (false, "Invalid username or password", None))
  end.

Definition register_user (db : NotesDatabase) (now username password
    email : string) : NotesDatabase * (bool * string) :=
  if (len username <? 3)%nat
  then (db, (false, "Username must be at least 3 characters"))
  else if (len password <? 6)%nat
  then (db, (false, "Password must be at least 6 characters"))
  else
    match insert_user db now username (_hash_password password) email
                      "student" with
    | Some db' => (db', (true, "Registration successful! Please login."))
    | None => (db, (false, "Username already exists"))
    end.

(** [add_note]: [file] is [file.name] of the uploaded file, if any. *)
Definition add_note (db : NotesDatabase) (env : upload_env) (title category
    subject description tags : string) (file : option string)
    : NotesDatabase * (bool * string) :=
  match current_user db with
  | None => (db, (false, "Please login first"))
  | Some cu =>
      match file with
      | None => (db, (false, "Please upload a file"))
      | Some name =>
          if is_empty title || is_empty category || is_empty subject
          then (db, (false, "Please fill all required fields"))
          else
            let file_name := os_path_basename name in
            let unique_file_name := env_timestamp env ++ "_" ++ file_name in
            let file_path := os_path_join storage_dir unique_file_name in
            match env_copy env with
            | inl e => (db, (false, "Error uploading file: " ++ e))
            | inr file_size =>
                let tags_list := json_dumps (split_tags tags) in
                (insert_note db (env_now env) title category subject
                   (Some description) (s_id cu) tags_list file_path
                   file_name file_size,
                 (true, "✅ '" ++ title ++ "' uploaded successfully!"))
            end
      end
  end.

(** The dict appended to [results] for one row. *)
Definition view_of (r : search_row) : option NoteView :=
  match json_loads (n_tags (row_note r)) with
  | None => None
  | Some tags =>
      let n := row_note r in
      Some (mk_view (n_id n) (n_title n) (n_category n) (n_subject n)
              (n_description n) (row_uploader_name r) (n_upload_date n)
              (n_downloads n) tags (n_file_path n) (n_file_name n)
              (n_file_size n) (round1 (row_avg_rating r)))
  end.

(** The loop over [rows]; the first failing [json.loads] aborts it. *)
Fixpoint views_of (rows : list search_row) : option (list NoteView) :=
  match rows with
  | [] => Some []
  | r :: rows' =>
      match view_of r, views_of rows' with
      | Some v, Some vs => Some (v :: vs)
      | _, _ => None
      end
  end.

(** [search_notes]; [None] is an exception escaping the method. *)
Definition search_notes (db : NotesDatabase) (query category sort_by
    : string) : option (list NoteView) :=
  views_of (search_rows db query category sort_by).

(** One call of a mutating entry point of the application. *)
Inductive step (db : NotesDatabase) : NotesDatabase -> Prop :=
| step_authenticate username password :
    step db (fst (authenticate db username password))
| step_register now username password email :
    step db (fst (register_user db now username password email))
| step_logout :
    step db (logout db)
| step_add_note env title category subject description tags file :
    step db (fst (add_note db env title category subject description tags
                           file))
| step_download now note_id :
    step db (fst (download_note db now note_id))
| step_rate now note_id rating review :
    step db (fst (rate_note db now note_id rating review))
| step_delete note_id :
    step db (fst (delete_note db note_id)).

(** The states of the object over the life of a database file. *)
Inductive reachable : NotesDatabase -> Prop :=
| reach_init clock : reachable (init clock)
| reach_step db db' : reachable db -> step db db' -> reachable db'.

End Primitives.

(** ** Predicates of the rating ledger *)

(** The key of the [UNIQUE(note_id, user_id)] constraint. *)
Definition rating_key (r : rating_row) : Z * Z := (r_note_id r, r_user_id r).

(** A note whose denormalized aggregates agree with the ledger. *)
Definition in_sync (rs : list rating_row) (n : note_row) : Prop :=
  n_rating_sum n = sum_rating rs (n_id n)
  /\ n_rating_count n = count_rating rs (n_id n).

(** ** Containment up to the case of ASCII letters, in the specification's
    words *)

Fixpoint lower (s : string) : string :=
  match s with
  | EmptyString => EmptyString
  | String c s' => String (to_lower c) (lower s')
  end.









(** The pattern [search_notes] builds from [text] is one the engine
    accepts: at most [like_pattern_limit] bytes. *)
Definition within_like_limit (text : string) : Prop :=
  Z.of_nat (String.length ("%" ++ text ++ "%")) <= like_pattern_limit.

(** ** Integrity of the stored data *)

Section Integrity.

Variable json_dumps : list string -> string.

(** What the application keeps true of a note row: its uploader is a
    user row, and its [tags] column is a [json.dumps] of a list. *)
Definition note_ok (us : list user_row) (n : note_row) : Prop :=
  (exists u, In u us /\ u_id u = n_uploader_id n)
  /\ (exists l, n_tags n = json_dumps l).

(** The keys the schema declares unique are unique, every note is
    [note_ok], and the session, if any, is that of a user row. *)
Definition db_invariant (db : NotesDatabase) : Prop :=
  NoDup (map u_id (users db))
  /\ NoDup (map n_id (notes db))
  /\ NoDup (map rating_key (ratings db))
  /\ Forall (note_ok (users db)) (notes db)
  /\ (forall cu, current_user db = Some cu ->
                 exists u, In u (users db) /\ u_id u = s_id cu).

End Integrity.

(** [v] is the view of the note [n]: it repeats the columns of [n], names
    the user who uploaded [n], lists the tags that the [tags] column of [n]
    serializes, and carries the rounded average of [n]. *)
Definition view_of_note (json_dumps : list string -> string)
    (round1 : Q -> Q) (db : NotesDatabase) (n : note_row) (v : NoteView)
    : Prop :=
  v_id v = n_id n
  /\ v_title v = n_title n
  /\ v_category v = n_category n
  /\ v_subject v = n_subject n
  /\ v_description v = n_description n
  /\ (exists u, In u (users db) /\ u_id u = n_uploader_id n
                /\ v_uploader_name v = u_username u)
  /\ v_upload_date v = n_upload_date n
  /\ v_downloads v = n_downloads n
  /\ n_tags n = json_dumps (v_tags v)
  /\ v_file_path v = n_file_path n
  /\ v_file_name v = n_file_name n
  /\ v_file_size v = n_file_size n
  /\ v_avg_rating v = round1 (avg_rating n).

(** Descending order of upload timestamps, as text: on notes and on
    views. *)
Definition uploaded_no_later (a b : note_row) : Prop :=
  String.leb (n_upload_date b) (n_upload_date a) = true.

Definition newer_or_same (a b : NoteView) : Prop :=
  String.leb (v_upload_date b) (v_upload_date a) = true.

(** ** Instances of the library primitives and sample states

    The examples at the end of the file run the model on concrete data.
    They use a JSON codec for lists of printable ASCII strings, a
    transparent stand-in for the digest, exact rounding to tenths and a
    clock that ticks once per insert. *)

Definition dquote : ascii := ascii_of_N 34.
Definition backslash : ascii := ascii_of_N 92.

Fixpoint json_escape (s : string) : string :=
  match s with
  | EmptyString => EmptyString
  | String c s' =>
      if (c =? dquote)%char || (c =? backslash)%char
      then String backslash (String c (json_escape s'))
      else String c (json_escape s')
  end.

Definition json_string (s : string) : string :=
  String dquote (json_escape s ++ String dquote EmptyString).

Fixpoint json_items (l : list string) : string :=
  match l with
  | [] => EmptyString
  | s :: l' =>
      match l' with
      | [] => json_string s
      | _ :: _ => json_string s ++ ", " ++ json_items l'
      end
  end.

Definition ascii_json_dumps (l : list string) : string :=
  "[" ++ json_items l ++ "]".

Inductive json_state : Set :=
| JStart | JOpen | JChars | JEscaped | JClosed | JComma | JSpace | JDone.

(** A scanner for the output of [ascii_json_dumps]; inside a string the
    head of the result is the rest of the string being read. *)
Fixpoint json_scan (st : json_state) (s : string) : option (list string) :=
  match s with
  | EmptyString => match st with JDone => Some [] | _ => None end
  | String c s' =>
      let push (r : option (list string)) :=
        match r with
        | Some (t :: l) => Some (String c t :: l)
        | _ => None
        end in
      match st with
      | JStart => if (c =? "[")%char then json_scan JOpen s' else None
      | JOpen =>
          if (c =? "]")%char then json_scan JDone s'
          else if (c =? dquote)%char then json_scan JChars s'
          else None
      | JChars =>
          if (c =? backslash)%char then json_scan JEscaped s'
          else if (c =? dquote)%char then
            match json_scan JClosed s' with
            | Some l => Some (EmptyString :: l)
            | None => None
            end
          else push (json_scan JChars s')
      | JEscaped => push (json_scan JChars s')
      | JClosed =>
          if (c =? ",")%char then json_scan JComma s'
          else if (c =? "]")%char then json_scan JDone s'
          else None
      | JComma => if (c =? " ")%char then json_scan JSpace s' else None
      | JSpace => if (c =? dquote)%char then json_scan JChars s' else None
      | JDone => None
      end
  end.

Definition ascii_json_loads (s : string) : option (list string) :=
  json_scan JStart s.

Definition plain_digest (password : string) : string := "sha256:" ++ password.

(** Rounding to one decimal, halves upwards, on exact rationals. *)
Definition round_tenths (x : Q) : Q :=
  ((2 * 10 * Qnum x + Z.pos (Qden x)) / (2 * Z.pos (Qden x)) # 10)%Q.

Definition tick (k : nat) : string :=
  "2024-01-01 00:00:0" ++ String (ascii_of_nat (48 + k)) EmptyString.

(** A fresh database, then student1 (user 2) logged in. *)
Definition fresh_db : NotesDatabase :=
  init plain_digest ascii_json_dumps tick.

Definition student_db : NotesDatabase :=
  fst (authenticate plain_digest fresh_db "student1" "pass123").

(** student1 rates the id 6 that no note carries yet, then uploads a file,
    which becomes note 6. *)
Definition orphan_db : NotesDatabase :=
  fst (rate_note student_db "2024-01-02 09:00:00" 6 3 EmptyString).

Definition graphs_env : upload_env :=
  mk_env "20240102_100000" (inr 2048) "2024-01-02 10:00:00".

Definition stale_db : NotesDatabase :=
  fst (add_note ascii_json_dumps orphan_db graphs_env "Graph Theory"
         "Mathematics" "Graphs" "Trees and flows" "graphs, flows"
         (Some "/tmp/gradio/graphs.pdf")).

(** A note none of whose text columns holds a percent sign. *)
Definition algebra_note : note_row :=
  mk_note 7 "Linear Algebra" "Mathematics" "Algebra" (Some "Vector spaces")
    2 "2024-01-03 08:00:00" 0 "[]" "uploaded_files/algebra.pdf"
    "algebra.pdf" 512 0 0.

(** A note whose title ends in a lower-case accented letter (U+00E9). *)
Definition cafe_note : note_row :=
  mk_note 9 ("Caf" ++ bytes [195; 169]%N) "General" "Breaks" None
    2 "2024-01-03 10:00:00" 0 "[]" "uploaded_files/cafe.pdf"
    "cafe.pdf" 128 0 0.


(** ** The remaining read-only methods *)

(** [SELECT DISTINCT category FROM notes ORDER BY category]: the distinct
    values in ascending text order; which duplicate is dropped does not
    show in the result. *)
Fixpoint insert_asc (x : string) (l : list string) : list string :=
  match l with
  | [] => [x]
  | y :: l' => if String.leb x y then x :: y :: l' else y :: insert_asc x l'
  end.

Definition order_by_asc (l : list string) : list string :=
  fold_right insert_asc [] l.

Definition select_distinct (l : list string) : list string :=
  nodup string_dec l.

(** [get_all_categories]. *)
Definition get_all_categories (db : NotesDatabase) : list string :=
  "All" :: order_by_asc (select_distinct (map n_category (notes db))).

(** The dict returned by [get_user_stats]. *)
Record user_stats := mk_stats {
  st_username : string;
  st_email : string;
  st_member_since : string;
  st_total_uploads : Z;
  st_total_downloads_of_uploads : Z;
  st_personal_downloads : Z;
  st_role : string
}.

(** The three ways [get_user_stats] ends: the empty dict without a
    session, a [TypeError] when the session's user row is gone, or the
    statistics. *)
Inductive stats_result : Type :=
| StatsEmpty
| StatsError
| Stats (st : user_stats).

(** [SELECT username, email, created_at FROM users WHERE id = ?]. *)
Definition find_user_by_id (db : NotesDatabase) (id : Z) : option user_row :=
  find (fun u => u_id u =? id) (users db).

(** [SELECT COUNT( * ) ... FROM notes WHERE uploader_id = ?]. *)
Definition count_uploads (ns : list note_row) (user_id : Z) : Z :=
  Z.of_nat (List.length (filter (fun n => n_uploader_id n =? user_id) ns)).

(** [SELECT ... COALESCE(SUM(downloads), 0) FROM notes WHERE
    uploader_id = ?]. *)
Definition sum_downloads (ns : list note_row) (user_id : Z) : Z :=
  fold_right Z.add 0
    (map n_downloads (filter (fun n => n_uploader_id n =? user_id) ns)).

(** [SELECT COUNT( * ) FROM download_history WHERE user_id = ?]. *)
Definition count_downloads (ds : list download_row) (user_id : Z) : Z :=
  Z.of_nat (List.length (filter (fun d => d_user_id d =? user_id) ds)).

Definition get_user_stats (db : NotesDatabase) : stats_result :=
  match current_user db with
  | None => StatsEmpty
  | Some cu =>
      match find_user_by_id db (s_id cu) with
      | None => StatsError
      | Some user =>
          Stats (mk_stats (u_username user) (u_email user)
                   (substring 0 10 (u_created_at user))
                   (count_uploads (notes db) (s_id cu))
                   (sum_downloads (notes db) (s_id cu))
                   (count_downloads (download_history db) (s_id cu))
                   (s_role cu))
      end
  end.

(** [sep.join(parts)] for a one-character separator. *)
Fixpoint join (sep : ascii) (parts : list string) : string :=
  match parts with
  | [] => EmptyString
  | p :: rest =>
      match rest with
      | [] => p
      | _ :: _ => p ++ String sep (join sep rest)
      end
  end.

Fixpoint has_char (c : ascii) (s : string) : bool :=
  match s with
  | EmptyString => false
  | String d s' => (d =? c)%char || has_char c s'
  end.

(** No white-space character stands at the head of [s]. *)
Definition no_leading_space (s : string) : Prop :=
  forall w rest, is_space w = true -> s <> w ++ rest.

(** No white-space character stands at the end of [s]. *)
Definition no_trailing_space (s : string) : Prop :=
  forall w pre, is_space w = true -> s <> pre ++ w.

(** ** Invariants of the accounts and of the counters *)

(** Usernames are unique, the table is never empty, the only account of
    role admin is the seeded one (id 1, username admin), and a session
    repeats the id, username and role of a stored account. *)
Definition account_invariant (db : NotesDatabase) : Prop :=
  users db <> []
  /\ NoDup (map u_username (users db))
  /\ (forall u, In u (users db) -> u_role u = "admin" ->
                u_id u = 1 /\ u_username u = "admin")
  /\ (forall cu, current_user db = Some cu ->
                 exists u, In u (users db) /\ u_id u = s_id cu
                           /\ u_username u = s_username cu
                           /\ u_role u = s_role cu).

(** The aggregates of a note are those of some set of ratings in 1..5. *)
Definition aggregates_bounded (n : note_row) : Prop :=
  0 <= n_rating_count n
  /\ n_rating_count n <= n_rating_sum n <= 5 * n_rating_count n.

(** Stored ratings lie in 1..5, aggregates are bounded, download counters
    are not negative and no note id exceeds the AUTOINCREMENT counter. *)
Definition counter_invariant (db : NotesDatabase) : Prop :=
  Forall (fun r => 1 <= r_rating r <= 5) (ratings db)
  /\ Forall aggregates_bounded (notes db)
  /\ Forall (fun n => 0 <= n_downloads n) (notes db)
  /\ Forall (fun n => 1 <= n_id n <= notes_seq db) (notes db).

(** The columns of a note that no operation rewrites. *)
Definition same_metadata (n n' : note_row) : Prop :=
  n_id n' = n_id n /\ n_title n' = n_title n
  /\ n_category n' = n_category n /\ n_subject n' = n_subject n
  /\ n_description n' = n_description n
  /\ n_uploader_id n' = n_uploader_id n
  /\ n_upload_date n' = n_upload_date n /\ n_tags n' = n_tags n
  /\ n_file_path n' = n_file_path n /\ n_file_name n' = n_file_name n
  /\ n_file_size n' = n_file_size n.

Section Traces.

Variable _hash_password : string -> string.
Variable json_dumps : list string -> string.

(** Any number of calls, one after the other. *)
Inductive steps : NotesDatabase -> NotesDatabase -> Prop :=
| steps_refl db : steps db db
| steps_step db db' db'' :
    steps db db' -> step _hash_password json_dumps db' db'' -> steps db db''.

End Traces.

(** ** More sample states *)

(** alice registers on the fresh database. *)
Definition alice_db : NotesDatabase :=
  fst (register_user plain_digest fresh_db "2024-01-02 08:00:00" "alice"
         "secret1" "a@x.edu").

(** student1 downloads note 1. *)
Definition downloaded_db : NotesDatabase :=
  fst (download_note student_db "2024-01-02 09:30:00" 1).

(** student1 deletes their own note 2, then uploads a file. *)
Definition deleted_db : NotesDatabase := fst (delete_note student_db 2).

Definition reupload_db : NotesDatabase :=
  fst (add_note ascii_json_dumps deleted_db graphs_env "Graph Theory"
         "Mathematics" "Graphs" "Trees and flows" "graphs, flows"
         (Some "/tmp/gradio/graphs.pdf")).

(** The admin logged in on the fresh database. *)
Definition admin_db : NotesDatabase :=
  fst (authenticate plain_digest fresh_db "admin" "admin123").

(** student1 rates note 1 with five stars. *)
Definition rated_db : NotesDatabase :=
  fst (rate_note student_db "2024-01-02 09:00:00" 1 5 "Clear").

(** student1 rates note 2 (their own) and note 1, then downloads both. *)
Definition busy_db : NotesDatabase :=
  let db1 := fst (rate_note student_db "2024-01-02 09:00:00" 2 4 "Mine") in
  let db2 := fst (rate_note db1 "2024-01-02 09:01:00" 1 5 "Clear") in
  let db3 := fst (download_note db2 "2024-01-02 09:02:00" 2) in
  fst (download_note db3 "2024-01-02 09:03:00" 1).


(** A line of tags padded with a no-break space (U+00A0) and an
    ideographic space (U+3000). *)
Definition padded_tags : string :=
  bytes [194; 160]%N ++ "graphs," ++ bytes [194; 160]%N ++ ", flows"
  ++ bytes [227; 128; 128]%N.

(** * Properties *)

(** ** Lookups after row-wise updates *)

Lemma find_map_preserved (f : note_row -> note_row) (ns : list note_row)
    (id : Z) :
  (forall n, n_id (f n) = n_id n) ->
  find (fun n => n_id n =? id) (map f ns)
  = option_map f (find (fun n => n_id n =? id) ns).
Proof.
  intros Hid. induction ns as [|n ns IH]; simpl; [reflexivity|].
  rewrite Hid. destruct (n_id n =? id); [reflexivity | exact IH].
Qed.

Lemma find_note_filtered_out (ns : list note_row) (id : Z) :
  find (fun n => n_id n =? id) (filter (fun n => negb (n_id n =? id)) ns)
  = None.
Proof.
  induction ns as [|n ns IH]; simpl; [reflexivity|].
  destruct (n_id n =? id) eqn:E; simpl; [exact IH|].
  rewrite E. exact IH.
Qed.

Lemma find_note_id db id n : find_note db id = Some n -> n_id n = id.
Proof.
  unfold find_note. intros H. apply find_some in H. destruct H as [_ H].
  now apply Z.eqb_eq.
Qed.

Lemma rating_in_range v : 1 <= v <= 5 -> (v <? 1) || (v >? 5) = false.
Proof.
  intros [H1 H5]. apply orb_false_iff. split.
  - now apply Z.ltb_ge.
  - rewrite Z.gtb_ltb. now apply Z.ltb_ge.
Qed.

(** ** Download ledger *)

Lemma find_bump_other (ns : list note_row) (id other : Z) :
  other <> id ->
  find (fun n => n_id n =? other) (bump_downloads ns id)
  = find (fun n => n_id n =? other) ns.
Proof.
  intros Hne. induction ns as [|n ns IH]; simpl; [reflexivity|].
  destruct (n_id n =? id) eqn:E; simpl.
  - apply Z.eqb_eq in E.
    assert (Hn : (n_id n =? other) = false) by (apply Z.eqb_neq; congruence).
    now rewrite Hn.
  - destruct (n_id n =? other); [reflexivity | exact IH].
Qed.

(** C4. With a session and the note present, [download_note] succeeds with
    the note's file path, the note's [downloads] grows by exactly one (its
    other columns stay), one [download_history] row for (note, user) is
    appended and nothing else changes: every other note id looks up as
    before, and users, ratings and the session stay. Without a session it
    fails with "Please login first"; with a session and an id that the
    engine can look up (a 64-bit integer) and that no note carries, it
    fails with "Note not found"; both failures return the state
    untouched. *)
Theorem download_note_spec (db : NotesDatabase) (now : string) (note_id : Z) :
  (forall cu n,
      current_user db = Some cu -> find_note db note_id = Some n ->
      exists db' message,
        download_note db now note_id
        = (db', (true, message, Some (n_file_path n)))
        /\ find_note db' note_id
           = Some (mk_note (n_id n) (n_title n) (n_category n) (n_subject n)
                     (n_description n) (n_uploader_id n) (n_upload_date n)
                     (n_downloads n + 1) (n_tags n) (n_file_path n)
                     (n_file_name n) (n_file_size n) (n_rating_sum n)
                     (n_rating_count n))
        /\ (forall other, other <> note_id ->
                          find_note db' other = find_note db other)
        /\ download_history db'
           = (download_history db ++ [mk_download note_id (s_id cu) now])%list
        /\ ratings db' = ratings db
        /\ users db' = users db
        /\ current_user db' = current_user db)
  /\ (current_user db = None ->
      download_note db now note_id = (db, (false, "Please login first", None)))
  /\ (forall cu,
      current_user db = Some cu -> sqlite_integer note_id ->
      find_note db note_id = None ->
      download_note db now note_id = (db, (false, "Note not found", None))).
Proof.
  unfold download_note. split; [|split].
  - intros cu n Hcu Hn. rewrite Hcu, Hn.
    eexists. eexists. split; [reflexivity|].
    split; [|split; [|repeat split; exact Hcu]].
    + unfold find_note, bump_downloads in *. simpl.
      rewrite find_map_preserved.
      * rewrite Hn. simpl.
        apply find_some in Hn. destruct Hn as [_ Hn]. now rewrite Hn.
      * intros m. now destruct (n_id m =? note_id).
    + intros other Hother. unfold find_note. simpl.
      apply find_bump_other. exact Hother.
  - intros Hcu. now rewrite Hcu.
  - intros cu Hcu _ Hn. now rewrite Hcu, Hn.
Qed.

(** ** Catalog deletion *)

(** C5. A session that is neither the uploader of an existing note nor of
    role admin gets "You don't have permission to delete this note" and the
    whole state (the note, its ratings and its download rows) is returned
    as it was. *)
Theorem delete_note_denied (db : NotesDatabase) (note_id : Z) (cu : session)
    (n : note_row) :
  current_user db = Some cu ->
  find_note db note_id = Some n ->
  n_uploader_id n <> s_id cu ->
  s_role cu <> "admin" ->
  delete_note db note_id
  = (db, (false, "You don't have permission to delete this note")).
Proof.
  intros Hcu Hn Hown Hrole. unfold delete_note. rewrite Hcu, Hn.
  apply Z.eqb_neq in Hown. apply String.eqb_neq in Hrole.
  now rewrite Hown, Hrole.
Qed.

(** C6. When the uploader or an admin deletes an existing note the call
    succeeds, no [ratings] row and no [download_history] row of that id is
    left, and looking the id up again finds nothing. *)
Theorem delete_note_cascade (db : NotesDatabase) (note_id : Z) (cu : session)
    (n : note_row) :
  current_user db = Some cu ->
  find_note db note_id = Some n ->
  n_uploader_id n = s_id cu \/ s_role cu = "admin" ->
  exists db',
    delete_note db note_id = (db', (true, "✅ Note deleted successfully"))
    /\ find_note db' note_id = None
    /\ (forall r, In r (ratings db') -> r_note_id r <> note_id)
    /\ (forall d, In d (download_history db') -> d_note_id d <> note_id).
Proof.
  intros Hcu Hn Hauth. unfold delete_note. rewrite Hcu, Hn.
  assert (Hguard : negb (n_uploader_id n =? s_id cu)
                   && negb (s_role cu =? "admin")%string = false).
  { destruct Hauth as [H|H].
    - apply Z.eqb_eq in H. now rewrite H.
    - apply String.eqb_eq in H. rewrite H. apply andb_false_r. }
  rewrite Hguard. eexists. split; [reflexivity|]. simpl. repeat split.
  - apply find_note_filtered_out.
  - intros r Hr. apply filter_In in Hr. destruct Hr as [_ Hr].
    apply negb_true_iff in Hr. now apply Z.eqb_neq.
  - intros d Hd. apply filter_In in Hd. destruct Hd as [_ Hd].
    apply negb_true_iff in Hd. now apply Z.eqb_neq.
Qed.

(** ** Credential store *)

(** C9. When no user row carries the username, or the stored digest differs
    from the digest of the password, [authenticate] answers "Invalid
    username or password" and returns the state, and with it
    [current_user], exactly as it was. *)
Theorem authenticate_failure_keeps_session (sha256 : string -> string)
    (db : NotesDatabase) (username password : string) :
  (find_user db username = None
   \/ exists u, find_user db username = Some u
                /\ u_password u <> sha256 password) ->
  authenticate sha256 db username password
  = (db, (false, "Invalid username or password", None))
  /\ current_user (fst (authenticate sha256 db username password))
     = current_user db.
Proof.
  intros Hfail. unfold authenticate.
  destruct Hfail as [Hnone | [u [Hu Hpw]]].
  - rewrite Hnone. now split.
  - rewrite Hu. apply String.eqb_neq in Hpw. rewrite Hpw. now split.
Qed.

(** ** Rating ledger *)

Lemma overwrite_note_id id u v rev r :
  r_note_id (overwrite id u v rev r) = r_note_id r.
Proof. unfold overwrite. now destruct (same_key id u r). Qed.

Lemma overwrite_key id u v rev r :
  rating_key (overwrite id u v rev r) = rating_key r.
Proof. unfold overwrite. now destruct (same_key id u r). Qed.

Lemma same_key_iff id u r : same_key id u r = true <-> rating_key r = (id, u).
Proof.
  unfold same_key, rating_key. rewrite andb_true_iff, !Z.eqb_eq.
  split; [intros [-> ->]; reflexivity | intros E; now inversion E].
Qed.

Lemma same_key_note id u r : same_key id u r = true -> r_note_id r = id.
Proof. intros E. apply same_key_iff in E. now inversion E. Qed.

Lemma upsert_rating_unfold rs id u v rev now :
  upsert_rating rs id u v rev now
  = if existsb (same_key id u) rs
    then map (overwrite id u v rev) rs
    else (rs ++ [mk_rating id u v rev now])%list.
Proof. reflexivity. Qed.

(** The upsert leaves the rows of every other note alone. *)
Lemma ratings_of_upsert_other rs id u v rev now m :
  m <> id ->
  ratings_of (upsert_rating rs id u v rev now) m = ratings_of rs m.
Proof.
  intros Hm. rewrite upsert_rating_unfold. unfold ratings_of.
  destruct (existsb (same_key id u) rs).
  - induction rs as [|r rs IH]; simpl; [reflexivity|].
    rewrite overwrite_note_id.
    destruct (r_note_id r =? m) eqn:E; rewrite IH; [|reflexivity].
    f_equal. unfold overwrite.
    destruct (same_key id u r) eqn:K; [|reflexivity].
    apply same_key_note in K. apply Z.eqb_eq in E. congruence.
  - rewrite filter_app. simpl.
    apply Z.eqb_neq in Hm. rewrite Z.eqb_sym in Hm. rewrite Hm.
    apply app_nil_r.
Qed.

Lemma in_update_rating_summary ns rs id N :
  In N (update_rating_summary ns rs id) ->
  (n_id N = id /\ n_rating_sum N = sum_rating rs id
   /\ n_rating_count N = count_rating rs id)
  \/ (n_id N <> id /\ In N ns).
Proof.
  unfold update_rating_summary. intros HN. apply in_map_iff in HN.
  destruct HN as [n [E Hn]]. destruct (n_id n =? id) eqn:K.
  - left. subst N. simpl. apply Z.eqb_eq in K. now repeat split.
  - right. subst N. apply Z.eqb_neq in K. now split.
Qed.

Lemma filter_none {A : Type} (f : A -> bool) (l : list A) :
  (forall x, In x l -> f x = false) -> filter f l = [].
Proof.
  intros Hf. rewrite (filter_ext_in f (fun _ => false) l Hf).
  apply filter_false.
Qed.

(** Re-rating under the UNIQUE constraint: one row changes its value. *)
Lemma sum_rating_overwrite rs id u v rev r :
  NoDup (map rating_key rs) -> In r rs -> rating_key r = (id, u) ->
  sum_rating (map (overwrite id u v rev) rs) id
  = sum_rating rs id + (v - r_rating r).
Proof.
  unfold sum_rating, ratings_of.
  induction rs as [|r0 rs IH]; intros Hnd Hin Hkey; [contradiction|].
  simpl in Hnd. inversion Hnd as [|k ks Hnotin Hnd']; subst.
  simpl. rewrite overwrite_note_id.
  destruct Hin as [-> | Hin].
  - assert (Hid : r_note_id r = id) by now inversion Hkey.
    apply Z.eqb_eq in Hid. rewrite Hid. simpl.
    assert (Hrest : map (overwrite id u v rev) rs = rs).
    { rewrite <- (map_id rs) at 2. apply map_ext_in. intros x Hx.
      unfold overwrite. destruct (same_key id u x) eqn:K; [|reflexivity].
      exfalso. apply Hnotin. apply same_key_iff in K. rewrite Hkey, <- K.
      now apply in_map. }
    rewrite Hrest. unfold overwrite.
    apply same_key_iff in Hkey. rewrite Hkey. simpl. lia.
  - specialize (IH Hnd' Hin Hkey).
    assert (Hr0 : same_key id u r0 = false).
    { destruct (same_key id u r0) eqn:K; [|reflexivity].
      exfalso. apply Hnotin. apply same_key_iff in K. rewrite K, <- Hkey.
      now apply in_map. }
    destruct (r_note_id r0 =? id); simpl.
    + rewrite IH. unfold overwrite at 1. rewrite Hr0. lia.
    + exact IH.
Qed.

Lemma count_rating_overwrite rs id u v rev m :
  count_rating (map (overwrite id u v rev) rs) m = count_rating rs m.
Proof.
  unfold count_rating, ratings_of. f_equal.
  induction rs as [|r rs IH]; simpl; [reflexivity|].
  rewrite overwrite_note_id. destruct (r_note_id r =? m); simpl; now rewrite IH.
Qed.

Lemma filter_same_key_overwrite rs id u v rev r :
  NoDup (map rating_key rs) -> In r rs -> rating_key r = (id, u) ->
  filter (same_key id u) (map (overwrite id u v rev) rs)
  = [mk_rating id u v rev (r_created_at r)].
Proof.
  induction rs as [|r0 rs IH]; intros Hnd Hin Hkey; [contradiction|].
  simpl in Hnd. inversion Hnd as [|k ks Hnotin Hnd']; subst.
  assert (Hout : forall x, In x rs -> rating_key x <> rating_key r0).
  { intros x Hx E. apply Hnotin. rewrite <- E. now apply in_map. }
  simpl. destruct Hin as [-> | Hin].
  - pose proof Hkey as K. apply same_key_iff in K.
    assert (Hr : overwrite id u v rev r
                 = mk_rating id u v rev (r_created_at r)).
    { unfold overwrite. rewrite K. inversion Hkey as [[Hid Hu]].
      now rewrite Hid, Hu. }
    rewrite Hr. unfold same_key at 1. simpl. rewrite !Z.eqb_refl. simpl.
    f_equal. apply filter_none. intros x Hx. apply not_true_iff_false.
    intros Kx.
    apply in_map_iff in Hx. destruct Hx as [y [<- Hy]].
    apply same_key_iff in Kx. rewrite overwrite_key in Kx.
    apply (Hout y Hy). now rewrite Kx, Hkey.
  - assert (Hr0 : same_key id u r0 = false).
    { destruct (same_key id u r0) eqn:K; [|reflexivity].
      exfalso. apply same_key_iff in K. apply (Hout r Hin). now rewrite K. }
    assert (Hsame : overwrite id u v rev r0 = r0).
    { unfold overwrite. now rewrite Hr0. }
    rewrite Hsame, Hr0. now apply IH.
Qed.

Lemma upsert_rating_has_row rs id u v rev now :
  exists r, In r (upsert_rating rs id u v rev now)
            /\ rating_key r = (id, u) /\ r_rating r = v.
Proof.
  rewrite upsert_rating_unfold. destruct (existsb (same_key id u) rs) eqn:E.
  - apply existsb_exists in E. destruct E as [r [Hr K]].
    exists (overwrite id u v rev r). split; [now apply in_map|].
    rewrite overwrite_key. split; [now apply same_key_iff|].
    unfold overwrite. now rewrite K.
  - exists (mk_rating id u v rev now). split; [|now split].
    apply in_or_app. right. now left.
Qed.

Lemma upsert_rating_unique rs id u v rev now :
  NoDup (map rating_key rs) ->
  NoDup (map rating_key (upsert_rating rs id u v rev now)).
Proof.
  intros Hnd. rewrite upsert_rating_unfold.
  destruct (existsb (same_key id u) rs) eqn:E.
  - rewrite map_map.
    rewrite (map_ext _ rating_key (fun r => overwrite_key id u v rev r)).
    exact Hnd.
  - rewrite map_app. simpl. apply NoDup_app.
    + exact Hnd.
    + constructor; [intros [] | constructor].
    + intros k Hk [<- | []]. apply in_map_iff in Hk.
      destruct Hk as [r [Hkey Hr]].
      assert (existsb (same_key id u) rs = true).
      { apply existsb_exists. exists r. split; [exact Hr|].
        now apply same_key_iff. }
      congruence.
Qed.

Lemma rate_note_success db now id v review cu :
  current_user db = Some cu -> 1 <= v <= 5 ->
  rate_note db now id v review
  = (set_notes
       (set_ratings db (upsert_rating (ratings db) id (s_id cu) v review now))
       (update_rating_summary (notes db)
          (upsert_rating (ratings db) id (s_id cu) v review now) id)
       (notes_seq db),
     (true, "✅ Rating submitted successfully!")).
Proof.
  intros Hcu Hv. unfold rate_note. rewrite Hcu.
  now rewrite (rating_in_range v Hv).
Qed.

Lemma rate_note_failure db now id v review :
  current_user db = None \/ ~ 1 <= v <= 5 ->
  fst (rate_note db now id v review) = db.
Proof.
  intros Hfail. unfold rate_note. destruct (current_user db) as [cu|].
  - destruct ((v <? 1) || (v >? 5)) eqn:E; [reflexivity|].
    destruct Hfail as [Hfail | Hfail]; [discriminate|].
    exfalso. apply Hfail. apply orb_false_iff in E. destruct E as [E1 E5].
    apply Z.ltb_ge in E1. rewrite Z.gtb_ltb in E5. apply Z.ltb_ge in E5. lia.
  - reflexivity.
Qed.

Lemma find_update_rating_summary_other ns rs id other :
  other <> id ->
  find (fun n => n_id n =? other) (update_rating_summary ns rs id)
  = find (fun n => n_id n =? other) ns.
Proof.
  intros Hne. induction ns as [|n ns IH]; simpl; [reflexivity|].
  destruct (n_id n =? id) eqn:E; simpl.
  - apply Z.eqb_eq in E.
    assert (Hn : (n_id n =? other) = false) by (apply Z.eqb_neq; congruence).
    now rewrite Hn.
  - destruct (n_id n =? other); [reflexivity | exact IH].
Qed.

Lemma rate_note_other_note db now id v review other :
  other <> id ->
  find_note (fst (rate_note db now id v review)) other = find_note db other
  /\ ratings_of (ratings (fst (rate_note db now id v review))) other
     = ratings_of (ratings db) other.
Proof.
  intros Hne. unfold rate_note. destruct (current_user db) as [cu|];
    [|now split].
  destruct ((v <? 1) || (v >? 5)); [now split|]. simpl. split.
  - unfold find_note. simpl. now apply find_update_rating_summary_other.
  - now apply ratings_of_upsert_other.
Qed.

(** C1, as the code has it. A successful [rate_note] on [note_id] leaves
    every note row of that id with [rating_sum] and [rating_count] equal to
    the sum and the number of the [ratings] rows of that note, whatever
    they were before. No call, successful or not, touches the row or the
    ledger rows of any other note, so when every note agreed with the
    ledger before a call, every note agrees with it afterwards. *)
Theorem rate_note_recompute (db : NotesDatabase) (now : string)
    (note_id rating : Z) (review : string) :
  (forall cu N,
      current_user db = Some cu -> 1 <= rating <= 5 ->
      In N (notes (fst (rate_note db now note_id rating review))) ->
      n_id N = note_id ->
      in_sync (ratings (fst (rate_note db now note_id rating review))) N)
  /\ (forall other,
        other <> note_id ->
        find_note (fst (rate_note db now note_id rating review)) other
        = find_note db other
        /\ ratings_of (ratings (fst (rate_note db now note_id rating review)))
             other
           = ratings_of (ratings db) other)
  /\ ((forall N, In N (notes db) -> in_sync (ratings db) N) ->
      forall N,
        In N (notes (fst (rate_note db now note_id rating review))) ->
        in_sync (ratings (fst (rate_note db now note_id rating review))) N).
Proof.
  split; [|split].
  - intros cu N Hcu Hv HN Hid.
    rewrite (rate_note_success db now note_id rating review cu Hcu Hv) in *.
    simpl in *. apply in_update_rating_summary in HN.
    destruct HN as [[_ [Hs Hc]] | [Hne _]]; [|contradiction].
    unfold in_sync. now rewrite Hid.
  - intros other Hne. now apply rate_note_other_note.
  - intros Hall N HN.
    destruct (current_user db) as [cu|] eqn:Hcu.
    + destruct (Z_le_dec 1 rating) as [H1|H1];
        [destruct (Z_le_dec rating 5) as [H5|H5]|].
      * rewrite (rate_note_success db now note_id rating review cu Hcu
                   (conj H1 H5)) in *.
        simpl in *. apply in_update_rating_summary in HN.
        destruct HN as [[Hid [Hs Hc]] | [Hne Hin]].
        -- unfold in_sync. now rewrite Hid.
        -- destruct (Hall N Hin) as [Hs Hc]. unfold in_sync.
           unfold sum_rating, count_rating.
           rewrite (ratings_of_upsert_other (ratings db) note_id (s_id cu)
                      rating review now (n_id N) Hne).
           now split.
      * rewrite rate_note_failure in * by (right; lia). now apply Hall.
      * rewrite rate_note_failure in * by (right; lia). now apply Hall.
    + rewrite rate_note_failure in * by now left. now apply Hall.
Qed.

Lemma find_note_update_rating_summary db rs id n :
  find_note db id = Some n ->
  find (fun m => n_id m =? id) (update_rating_summary (notes db) rs id)
  = Some (mk_note (n_id n) (n_title n) (n_category n) (n_subject n)
            (n_description n) (n_uploader_id n) (n_upload_date n)
            (n_downloads n) (n_tags n) (n_file_path n) (n_file_name n)
            (n_file_size n) (sum_rating rs id) (count_rating rs id)).
Proof.
  intros Hn. unfold update_rating_summary. rewrite find_map_preserved.
  - unfold find_note in Hn. rewrite Hn. simpl.
    apply find_some in Hn. destruct Hn as [_ Hn]. now rewrite Hn.
  - intros m. now destruct (n_id m =? id).
Qed.

(** Re-rating from any state: when the session's user already has a row
    [r] for an existing note, [rate_note] rewrites that row in place. *)
Lemma rate_note_overwrites (db : NotesDatabase) (now : string)
    (note_id rating : Z) (review : string) (cu : session) (n : note_row)
    (r : rating_row) :
  NoDup (map rating_key (ratings db)) ->
  current_user db = Some cu ->
  find_note db note_id = Some n ->
  In r (ratings db) -> rating_key r = (note_id, s_id cu) ->
  1 <= rating <= 5 ->
  exists n',
    find_note (fst (rate_note db now note_id rating review)) note_id = Some n'
    /\ n_rating_count n' = count_rating (ratings db) note_id
    /\ n_rating_sum n'
       = sum_rating (ratings db) note_id + (rating - r_rating r)
    /\ List.length (ratings (fst (rate_note db now note_id rating review)))
       = List.length (ratings db)
    /\ filter (same_key note_id (s_id cu))
         (ratings (fst (rate_note db now note_id rating review)))
       = [mk_rating note_id (s_id cu) rating review (r_created_at r)].
Proof.
  intros Hnd Hcu Hn Hr Hkey Hv.
  rewrite (rate_note_success db now note_id rating review cu Hcu Hv).
  cbn [fst].
  assert (Hex : existsb (same_key note_id (s_id cu)) (ratings db) = true).
  { apply existsb_exists. exists r.
    split; [exact Hr | now apply same_key_iff]. }
  assert (Hrs : upsert_rating (ratings db) note_id (s_id cu) rating review now
                = map (overwrite note_id (s_id cu) rating review) (ratings db)).
  { rewrite upsert_rating_unfold. now rewrite Hex. }
  rewrite Hrs. eexists. split.
  - unfold find_note at 1. simpl.
    apply (find_note_update_rating_summary db _ note_id n Hn).
  - simpl. split; [apply count_rating_overwrite|]. split.
    + now apply sum_rating_overwrite.
    + split; [apply length_map | now apply filter_same_key_overwrite].
Qed.

(** Two calls in a row: when the logged-in user rates an existing note
    with [v1] and then again with [v2], the second call leaves the note's
    [rating_count] as the first call left it, moves [rating_sum] by exactly
    [v2 - v1], adds no row to the ledger, and the single row of
    (note, user) carries [v2] and the new review. *)
Lemma rate_note_twice (db : NotesDatabase) (now1 now2 : string)
    (note_id v1 v2 : Z) (review1 review2 : string) (cu : session)
    (n : note_row) :
  NoDup (map rating_key (ratings db)) ->
  current_user db = Some cu ->
  find_note db note_id = Some n ->
  1 <= v1 <= 5 -> 1 <= v2 <= 5 ->
  let db1 := fst (rate_note db now1 note_id v1 review1) in
  let db2 := fst (rate_note db1 now2 note_id v2 review2) in
  exists n1 n2 created_at,
    find_note db1 note_id = Some n1
    /\ find_note db2 note_id = Some n2
    /\ n_rating_count n2 = n_rating_count n1
    /\ n_rating_sum n2 = n_rating_sum n1 + (v2 - v1)
    /\ List.length (ratings db2) = List.length (ratings db1)
    /\ filter (same_key note_id (s_id cu)) (ratings db2)
       = [mk_rating note_id (s_id cu) v2 review2 created_at].
Proof.
  intros Hnd Hcu Hn Hv1 Hv2 db1 db2.
  destruct (upsert_rating_has_row (ratings db) note_id (s_id cu) v1 review1
              now1) as [r [Hr [Hkey Hval]]].
  assert (Hdb1 : db1 = set_notes
                   (set_ratings db
                      (upsert_rating (ratings db) note_id (s_id cu) v1 review1
                         now1))
                   (update_rating_summary (notes db)
                      (upsert_rating (ratings db) note_id (s_id cu) v1 review1
                         now1) note_id)
                   (notes_seq db)).
  { unfold db1. now rewrite (rate_note_success db now1 note_id v1 review1 cu). }
  assert (Hf1 : find_note db1 note_id
                = Some (mk_note (n_id n) (n_title n) (n_category n)
                          (n_subject n) (n_description n) (n_uploader_id n)
                          (n_upload_date n) (n_downloads n) (n_tags n)
                          (n_file_path n) (n_file_name n) (n_file_size n)
                          (sum_rating (ratings db1) note_id)
                          (count_rating (ratings db1) note_id))).
  { rewrite Hdb1. unfold find_note at 1. simpl.
    now apply find_note_update_rating_summary. }
  assert (Hnd1 : NoDup (map rating_key (ratings db1))).
  { rewrite Hdb1. simpl. now apply upsert_rating_unique. }
  assert (Hcu1 : current_user db1 = Some cu) by (rewrite Hdb1; exact Hcu).
  assert (Hr1 : In r (ratings db1)) by (rewrite Hdb1; exact Hr).
  destruct (rate_note_overwrites db1 now2 note_id v2 review2 cu _ r
              Hnd1 Hcu1 Hf1 Hr1 Hkey Hv2)
    as [n2 [Hf2 [Hc [Hs [Hlen Hrow]]]]].
  eexists. exists n2, (r_created_at r). split; [exact Hf1|].
  split; [exact Hf2|]. simpl. rewrite Hval in Hs. now repeat split.
Qed.

(** C2, as the code has it. Under the UNIQUE(note_id, user_id)
    constraint, take a note that is in the store and whose [rating_sum] and
    [rating_count] agree with its [ratings] rows, and a logged-in user who
    already holds a row [r] for it, of value [v1 = r_rating r]. A
    [rate_note] by that user on that note with [v2] in 1..5 succeeds, leaves
    the note's [rating_count] unchanged, moves its [rating_sum] by exactly
    [v2 - v1], adds no row to the ledger, and the single row of
    (note, user) carries [v2] and the new review. *)
Theorem rate_note_rerate (db : NotesDatabase) (now : string)
    (note_id v2 : Z) (review : string) (cu : session) (n : note_row)
    (r : rating_row) :
  NoDup (map rating_key (ratings db)) ->
  current_user db = Some cu ->
  find_note db note_id = Some n ->
  in_sync (ratings db) n ->
  In r (ratings db) -> rating_key r = (note_id, s_id cu) ->
  1 <= v2 <= 5 ->
  snd (rate_note db now note_id v2 review)
  = (true, "✅ Rating submitted successfully!")
  /\ exists n',
       find_note (fst (rate_note db now note_id v2 review)) note_id = Some n'
       /\ n_rating_count n' = n_rating_count n
       /\ n_rating_sum n' = n_rating_sum n + (v2 - r_rating r)
       /\ List.length (ratings (fst (rate_note db now note_id v2 review)))
          = List.length (ratings db)
       /\ filter (same_key note_id (s_id cu))
            (ratings (fst (rate_note db now note_id v2 review)))
          = [mk_rating note_id (s_id cu) v2 review (r_created_at r)].
Proof.
  intros Hnd Hcu Hn [Hsum Hcount] Hr Hkey Hv.
  destruct (rate_note_overwrites db now note_id v2 review cu n r
              Hnd Hcu Hn Hr Hkey Hv) as [n' [Hf [Hc [Hs [Hlen Hrow]]]]].
  split; [now rewrite (rate_note_success db now note_id v2 review cu Hcu Hv)|].
  assert (Hid : n_id n = note_id).
  { unfold find_note in Hn. apply find_some in Hn.
    now apply Z.eqb_eq. }
  rewrite Hid in Hsum, Hcount.
  exists n'. rewrite Hsum, Hcount. now repeat split.
Qed.

Lemma update_rating_summary_absent ns rs id :
  find (fun n => n_id n =? id) ns = None ->
  update_rating_summary ns rs id = ns.
Proof.
  intros Hnone. unfold update_rating_summary.
  rewrite <- (map_id ns) at 2. apply map_ext_in. intros n Hn.
  now rewrite (find_none _ _ Hnone n Hn).
Qed.

(** C3, what the code does instead. [rate_note] never looks the note up:
    with a session and a value in 1..5, a call on an id that no note
    carries answers "Rating submitted successfully", leaves [notes] as it
    was and stores a [ratings] row for that id. No "Note not found" is
    produced on this path. *)
Theorem rate_note_absent_note_accepted (db : NotesDatabase) (now : string)
    (note_id rating : Z) (review : string) (cu : session) :
  current_user db = Some cu ->
  1 <= rating <= 5 ->
  find_note db note_id = None ->
  rate_note db now note_id rating review
  = (set_ratings db
       (upsert_rating (ratings db) note_id (s_id cu) rating review now),
     (true, "✅ Rating submitted successfully!"))
  /\ exists r,
       In r (ratings (fst (rate_note db now note_id rating review)))
       /\ r_note_id r = note_id /\ r_user_id r = s_id cu
       /\ r_rating r = rating.
Proof.
  intros Hcu Hv Hnone.
  rewrite (rate_note_success db now note_id rating review cu Hcu Hv).
  unfold find_note in Hnone.
  rewrite (update_rating_summary_absent _ _ _ Hnone). split; [reflexivity|].
  destruct (upsert_rating_has_row (ratings db) note_id (s_id cu) rating
              review now) as [r [Hr [Hkey Hval]]].
  exists r. unfold rating_key in Hkey. injection Hkey as Hn Hu.
  repeat split; assumption.
Qed.

(** ** The LIKE operator *)

Lemma append_assoc (a b c : string) : (a ++ b) ++ c = a ++ (b ++ c).
Proof. induction a as [|x a IH]; simpl; [reflexivity | now rewrite IH]. Qed.

Lemma append_empty_r (a : string) : a ++ EmptyString = a.
Proof. induction a as [|x a IH]; simpl; [reflexivity | now rewrite IH]. Qed.

Lemma lower_app (a b : string) : lower (a ++ b) = lower a ++ lower b.
Proof. induction a as [|x a IH]; simpl; [reflexivity | now rewrite IH]. Qed.

Lemma to_lower_idem (c : ascii) : to_lower (to_lower c) = to_lower c.
Proof.
  destruct c as [[] [] [] [] [] [] [] []]; reflexivity.
Qed.

Lemma lower_idem (s : string) : lower (lower s) = lower s.
Proof.
  induction s as [|c s IH]; simpl; [reflexivity|].
  now rewrite to_lower_idem, IH.
Qed.

Lemma to_lower_percent (c : ascii) :
  (to_lower c =? "%")%char = (c =? "%")%char.
Proof. destruct c as [[] [] [] [] [] [] [] []]; reflexivity. Qed.

Lemma to_lower_underscore (c : ascii) :
  (to_lower c =? "_")%char = (c =? "_")%char.
Proof. destruct c as [[] [] [] [] [] [] [] []]; reflexivity. Qed.

(** Case folding touches ASCII letters only, so it keeps the role a byte
    plays in a character. *)
Lemma to_lower_continuation (c : ascii) :
  is_continuation (to_lower c) = is_continuation c.
Proof. destruct c as [[] [] [] [] [] [] [] []]; reflexivity. Qed.

Lemma to_lower_lead (c : ascii) :
  (192 <=? N_of_ascii (to_lower c))%N = (192 <=? N_of_ascii c)%N.
Proof. destruct c as [[] [] [] [] [] [] [] []]; reflexivity. Qed.

Lemma skip_continuation_length (s : string) :
  (String.length (skip_continuation s) <= String.length s)%nat.
Proof.
  induction s as [|c s IH]; simpl; [lia|].
  destruct (is_continuation c); simpl; lia.
Qed.

Lemma after_char_length (d : ascii) (s : string) :
  (String.length (after_char d s) <= String.length s)%nat.
Proof.
  unfold after_char. destruct (192 <=? N_of_ascii d)%N; [|lia].
  apply skip_continuation_length.
Qed.

(** Induction over a text, one character at a time. *)
Lemma char_ind (P : string -> Prop) :
  P EmptyString ->
  (forall d s, P (after_char d s) -> P (String d s)) ->
  forall s, P s.
Proof.
  intros H0 HS s.
  assert (H : forall n t, (String.length t <= n)%nat -> P t).
  { induction n as [|n IH]; intros [|d t] Hl; simpl in Hl;
      try exact H0; [lia|].
    apply HS, IH. pose proof (after_char_length d t). lia. }
  apply (H (String.length s)). lia.
Qed.

(** Unfolding equations of [like_pattern], one per kind of pattern head. *)
Lemma like_percent (p s : string) :
  like_pattern (String "%" p) s
  = like_pattern p s
    || match s with
       | EmptyString => false
       | String d s' => like_pattern (String "%" p) (after_char d s')
       end.
Proof. destruct s; reflexivity. Qed.

Lemma like_underscore (p s : string) :
  like_pattern (String "_" p) s
  = match s with
    | EmptyString => false
    | String d s' => like_pattern p (after_char d s')
    end.
Proof. reflexivity. Qed.

Lemma like_literal (c : ascii) (p s : string) :
  (c =? "%")%char = false -> (c =? "_")%char = false ->
  like_pattern (String c p) s
  = match s with
    | EmptyString => false
    | String d s' => (to_lower c =? to_lower d)%char && like_pattern p s'
    end.
Proof. intros H1 H2. simpl. now rewrite H1, H2. Qed.

Lemma like_percent_all (s : string) : like_pattern "%" s = true.
Proof.
  induction s as [|d s IH] using char_ind; rewrite like_percent;
    [reflexivity|].
  rewrite IH. apply orb_true_r.
Qed.

Lemma like_percent_weaken (p s : string) :
  like_pattern p s = true -> like_pattern (String "%" p) s = true.
Proof. intros H. rewrite like_percent, H. reflexivity. Qed.














Lemma sql_is_true_or (a b : option bool) :
  sql_is_true (sql_or a b) = sql_is_true a || sql_is_true b.
Proof. destruct a as [[]|], b as [[]|]; reflexivity. Qed.

Lemma is_empty_false (s : string) : s <> EmptyString -> is_empty s = false.
Proof. destruct s; [congruence | reflexivity]. Qed.

Lemma to_lower_zero (c : ascii) : (to_lower c =? zero)%char = (c =? zero)%char.
Proof. destruct c as [[] [] [] [] [] [] [] []]; reflexivity. Qed.











Lemma text_filter_percent (n : note_row) : text_filter "%" n = true.
Proof.
  unfold text_filter. simpl is_empty. cbv iota.
  rewrite !sql_is_true_or. unfold sql_like at 1.
  change (c_string ("%" ++ "%" ++ "%")) with (String "%" (String "%" "%")).
  unfold sql_is_true at 1.
  rewrite (like_percent_weaken _ _ (like_percent_weaken _ _
             (like_percent_all (c_string (n_title n))))).
  reflexivity.
Qed.

(** C10. The search text is pasted between two [%] without escaping, so
    the text [%] yields the pattern [%%%], which every title matches: for
    every category and sort key the search for [%] returns the very result
    of the search for the empty text, and the text condition admits every
    note. *)
Theorem search_percent_matches_all (json_loads : string -> option (list string))
    (round1 : Q -> Q) (db : NotesDatabase) (category sort_by : string) :
  search_notes json_loads round1 db "%" category sort_by
  = search_notes json_loads round1 db EmptyString category sort_by
  /\ forall n, text_filter "%" n = true.
Proof.
  split; [|apply text_filter_percent].
  unfold search_notes, search_rows. do 2 f_equal.
  apply filter_ext. intros r. now rewrite text_filter_percent.
Qed.

(** ** ORDER BY *)

Section OrderBy.

Context {A : Type} (geb : A -> A -> bool).
Hypothesis geb_total : forall a b, geb a b = true \/ geb b a = true.
Hypothesis geb_trans :
  forall a b c, geb a b = true -> geb b c = true -> geb a c = true.

Lemma insert_desc_perm (x : A) (l : list A) :
  Permutation (x :: l) (insert_desc geb x l).
Proof.
  induction l as [|y l IH]; simpl; [reflexivity|].
  destruct (geb x y); [reflexivity|].
  rewrite perm_swap. now apply perm_skip.
Qed.

Lemma order_by_desc_perm (l : list A) : Permutation l (order_by_desc geb l).
Proof.
  induction l as [|x l IH]; simpl; [reflexivity|].
  rewrite <- insert_desc_perm. now apply perm_skip.
Qed.

Lemma insert_desc_sorted (x : A) (l : list A) :
  StronglySorted (fun a b => geb a b = true) l ->
  StronglySorted (fun a b => geb a b = true) (insert_desc geb x l).
Proof.
  induction l as [|y l IH]; intros Hs; simpl.
  - constructor; constructor.
  - inversion Hs as [|y' l' Hs' Hall]; subst.
    destruct (geb x y) eqn:E.
    + constructor; [exact Hs|]. constructor; [exact E|].
      eapply Forall_impl; [|exact Hall]. intros z Hz.
      exact (geb_trans x y z E Hz).
    + constructor; [now apply IH|].
      eapply Permutation_Forall; [apply insert_desc_perm|].
      constructor; [|exact Hall].
      destruct (geb_total x y) as [H|H]; [congruence | exact H].
Qed.

Lemma order_by_desc_sorted (l : list A) :
  StronglySorted (fun a b => geb a b = true) (order_by_desc geb l).
Proof.
  induction l as [|x l IH]; simpl; [constructor|].
  now apply insert_desc_sorted.
Qed.

End OrderBy.

Lemma string_leb_trans (a b c : string) :
  String.leb a b = true -> String.leb b c = true -> String.leb a c = true.
Proof.
  unfold String.leb. revert b c.
  induction a as [|x a IH]; intros [|y b] [|z c]; simpl; try easy.
  unfold Ascii.compare.
  destruct (N.compare_spec (N_of_ascii x) (N_of_ascii y)) as [Exy|Lxy|Gxy];
    destruct (N.compare_spec (N_of_ascii y) (N_of_ascii z)) as [Eyz|Lyz|Gyz];
    destruct (N.compare_spec (N_of_ascii x) (N_of_ascii z)) as [Exz|Lxz|Gxz];
    try easy; try lia.
  apply IH.
Qed.

Lemma recent_geb_total (a b : search_row) :
  recent_geb a b = true \/ recent_geb b a = true.
Proof.
  unfold recent_geb.
  destruct (String.leb_total (n_upload_date (row_note b))
              (n_upload_date (row_note a))); auto.
Qed.

Lemma recent_geb_trans (a b c : search_row) :
  recent_geb a b = true -> recent_geb b c = true -> recent_geb a c = true.
Proof.
  unfold recent_geb. intros H1 H2. exact (string_leb_trans _ _ _ H2 H1).
Qed.

(** ** Integrity is kept by every operation *)

Lemma fold_max_ge (ids : list Z) (x : Z) :
  In x ids -> x <= fold_right Z.max 0 ids.
Proof.
  induction ids as [|y ids IH]; simpl; [contradiction|].
  intros [-> | H]; [lia | specialize (IH H); lia].
Qed.

Lemma next_rowid_fresh (seq : Z) (ids : list Z) : ~ In (next_rowid seq ids) ids.
Proof.
  intros H. apply fold_max_ge in H. unfold next_rowid in H. lia.
Qed.

Lemma NoDup_snoc_fresh {A : Type} (l : list A) (x : A) :
  NoDup l -> ~ In x l -> NoDup (l ++ [x]).
Proof.
  intros Hnd Hx. apply NoDup_app; [exact Hnd | |].
  - constructor; [intros [] | constructor].
  - intros a Ha [<- | []]. now apply Hx.
Qed.

Lemma NoDup_map_filter {A B : Type} (g : A -> B) (p : A -> bool) (l : list A) :
  NoDup (map g l) -> NoDup (map g (filter p l)).
Proof.
  induction l as [|x l IH]; simpl; intros Hnd; [constructor|].
  inversion Hnd as [|y ys Hnotin Hnd']; subst.
  destruct (p x); simpl; [|now apply IH].
  constructor; [|now apply IH].
  intros Hin. apply Hnotin. apply in_map_iff in Hin.
  destruct Hin as [z [E Hz]]. apply filter_In in Hz. rewrite <- E.
  apply in_map. tauto.
Qed.

Lemma Forall_filter_keep {A : Type} (P : A -> Prop) (p : A -> bool)
    (l : list A) : Forall P l -> Forall P (filter p l).
Proof.
  rewrite !Forall_forall. intros H x Hx. apply filter_In in Hx. apply H. tauto.
Qed.

Section Reachability.

Variable _hash_password : string -> string.
Variable json_dumps : list string -> string.

Lemma note_ok_more_users us us' n :
  (forall u, In u us -> In u us') ->
  note_ok json_dumps us n -> note_ok json_dumps us' n.
Proof.
  intros Hsub [[u [Hu E]] Ht]. split; [|exact Ht].
  exists u. split; [now apply Hsub | exact E].
Qed.

(** A row-wise [UPDATE] that leaves [id], [uploader_id] and [tags]
    alone keeps the note part of the invariant. *)
Lemma notes_update_ok (f : note_row -> note_row) us ns :
  (forall n, n_id (f n) = n_id n /\ n_uploader_id (f n) = n_uploader_id n
             /\ n_tags (f n) = n_tags n) ->
  NoDup (map n_id ns) -> Forall (note_ok json_dumps us) ns ->
  NoDup (map n_id (map f ns)) /\ Forall (note_ok json_dumps us) (map f ns).
Proof.
  intros Hf Hnd Hall. split.
  - rewrite map_map. rewrite (map_ext _ n_id (fun n => proj1 (Hf n))).
    exact Hnd.
  - apply Forall_map. eapply Forall_impl; [|exact Hall].
    intros n [Hu Ht]. destruct (Hf n) as [_ [Eu Et]].
    unfold note_ok. now rewrite Eu, Et.
Qed.

Lemma invariant_set_current_user db u :
  db_invariant json_dumps db -> In u (users db) ->
  db_invariant json_dumps (set_current_user db
               (Some (mk_session (u_id u) (u_username u) (u_role u)))).
Proof.
  intros [Hu [Hn [Hr [Hok Hs]]]] Hin. repeat split; try assumption.
  intros cu E. simpl in E. inversion E. subst cu. now exists u.
Qed.

Lemma invariant_insert_user db now username password email role db' :
  db_invariant json_dumps db ->
  insert_user db now username password email role = Some db' ->
  db_invariant json_dumps db'.
Proof.
  intros [Hu [Hn [Hr [Hok Hs]]]]. unfold insert_user.
  destruct (existsb _ (users db)); [discriminate|].
  intros E. inversion E. subst db'. clear E.
  unfold db_invariant. simpl. repeat split; try assumption.
  - rewrite map_app. simpl. apply NoDup_snoc_fresh; [exact Hu|].
    apply next_rowid_fresh.
  - eapply Forall_impl; [|exact Hok]. intros n.
    apply note_ok_more_users. intros u Hin. apply in_or_app. now left.
  - intros cu E. destruct (Hs cu E) as [u [Hin Eu]].
    exists u. split; [apply in_or_app; now left | exact Eu].
Qed.

Lemma invariant_insert_note db cu now title category subject description
    tags file_path file_name file_size :
  db_invariant json_dumps db -> current_user db = Some cu ->
  db_invariant json_dumps
    (insert_note db now title category subject description
               (s_id cu) (json_dumps tags) file_path file_name file_size).
Proof.
  intros [Hu [Hn [Hr [Hok Hs]]]] Hcu. unfold insert_note, db_invariant.
  simpl. repeat split; try assumption.
  - rewrite map_app. simpl. apply NoDup_snoc_fresh; [exact Hn|].
    apply next_rowid_fresh.
  - apply Forall_app. split; [exact Hok|]. constructor; [|constructor].
    split; simpl; [now apply Hs | now exists tags].
Qed.

Lemma invariant_init clock :
  db_invariant json_dumps (init _hash_password json_dumps clock).
Proof.
  unfold db_invariant. cbv [init _create_demo_data empty_db users notes
    ratings current_user List.length Nat.ltb Nat.leb demo_users
    sample_notes fold_left fst].
  vm_compute map. repeat split.
  - repeat constructor; simpl; intuition discriminate.
  - repeat constructor; simpl; intuition discriminate.
  - constructor.
  - repeat constructor; simpl; eauto 10.
  - discriminate.
Qed.

Lemma invariant_step db db' :
  db_invariant json_dumps db ->
  step _hash_password json_dumps db db' ->
  db_invariant json_dumps db'.
Proof.
  intros Hinv Hstep. destruct Hstep.
  - (* authenticate *)
    unfold authenticate. destruct (find_user db username) as [u|] eqn:Hf;
      [|exact Hinv].
    destruct (u_password u =? _hash_password password)%string; [|exact Hinv].
    apply invariant_set_current_user; [exact Hinv|].
    unfold find_user in Hf. now apply find_some in Hf.
  - (* register_user *)
    unfold register_user.
    destruct (len username <? 3)%nat; [exact Hinv|].
    destruct (len password <? 6)%nat; [exact Hinv|].
    destruct (insert_user db now username (_hash_password password) email
                "student") as [db1|] eqn:Hi; [|exact Hinv].
    now apply (invariant_insert_user _ _ _ _ _ _ _ Hinv Hi).
  - (* logout *)
    destruct Hinv as [Hu [Hn [Hr [Hok Hs]]]].
    repeat split; try assumption. discriminate.
  - (* add_note *)
    unfold add_note. destruct (current_user db) as [cu|] eqn:Hcu;
      [|exact Hinv].
    destruct file as [name|]; [|exact Hinv].
    destruct (is_empty title || is_empty category || is_empty subject);
      [exact Hinv|].
    destruct (env_copy env) as [e|size]; [exact Hinv|].
    now apply invariant_insert_note.
  - (* download_note *)
    unfold download_note. destruct (current_user db) as [cu|] eqn:Hcu;
      [|exact Hinv].
    destruct (find_note db note_id) as [n|]; [|exact Hinv].
    destruct Hinv as [Hu [Hn [Hr [Hok Hs]]]].
    destruct (notes_update_ok
                (fun n => if n_id n =? note_id
                          then mk_note (n_id n) (n_title n) (n_category n)
                                 (n_subject n) (n_description n)
                                 (n_uploader_id n) (n_upload_date n)
                                 (n_downloads n + 1) (n_tags n)
                                 (n_file_path n) (n_file_name n)
                                 (n_file_size n) (n_rating_sum n)
                                 (n_rating_count n)
                          else n) (users db) (notes db)) as [Hn' Hok'];
      try assumption.
    { intros m. now destruct (n_id m =? note_id). }
    unfold db_invariant. simpl. repeat split; assumption.
  - (* rate_note *)
    unfold rate_note. destruct (current_user db) as [cu|] eqn:Hcu;
      [|exact Hinv].
    destruct ((rating <? 1) || (rating >? 5)); [exact Hinv|].
    destruct Hinv as [Hu [Hn [Hr [Hok Hs]]]].
    set (rs := upsert_rating (ratings db) note_id (s_id cu) rating review
               now).
    destruct (notes_update_ok
                (fun n => if n_id n =? note_id
                          then mk_note (n_id n) (n_title n) (n_category n)
                                 (n_subject n) (n_description n)
                                 (n_uploader_id n) (n_upload_date n)
                                 (n_downloads n) (n_tags n)
                                 (n_file_path n) (n_file_name n)
                                 (n_file_size n) (sum_rating rs note_id)
                                 (count_rating rs note_id)
                          else n) (users db) (notes db)) as [Hn' Hok'];
      try assumption.
    { intros m. now destruct (n_id m =? note_id). }
    unfold db_invariant. simpl. repeat split; try assumption.
    now apply upsert_rating_unique.
  - (* delete_note *)
    unfold delete_note. destruct (current_user db) as [cu|] eqn:Hcu;
      [|exact Hinv].
    destruct (find_note db note_id) as [n|]; [|exact Hinv].
    destruct (negb (n_uploader_id n =? s_id cu)
              && negb (s_role cu =? "admin")%string); [exact Hinv|].
    destruct Hinv as [Hu [Hn [Hr [Hok Hs]]]].
    unfold db_invariant. simpl. repeat split; try assumption.
    + now apply NoDup_map_filter.
    + now apply NoDup_map_filter.
    + now apply Forall_filter_keep.
Qed.

Lemma reachable_invariant db :
  reachable _hash_password json_dumps db -> db_invariant json_dumps db.
Proof.
  induction 1 as [clock | db db' _ IH Hstep].
  - apply invariant_init.
  - exact (invariant_step db db' IH Hstep).
Qed.

End Reachability.

(** ** The query engine on the whole catalog *)

Lemma filter_unique_user (us : list user_row) (u : user_row) :
  NoDup (map u_id us) -> In u us ->
  filter (fun u' => u_id u =? u_id u') us = [u].
Proof.
  induction us as [|x us IH]; intros Hnd Hin; [contradiction|].
  simpl in Hnd. inversion Hnd as [|k ks Hnotin Hnd']; subst. simpl.
  destruct Hin as [-> | Hin].
  - rewrite Z.eqb_refl. f_equal. apply filter_none. intros y Hy.
    apply Z.eqb_neq. intros E. apply Hnotin. rewrite E. now apply in_map.
  - assert (Hx : (u_id u =? u_id x) = false).
    { apply Z.eqb_neq. intros E. apply Hnotin. rewrite <- E. now apply in_map. }
    rewrite Hx. now apply IH.
Qed.

(** With every uploader present exactly once, the inner join yields one
    row per note, in the order of the notes. *)
Lemma join_users_rows (us : list user_row) (ns : list note_row) :
  NoDup (map u_id us) ->
  Forall (fun n => exists u, In u us /\ u_id u = n_uploader_id n) ns ->
  Forall2 (fun n r => exists u, In u us /\ u_id u = n_uploader_id n
                                /\ r = mk_row n (u_username u) (avg_rating n))
          ns (join_users us ns).
Proof.
  intros Hnd Hall. induction Hall as [|n ns [u [Hu E]] _ IH]; [constructor|].
  unfold join_users. simpl. rewrite <- E.
  rewrite (filter_unique_user us u Hnd Hu). simpl.
  constructor; [|exact IH]. exists u. now repeat split.
Qed.

Lemma Forall2_map_eq {A B : Type} (g : B -> A) (P : A -> B -> Prop)
    (l : list A) (l' : list B) :
  Forall2 P l l' -> (forall a b, P a b -> g b = a) -> map g l' = l.
Proof.
  intros H Hg. induction H as [|a b l l' Hab _ IH]; simpl; [reflexivity|].
  now rewrite (Hg a b Hab), IH.
Qed.

Lemma Forall2_in_r {A B : Type} (P : A -> B -> Prop) (l : list A)
    (l' : list B) (b : B) :
  Forall2 P l l' -> In b l' -> exists a, In a l /\ P a b.
Proof.
  intros H. induction H as [|a0 b0 l l' Hab _ IH]; simpl; [contradiction|].
  intros [<- | Hin].
  - exists a0. auto.
  - destruct (IH Hin) as [a [Ha Hp]]. exists a. auto.
Qed.

Lemma Forall2_map_in {A B C : Type} (g : A -> C) (P : A -> B -> Prop)
    (P' : C -> B -> Prop) (l : list A) (l' : list B) :
  Forall2 P l l' -> (forall a b, In a l -> P a b -> P' (g a) b) ->
  Forall2 P' (map g l) l'.
Proof.
  intros H. induction H as [|a b l l' Hab _ IH]; intros Hg; simpl;
    constructor.
  - apply Hg; [now left | exact Hab].
  - apply IH. intros x y Hx. apply Hg. now right.
Qed.

Lemma StronglySorted_Forall2 {A B : Type} (R : A -> A -> Prop)
    (S : B -> B -> Prop) (P : A -> B -> Prop) (l : list A) (l' : list B) :
  (forall a b a' b', P a a' -> P b b' -> R a b -> S a' b') ->
  Forall2 P l l' -> StronglySorted R l -> StronglySorted S l'.
Proof.
  intros HRS H. induction H as [|a a' l l' Haa' Hll' IH]; intros Hs;
    [constructor|].
  inversion Hs as [|x xs Hs' Hall]; subst.
  constructor; [now apply IH|].
  apply Forall_forall. intros b' Hb'.
  destruct (Forall2_in_r P l l' b' Hll' Hb') as [b [Hb Hbb']].
  rewrite Forall_forall in Hall. exact (HRS a b a' b' Haa' Hbb' (Hall b Hb)).
Qed.

Section WholeCatalog.

Variable _hash_password : string -> string.
Variable json_dumps : list string -> string.
Variable json_loads : string -> option (list string).
Variable round1 : Q -> Q.

(** [json.loads] reads back what [json.dumps] wrote. *)
Hypothesis json_roundtrip : forall l, json_loads (json_dumps l) = Some l.

(** Rows whose [tags] were written by [json.dumps] all project. *)
Lemma views_of_total (rows : list search_row) :
  Forall (fun r => exists l, n_tags (row_note r) = json_dumps l) rows ->
  exists vs, views_of json_loads round1 rows = Some vs
             /\ Forall2 (fun r v => view_of json_loads round1 r = Some v)
                        rows vs.
Proof.
  induction 1 as [|r rows [l Hl] _ [vs [Hvs Hall]]].
  - exists []. split; [reflexivity | constructor].
  - assert (Hv : exists v, view_of json_loads round1 r = Some v).
    { unfold view_of. rewrite Hl, json_roundtrip. eauto. }
    destruct Hv as [v Hv]. exists (v :: vs). simpl. rewrite Hv, Hvs.
    split; [reflexivity | now constructor].
Qed.

Lemma Forall2_map_self {A B : Type} (g : A -> B) (l : list A) :
  Forall2 (fun a b => g a = b) l (map g l).
Proof. induction l as [|a l IH]; simpl; constructor; auto. Qed.

(** C7. Take any state of the store that keeps the keys its schema
    declares (user ids are unique, the uploader of every note is a user
    row) and whose [tags] columns were written by [json.dumps]; every state
    the application can reach is one. There [search_notes] with empty text,
    category "All" and sort key "recent" returns, for some ordering [ns] of
    the whole [notes] table, one view per note of [ns] in turn: the view
    repeats the note's id, title, category, subject, description, upload
    date, download counter and file columns, names the uploader, lists the
    note's tags and carries its rounded average. Along [ns], and so along
    the returned views, every earlier upload timestamp is at least every
    later one. *)
Theorem search_all_recent (db : NotesDatabase) :
  NoDup (map u_id (users db)) ->
  Forall (note_ok json_dumps (users db)) (notes db) ->
  exists ns vs,
    search_notes json_loads round1 db EmptyString "All" "recent" = Some vs
    /\ Permutation ns (notes db)
    /\ Forall2 (view_of_note json_dumps round1 db) ns vs
    /\ StronglySorted uploaded_no_later ns
    /\ StronglySorted newer_or_same vs.
Proof.
  intros Hu Hok.
  assert (Hjoin := join_users_rows (users db) (notes db) Hu
                     (Forall_impl _ (fun n H => proj1 H) Hok)).
  set (J := join_users (users db) (notes db)) in *.
  assert (Hrows : search_rows db EmptyString "All" "recent"
                  = order_by_desc recent_geb J).
  { unfold search_rows, sort_rows. simpl. f_equal. apply filter_true. }
  set (rows := order_by_desc recent_geb J) in *.
  assert (Hperm : Permutation J rows) by apply order_by_desc_perm.
  assert (HJ : forall r, In r J ->
             exists u, In u (users db)
                       /\ u_id u = n_uploader_id (row_note r)
                       /\ r = mk_row (row_note r) (u_username u)
                                (avg_rating (row_note r))
                       /\ In (row_note r) (notes db)).
  { intros r Hr'. destruct (Forall2_in_r _ _ _ r Hjoin Hr')
      as [n [Hn' [u [Hin [E Er]]]]].
    exists u. subst r. simpl. auto. }
  assert (Htags : Forall (fun r => exists l,
                                  n_tags (row_note r) = json_dumps l) rows).
  { apply Forall_forall. intros r Hr'.
    apply (Permutation_in _ (Permutation_sym Hperm)) in Hr'.
    destruct (HJ r Hr') as [_ [_ [_ [_ Hin]]]].
    rewrite Forall_forall in Hok. exact (proj2 (Hok _ Hin)). }
  destruct (views_of_total rows Htags) as [vs [Hvs Hall]].
  assert (Hsorted : StronglySorted (fun a b => recent_geb a b = true) rows).
  { apply order_by_desc_sorted.
    - apply recent_geb_total.
    - apply recent_geb_trans. }
  exists (map row_note rows), vs. split; [|split; [|split; [|split]]].
  - unfold search_notes. now rewrite Hrows.
  - rewrite <- (Forall2_map_eq row_note _ _ _ Hjoin).
    + apply Permutation_sym, Permutation_map, Hperm.
    + intros n r [u [_ [_ Er]]]. now subst r.
  - apply (Forall2_map_in row_note _ _ _ _ Hall). intros r v Hin Hv.
    apply (Permutation_in _ (Permutation_sym Hperm)) in Hin.
    destruct (HJ r Hin) as [u [Hu' [E [Er Hnin]]]].
    rewrite Forall_forall in Hok. destruct (proj2 (Hok _ Hnin)) as [l Hl].
    destruct r as [n name avg]. simpl in *. inversion Er as [[Ename Eavg]].
    subst name avg. unfold view_of in Hv. simpl in Hv. rewrite Hl, json_roundtrip in Hv.
    inversion Hv. unfold view_of_note. simpl.
    repeat split; try reflexivity; try assumption.
    exists u. now repeat split.
  - apply (StronglySorted_Forall2
             (fun a b => recent_geb a b = true) uploaded_no_later
             (fun r n => row_note r = n) rows (map row_note rows)).
    + intros a b a' b' <- <- Hab. exact Hab.
    + apply Forall2_map_self.
    + exact Hsorted.
  - apply (StronglySorted_Forall2
             (fun a b => recent_geb a b = true) newer_or_same
             (fun r v => view_of json_loads round1 r = Some v) rows vs).
    + intros a b a' b' Ha Hb Hab. unfold newer_or_same, recent_geb in *.
      unfold view_of in Ha, Hb.
      destruct (json_loads (n_tags (row_note a))); [|discriminate].
      destruct (json_loads (n_tags (row_note b))); [|discriminate].
      inversion Ha. inversion Hb. simpl. exact Hab.
    + exact Hall.
    + exact Hsorted.
Qed.

End WholeCatalog.

(** ** The sample JSON codec reads back what it writes *)

Lemma json_scan_chars (s rest : string) (l : list string) :
  json_scan JClosed rest = Some l ->
  json_scan JChars (json_escape s ++ String dquote rest) = Some (s :: l).
Proof.
  intros Hrest. induction s as [|c s IH].
  - simpl. now rewrite Hrest.
  - simpl json_escape.
    destruct ((c =? dquote)%char || (c =? backslash)%char) eqn:E.
    + cbn [append json_scan]. rewrite Ascii.eqb_refl.
      cbn [json_scan]. now rewrite IH.
    + apply orb_false_iff in E. destruct E as [Eq Eb].
      cbn [append json_scan]. rewrite Eb, Eq. now rewrite IH.
Qed.

Lemma json_items_cons (s : string) (l : list string) :
  json_items (s :: l) ++ "]"
  = String dquote
      (json_escape s ++ String dquote (match l with
                                       | [] => "]"
                                       | _ :: _ => ", " ++ json_items l ++ "]"
                                       end)).
Proof.
  cbn [json_items]. unfold json_string.
  destruct l as [|t l]; cbn [append]; now rewrite !append_assoc.
Qed.

Lemma json_scan_items (s : string) (l : list string) :
  json_scan JChars
    (json_escape s ++ String dquote (match l with
                                     | [] => "]"
                                     | _ :: _ => ", " ++ json_items l ++ "]"
                                     end))
  = Some (s :: l).
Proof.
  revert s. induction l as [|t l IH]; intros s; apply json_scan_chars.
  - reflexivity.
  - rewrite json_items_cons.
    cbn [json_scan append]. apply IH.
Qed.

Lemma ascii_json_roundtrip (l : list string) :
  ascii_json_loads (ascii_json_dumps l) = Some l.
Proof.
  unfold ascii_json_loads, ascii_json_dumps. destruct l as [|s l].
  - reflexivity.
  - rewrite json_items_cons.
    cbn [json_scan append]. apply json_scan_items.
Qed.

(** ** The theorems at work on the sample states *)

Lemma student_db_reachable : reachable plain_digest ascii_json_dumps student_db.
Proof.
  apply reach_step with fresh_db; [apply reach_init | apply step_authenticate].
Qed.

Lemma stale_db_reachable : reachable plain_digest ascii_json_dumps stale_db.
Proof.
  apply reach_step with orphan_db; [|apply step_add_note].
  apply reach_step with student_db; [|apply step_rate].
  apply student_db_reachable.
Qed.

(** C1, as stated, fails in a reachable state. student1 rates id 6 before
    any note has it, the next upload becomes note 6 with both aggregates at
    their default 0, and a later successful rating of note 1 leaves note 6
    with [rating_sum] 0 although its ledger rows sum to 3. *)
Lemma rate_note_stale_aggregate :
  let db' := fst (rate_note stale_db "2024-01-02 11:00:00" 1 5 "Clear") in
  reachable plain_digest ascii_json_dumps stale_db
  /\ snd (rate_note stale_db "2024-01-02 11:00:00" 1 5 "Clear")
     = (true, "✅ Rating submitted successfully!")
  /\ exists N,
       In N (notes db')
       /\ n_id N = 6
       /\ n_rating_sum N = 0
       /\ sum_rating (ratings db') (n_id N) = 3
       /\ ~ in_sync (ratings db') N.
Proof.
  intros db'. split; [apply stale_db_reachable|]. split; [reflexivity|].
  exists (mk_note 6 "Graph Theory" "Mathematics" "Graphs"
            (Some "Trees and flows") 2 "2024-01-02 10:00:00" 0
            (ascii_json_dumps ["graphs"; "flows"])
            "uploaded_files/20240102_100000_graphs.pdf" "graphs.pdf" 2048 0 0).
  repeat split.
  - vm_compute. tauto.
  - intros [Hsum _]. vm_compute in Hsum. discriminate.
Qed.

(** C2, as stated, fails in the same reachable state. student1 already
    holds the row (6, 2, 3) for note 6, whose aggregates are still the
    defaults 0 and 0; when student1 rates note 6 again, with 5, the note's
    [rating_count] rises from 0 to 1 and its [rating_sum] moves by 5, not
    by 5 - 3. *)
Lemma rate_note_rerate_stale :
  let db' := fst (rate_note stale_db "2024-01-02 11:00:00" 6 5 "Again") in
  reachable plain_digest ascii_json_dumps stale_db
  /\ current_user stale_db = Some (mk_session 2 "student1" "student")
  /\ In (mk_rating 6 2 3 EmptyString "2024-01-02 09:00:00") (ratings stale_db)
  /\ exists n n',
       find_note stale_db 6 = Some n
       /\ find_note db' 6 = Some n'
       /\ n_rating_count n = 0 /\ n_rating_count n' = 1
       /\ n_rating_sum n = 0 /\ n_rating_sum n' = 5
       /\ n_rating_count n' <> n_rating_count n
       /\ n_rating_sum n' <> n_rating_sum n + (5 - 3).
Proof.
  intros db'. split; [apply stale_db_reachable|].
  split; [vm_compute; reflexivity|].
  split; [vm_compute; left; reflexivity|].
  eexists. eexists.
  split; [vm_compute; reflexivity|]. split; [vm_compute; reflexivity|].
  repeat split; try reflexivity; simpl; lia.
Qed.


(** LIKE folds the case of ASCII letters and of no other: on the note
    titled "Café" the text "CAF" and the text "é" (U+00E9) are found, the
    text "É" (U+00C9) is not; and [_] stands for the whole accented letter,
    not for one of its two bytes. *)
Lemma text_filter_folds_ascii_only :
  text_filter "CAF" cafe_note = true
  /\ text_filter (bytes [195; 169]%N) cafe_note = true
  /\ text_filter (bytes [195; 137]%N) cafe_note = false
  /\ text_filter "caf_" cafe_note = true
  /\ text_filter "caf__" cafe_note = false.
Proof. repeat split; vm_compute; reflexivity. Qed.

(** student1 rates note 1: the note is recomputed and all notes agree. *)
Lemma rate_note_recompute_example :
  let db' := fst (rate_note student_db "2024-01-02 09:00:00" 1 5 "Clear") in
  (exists N, In N (notes db') /\ n_id N = 1 /\ in_sync (ratings db') N)
  /\ Forall (in_sync (ratings db')) (notes db').
Proof.
  intros db'.
  destruct (rate_note_recompute student_db "2024-01-02 09:00:00" 1 5 "Clear")
    as [Hone [_ Hall]].
  split.
  - eexists. split; [vm_compute; left; reflexivity|]. split; [reflexivity|].
    apply (Hone (mk_session 2 "student1" "student"));
      [reflexivity | lia | vm_compute; left; reflexivity | reflexivity].
  - apply Forall_forall. apply Hall. intros N HN. vm_compute in HN.
    repeat (destruct HN as [<- | HN]; [vm_compute; split; reflexivity|]).
    contradiction.
Defined.

(** student1, who gave note 1 five stars, rates it again with 2: the
    count stays 1 and the sum goes from 5 to 2. *)
Lemma rate_note_rerate_example :
  let db' := fst (rate_note rated_db "2024-01-02 09:05:00" 1 2 "Too terse") in
  In (mk_rating 1 2 5 "Clear" "2024-01-02 09:00:00") (ratings rated_db)
  /\ option_map n_rating_count (find_note rated_db 1) = Some 1
  /\ option_map n_rating_sum (find_note rated_db 1) = Some 5
  /\ snd (rate_note rated_db "2024-01-02 09:05:00" 1 2 "Too terse")
     = (true, "✅ Rating submitted successfully!")
  /\ option_map n_rating_count (find_note db' 1) = Some 1
  /\ option_map n_rating_sum (find_note db' 1) = Some 2
  /\ List.length (ratings db') = 1%nat
  /\ filter (same_key 1 2) (ratings db')
     = [mk_rating 1 2 2 "Too terse" "2024-01-02 09:00:00"].
Proof.
  intros db'.
  edestruct (rate_note_rerate rated_db "2024-01-02 09:05:00" 1 2 "Too terse"
               (mk_session 2 "student1" "student"))
    as [Hok [n' [Hf [Hc [Hs [Hlen Hrow]]]]]];
    [ vm_compute; constructor; [intros [] | constructor]
    | vm_compute; reflexivity
    | vm_compute; reflexivity
    | split; vm_compute; reflexivity
    | vm_compute; left; reflexivity
    | reflexivity
    | lia
    | ].
  split; [vm_compute; left; reflexivity|].
  split; [vm_compute; reflexivity|]. split; [vm_compute; reflexivity|].
  split; [exact Hok|]. unfold db'. rewrite Hf. cbn [option_map].
  split; [now rewrite Hc|]. split; [now rewrite Hs|].
  split; [rewrite Hlen; vm_compute; reflexivity | exact Hrow].
Defined.

(** The failing input of C3: student1 rates the absent id 6. *)
Lemma rate_note_absent_note_example :
  find_note student_db 6 = None
  /\ rate_note student_db "2024-01-02 09:00:00" 6 3 EmptyString
     = (set_ratings student_db
          [mk_rating 6 2 3 EmptyString "2024-01-02 09:00:00"],
        (true, "✅ Rating submitted successfully!")).
Proof.
  split; [reflexivity|].
  apply (rate_note_absent_note_accepted student_db "2024-01-02 09:00:00" 6 3
           EmptyString (mk_session 2 "student1" "student"));
    [reflexivity | lia | reflexivity].
Defined.

(** student1 downloads note 2, nobody downloads it, student1 asks for 99. *)
Lemma download_note_example :
  (exists cu n db' message,
      current_user student_db = Some cu
      /\ find_note student_db 2 = Some n
      /\ download_note student_db "2024-01-02 09:00:00" 2
         = (db', (true, message, Some "uploaded_files/calculus_notes.pdf"))
      /\ option_map n_downloads (find_note db' 2) = Some (n_downloads n + 1)
      /\ download_history db' = [mk_download 2 2 "2024-01-02 09:00:00"])
  /\ download_note fresh_db "2024-01-02 09:00:00" 2
     = (fresh_db, (false, "Please login first", None))
  /\ download_note student_db "2024-01-02 09:00:00" 99
     = (student_db, (false, "Note not found", None)).
Proof.
  split; [|split].
  - destruct (proj1 (download_note_spec student_db "2024-01-02 09:00:00" 2)
                (mk_session 2 "student1" "student")
                (mk_note 2 "Calculus I - Derivatives and Integrals"
                   "Mathematics" "Calculus"
                   (Some "Complete notes on differential and integral calculus with solved examples and practice problems")
                   2 (tick 4) 0
                   (ascii_json_dumps ["calculus"; "derivatives"; "integrals";
                                      "mathematics"])
                   "uploaded_files/calculus_notes.pdf" "calculus_notes.pdf"
                   116 0 0)
                eq_refl eq_refl)
      as [db' [message [Hcall [Hfind [_ [Hhist _]]]]]].
    eexists. eexists. exists db', message.
    split; [reflexivity|]. split; [reflexivity|].
    split; [exact Hcall|]. split.
    + rewrite Hfind. reflexivity.
    + exact Hhist.
  - apply (proj1 (proj2 (download_note_spec fresh_db "2024-01-02 09:00:00" 2))).
    reflexivity.
  - apply (proj2 (proj2 (download_note_spec student_db "2024-01-02 09:00:00" 99))
             (mk_session 2 "student1" "student"));
      [reflexivity | unfold sqlite_integer; lia | reflexivity].
Defined.

(** student1 may not delete the admin's note 1. *)
Lemma delete_note_denied_example :
  delete_note student_db 1
  = (student_db, (false, "You don't have permission to delete this note")).
Proof.
  eapply (delete_note_denied student_db 1 (mk_session 2 "student1" "student"));
    [reflexivity | vm_compute; reflexivity | simpl; lia | discriminate].
Defined.

(** student1 has rated and downloaded their own note 2, and note 1 as
    well. When student1 deletes note 2, its rating row and its download row
    go with it; those of note 1 stay. *)
Lemma delete_note_cascade_example :
  In (mk_rating 2 2 4 "Mine" "2024-01-02 09:00:00") (ratings busy_db)
  /\ In (mk_download 2 2 "2024-01-02 09:02:00") (download_history busy_db)
  /\ exists db',
       delete_note busy_db 2 = (db', (true, "✅ Note deleted successfully"))
       /\ find_note db' 2 = None
       /\ (forall r, In r (ratings db') -> r_note_id r <> 2)
       /\ (forall d, In d (download_history db') -> d_note_id d <> 2)
       /\ ratings db' = [mk_rating 1 2 5 "Clear" "2024-01-02 09:01:00"]
       /\ download_history db' = [mk_download 1 2 "2024-01-02 09:03:00"].
Proof.
  split; [vm_compute; left; reflexivity|].
  split; [vm_compute; left; reflexivity|].
  edestruct (delete_note_cascade busy_db 2 (mk_session 2 "student1" "student"))
    as [db' [Hcall [Hfind [Hr Hd]]]];
    [vm_compute; reflexivity | vm_compute; reflexivity | left; reflexivity|].
  assert (E : db' = fst (delete_note busy_db 2)) by now rewrite Hcall.
  exists db'. split; [exact Hcall|]. split; [exact Hfind|].
  split; [exact Hr|]. split; [exact Hd|].
  rewrite E. split; vm_compute; reflexivity.
Defined.

(** A wrong password for student1 while student1 is logged in. *)
Lemma authenticate_failure_example :
  authenticate plain_digest student_db "student1" "letmein"
  = (student_db, (false, "Invalid username or password", None))
  /\ current_user (fst (authenticate plain_digest student_db "student1" "letmein"))
     = Some (mk_session 2 "student1" "student").
Proof.
  apply (authenticate_failure_keeps_session plain_digest student_db
           "student1" "letmein").
  right. eexists. split; [vm_compute; reflexivity | discriminate].
Defined.

(** The whole sample catalog, newest first. *)
Lemma search_all_recent_example :
  exists ns vs,
    search_notes ascii_json_loads round_tenths student_db EmptyString "All"
      "recent" = Some vs
    /\ Permutation ns (notes student_db)
    /\ Forall2 (view_of_note ascii_json_dumps round_tenths student_db) ns vs
    /\ StronglySorted uploaded_no_later ns
    /\ StronglySorted newer_or_same vs.
Proof.
  destruct (reachable_invariant plain_digest ascii_json_dumps student_db
              student_db_reachable) as [Hu [_ [_ [Hok _]]]].
  exact (search_all_recent ascii_json_dumps ascii_json_loads round_tenths
           ascii_json_roundtrip student_db Hu Hok).
Defined.


(** ** Accounts: registration, login and what persists *)

Lemma find_app_found {A : Type} (f : A -> bool) (l l' : list A) (x : A) :
  find f l = Some x -> find f (l ++ l') = Some x.
Proof.
  induction l as [|y l IH]; simpl; [discriminate|].
  destruct (f y); [trivial | exact IH].
Qed.

Lemma find_app_missing {A : Type} (f : A -> bool) (l l' : list A) :
  find f l = None -> find f (l ++ l') = find f l'.
Proof.
  induction l as [|y l IH]; simpl; [reflexivity|].
  destruct (f y); [discriminate | exact IH].
Qed.

Lemma existsb_find_none {A : Type} (f : A -> bool) (l : list A) :
  existsb f l = false <-> find f l = None.
Proof.
  induction l as [|y l IH]; simpl; [tauto|].
  destruct (f y); simpl; [split; discriminate | exact IH].
Qed.

Lemma insert_user_some (sha : string -> string) db now username password
    email role :
  find_user db username = None ->
  insert_user db now username (sha password) email role
  = Some (set_users db
            (users db
             ++ [mk_user (next_rowid (users_seq db) (map u_id (users db)))
                   username (sha password) email role now])%list
            (next_rowid (users_seq db) (map u_id (users db)))).
Proof.
  intros Hnone. unfold insert_user.
  apply existsb_find_none in Hnone. now rewrite Hnone.
Qed.

Lemma insert_user_none db now username digest email role :
  find_user db username <> None ->
  insert_user db now username digest email role = None.
Proof.
  intros Hsome. unfold insert_user.
  destruct (existsb (fun u => (u_username u =? username)%string) (users db))
    eqn:E; [reflexivity|].
  apply existsb_find_none in E. contradiction.
Qed.

(** The three checks of [register_user], with [len] counting characters. *)
Lemma register_user_accepts (sha256 : string -> string)
    (db : NotesDatabase) (now username password email : string) :
  fst (snd (register_user sha256 db now username password email)) = true
  <-> (3 <= len username)%nat
      /\ (6 <= len password)%nat
      /\ find_user db username = None.
Proof.
  unfold register_user.
  destruct (len username <? 3)%nat eqn:Eu.
  { apply Nat.ltb_lt in Eu. simpl. split; [discriminate|].
    intros [H _]. lia. }
  destruct (len password <? 6)%nat eqn:Ep.
  { apply Nat.ltb_lt in Ep. simpl. split; [discriminate|].
    intros [_ [H _]]. lia. }
  apply Nat.ltb_ge in Eu. apply Nat.ltb_ge in Ep.
  destruct (find_user db username) as [u|] eqn:Ef.
  - rewrite insert_user_none by (rewrite Ef; discriminate). simpl.
    split; [discriminate|]. intros [_ [_ H]]. discriminate.
  - rewrite (insert_user_some sha256 db now username password email
               "student" Ef).
    simpl. tauto.
Qed.

Lemma register_user_refuses (sha256 : string -> string)
    (db : NotesDatabase) (now username password email : string) :
  fst (snd (register_user sha256 db now username password email)) = false ->
  fst (register_user sha256 db now username password email) = db.
Proof.
  unfold register_user.
  destruct (len username <? 3)%nat; [reflexivity|].
  destruct (len password <? 6)%nat; [reflexivity|].
  destruct (insert_user db now username (sha256 password) email "student");
    [discriminate | reflexivity].
Qed.

(** [register_user] succeeds exactly when the username has at least three
    characters, the password at least six (characters as [len] counts
    them, not bytes) and no account carries the username; every failure
    returns the state as it was. *)
Theorem register_user_outcome (sha256 : string -> string)
    (db : NotesDatabase) (now username password email : string) :
  (fst (snd (register_user sha256 db now username password email)) = true
   <-> (3 <= len username)%nat
       /\ (6 <= len password)%nat
       /\ find_user db username = None)
  /\ (fst (snd (register_user sha256 db now username password email)) = false
      -> fst (register_user sha256 db now username password email) = db).
Proof.
  split; [apply register_user_accepts | apply register_user_refuses].
Qed.

(** The account a successful [register_user] creates can log in at once:
    [authenticate] with the same username and password succeeds, opens a
    session of role student for a user id no earlier account had, and
    changes nothing else. *)
Theorem register_then_authenticate (sha256 : string -> string)
    (db : NotesDatabase) (now username password email : string) :
  fst (snd (register_user sha256 db now username password email)) = true ->
  let db' := fst (register_user sha256 db now username password email) in
  exists id,
    ~ In id (map u_id (users db))
    /\ authenticate sha256 db' username password
       = (set_current_user db' (Some (mk_session id username "student")),
          (true, "Welcome back, " ++ username ++ "!", Some id)).
Proof.
  intros Hok db'.
  destruct (proj1 (register_user_accepts sha256 db now username password
                     email) Hok) as [Hu [Hp Hnone]].
  assert (Hdb' : db' = set_users db
            (users db
             ++ [mk_user (next_rowid (users_seq db) (map u_id (users db)))
                   username (sha256 password) email "student" now])%list
            (next_rowid (users_seq db) (map u_id (users db)))).
  { unfold db', register_user.
    apply Nat.ltb_ge in Hu. apply Nat.ltb_ge in Hp. rewrite Hu, Hp.
    now rewrite (insert_user_some sha256 db now username password email
                   "student" Hnone). }
  exists (next_rowid (users_seq db) (map u_id (users db))).
  split; [apply next_rowid_fresh|].
  unfold authenticate, find_user. rewrite Hdb'. simpl.
  rewrite find_app_missing by exact Hnone. simpl.
  now rewrite !String.eqb_refl.
Qed.

(** Once registered, a username is taken: a second [register_user] with it
    fails with "Username already exists" whatever password (of six
    characters or more) and email come with it, and changes nothing. *)
Theorem register_user_twice (sha256 : string -> string)
    (db : NotesDatabase) (now now' username password email password'
    email' : string) :
  fst (snd (register_user sha256 db now username password email)) = true ->
  (6 <= len password')%nat ->
  let db' := fst (register_user sha256 db now username password email) in
  register_user sha256 db' now' username password' email'
  = (db', (false, "Username already exists")).
Proof.
  intros Hok Hp' db'.
  destruct (proj1 (register_user_accepts sha256 db now username password
                     email) Hok) as [Hu [Hp Hnone]].
  assert (Hfound : find_user db' username <> None).
  { unfold db', register_user.
    apply Nat.ltb_ge in Hu. apply Nat.ltb_ge in Hp. rewrite Hu, Hp.
    rewrite (insert_user_some sha256 db now username password email
               "student" Hnone).
    unfold find_user. simpl. rewrite find_app_missing by exact Hnone.
    simpl. now rewrite String.eqb_refl. }
  unfold register_user at 1.
  apply Nat.ltb_ge in Hu. apply Nat.ltb_ge in Hp'. rewrite Hu, Hp'.
  now rewrite insert_user_none.
Qed.

(** Case analysis on every test an operation makes. *)
Ltac split_cases :=
  repeat (cbn [fst snd];
          match goal with
          | |- context [match ?x with _ => _ end] => destruct x eqn:?
          end).

Section AccountsOverTime.

Variable _hash_password : string -> string.
Variable json_dumps : list string -> string.

(** What one call can do to the [users] table: nothing, or append one
    account of role student under a username and an id not yet in use. *)
Lemma step_users db db' :
  step _hash_password json_dumps db db' ->
  users db' = users db
  \/ exists new,
       users db' = (users db ++ [new])%list
       /\ find_user db (u_username new) = None
       /\ u_role new = "student"
       /\ ~ In (u_id new) (map u_id (users db)).
Proof.
  intros Hstep. destruct Hstep.
  - left. unfold authenticate. destruct (find_user db username) as [u|];
      [|reflexivity].
    now destruct (u_password u =? _hash_password password)%string.
  - unfold register_user.
    destruct (len username <? 3)%nat; [now left|].
    destruct (len password <? 6)%nat; [now left|].
    destruct (find_user db username) as [u|] eqn:Ef.
    + rewrite insert_user_none by (rewrite Ef; discriminate). now left.
    + rewrite (insert_user_some _hash_password db now username password
                 email "student" Ef).
      right. eexists. split; [reflexivity|]. simpl.
      repeat split; [exact Ef | apply next_rowid_fresh].
  - now left.
  - left. unfold add_note. destruct (current_user db); [|reflexivity].
    destruct file; [|reflexivity].
    destruct (is_empty title || is_empty category || is_empty subject);
      [reflexivity|].
    now destruct (env_copy env).
  - left. unfold download_note. destruct (current_user db); [|reflexivity].
    now destruct (find_note db note_id).
  - left. unfold rate_note. destruct (current_user db); [|reflexivity].
    now destruct ((rating <? 1) || (rating >? 5)).
  - left. unfold delete_note. destruct (current_user db) as [cu|];
      [|reflexivity].
    destruct (find_note db note_id) as [n|]; [|reflexivity].
    now destruct (negb (n_uploader_id n =? s_id cu)
                  && negb (s_role cu =? "admin")%string).
Qed.

(** What one call can do to the session: keep it, replace it by the
    session of a stored account, or clear it. *)
Lemma step_session db db' :
  step _hash_password json_dumps db db' ->
  current_user db' = current_user db
  \/ (exists u, In u (users db)
                /\ current_user db'
                   = Some (mk_session (u_id u) (u_username u) (u_role u)))
  \/ current_user db' = None.
Proof.
  intros Hstep. destruct Hstep.
  - unfold authenticate.
    destruct (find_user db username) as [u|] eqn:Ef; [|now left].
    destruct (u_password u =? _hash_password password)%string; [|now left].
    right. left. exists u. unfold find_user in Ef. apply find_some in Ef.
    split; [tauto | reflexivity].
  - left. unfold register_user.
    destruct (len username <? 3)%nat; [reflexivity|].
    destruct (len password <? 6)%nat; [reflexivity|].
    unfold insert_user. destruct (existsb _ (users db)); reflexivity.
  - right. now right.
  - left. unfold add_note. split_cases; simpl; congruence.
  - left. unfold download_note. split_cases; simpl; congruence.
  - left. unfold rate_note. split_cases; simpl; congruence.
  - left. unfold delete_note. split_cases; simpl; congruence.
Qed.

Lemma step_keeps_account db db' name u :
  step _hash_password json_dumps db db' ->
  find_user db name = Some u -> find_user db' name = Some u.
Proof.
  intros Hstep Hu. destruct (step_users db db' Hstep) as [E | [new [E _]]];
    unfold find_user in *; rewrite E; [exact Hu|].
  now apply find_app_found.
Qed.

(** No operation removes or rewrites an account: a username that resolves
    to a user row keeps resolving to that very row after any sequence of
    calls, so a login with it has the same outcome afterwards as before. *)
Theorem accounts_persist (db db' : NotesDatabase) (username : string)
    (u : user_row) :
  steps _hash_password json_dumps db db' ->
  find_user db username = Some u ->
  find_user db' username = Some u
  /\ forall password,
       snd (authenticate _hash_password db' username password)
       = snd (authenticate _hash_password db username password).
Proof.
  intros Hsteps Hu.
  assert (Hu' : find_user db' username = Some u).
  { induction Hsteps as [db | db db1 db2 _ IH Hstep]; [exact Hu|].
    exact (step_keeps_account db1 db2 username u Hstep (IH Hu)). }
  split; [exact Hu'|]. intros password. unfold authenticate.
  rewrite Hu, Hu'.
  now destruct (u_password u =? _hash_password password)%string.
Qed.

Lemma find_user_none_fresh db name :
  find_user db name = None -> ~ In name (map u_username (users db)).
Proof.
  intros Hnone Hin. apply in_map_iff in Hin. destruct Hin as [u [E Hu]].
  unfold find_user in Hnone.
  pose proof (find_none _ _ Hnone u Hu) as Hf. simpl in Hf.
  apply String.eqb_neq in Hf. contradiction.
Qed.

Lemma account_invariant_init clock :
  account_invariant (init _hash_password json_dumps clock).
Proof.
  unfold account_invariant. cbv [init _create_demo_data empty_db users notes
    ratings current_user List.length Nat.ltb Nat.leb demo_users
    sample_notes fold_left fst].
  vm_compute map. repeat split.
  - vm_compute. discriminate.
  - repeat constructor; simpl; intuition discriminate.
  - vm_compute in H. decompose [or] H; try contradiction; subst u;
      simpl in *; try reflexivity; discriminate.
  - vm_compute in H. decompose [or] H; try contradiction; subst u;
      simpl in *; try reflexivity; discriminate.
  - discriminate.
Qed.

Lemma account_invariant_step db db' :
  account_invariant db -> step _hash_password json_dumps db db' ->
  account_invariant db'.
Proof.
  intros [Hne [Hnd [Hadm Hsess]]] Hstep.
  assert (Husers := step_users db db' Hstep).
  assert (Hin : forall u, In u (users db) -> In u (users db')).
  { intros u Hu. destruct Husers as [E | [new [E _]]]; rewrite E;
      [exact Hu | apply in_or_app; now left]. }
  assert (Hsess' : forall cu, current_user db' = Some cu ->
            exists u, In u (users db') /\ u_id u = s_id cu
                      /\ u_username u = s_username cu
                      /\ u_role u = s_role cu).
  { intros cu Hcu.
    destruct (step_session db db' Hstep) as [E | [[u [Hu E]] | E]].
    - rewrite E in Hcu. destruct (Hsess cu Hcu) as [u [Hu Hm]].
      exists u. auto.
    - rewrite E in Hcu. inversion Hcu. subst cu. simpl. exists u. auto.
    - rewrite E in Hcu. discriminate. }
  unfold account_invariant. split; [|split; [|split; [|exact Hsess']]].
  - destruct Husers as [E | [new [E _]]]; rewrite E; [exact Hne|].
    intros Hnil. apply app_eq_nil in Hnil. destruct Hnil. discriminate.
  - destruct Husers as [E | [new [E [Hfresh _]]]]; rewrite E; [exact Hnd|].
    rewrite map_app. simpl. apply NoDup_snoc_fresh; [exact Hnd|].
    now apply find_user_none_fresh.
  - intros u Hu Hrole.
    destruct Husers as [E | [new [E [_ [Hstudent _]]]]]; rewrite E in Hu;
      [now apply Hadm|].
    apply in_app_or in Hu. destruct Hu as [Hu | [<- | []]];
      [now apply Hadm | rewrite Hstudent in Hrole; discriminate].
Qed.

Lemma reachable_account_invariant db :
  reachable _hash_password json_dumps db -> account_invariant db.
Proof.
  induction 1 as [clock | db db' _ IH Hstep].
  - apply account_invariant_init.
  - exact (account_invariant_step db db' IH Hstep).
Qed.

(** In every reachable state usernames are unique, the only account of
    role admin is the seeded one (id 1, username admin) since
    [register_user] only creates students, and the session, when there is
    one, carries the id, username and role of a stored account. *)
Theorem reachable_accounts (db : NotesDatabase) :
  reachable _hash_password json_dumps db ->
  NoDup (map u_username (users db))
  /\ (forall u, In u (users db) -> u_role u = "admin" ->
                u_id u = 1 /\ u_username u = "admin")
  /\ (forall cu, current_user db = Some cu ->
                 exists u, In u (users db) /\ u_id u = s_id cu
                           /\ u_username u = s_username cu
                           /\ u_role u = s_role cu).
Proof.
  intros Hreach. apply reachable_account_invariant in Hreach.
  destruct Hreach as [_ [Hnd [Hadm Hsess]]]. auto.
Qed.

(** In a reachable state a note is only ever deleted by a session of its
    uploader or by the session of the seeded admin account. *)
Theorem delete_note_only_owner_or_admin (db db' : NotesDatabase)
    (note_id : Z) (message : string) :
  reachable _hash_password json_dumps db ->
  delete_note db note_id = (db', (true, message)) ->
  exists cu n,
    current_user db = Some cu /\ find_note db note_id = Some n
    /\ (n_uploader_id n = s_id cu
        \/ (s_id cu = 1 /\ s_username cu = "admin")).
Proof.
  intros Hreach Hdel. apply reachable_account_invariant in Hreach.
  destruct Hreach as [_ [_ [Hadm Hsess]]]. unfold delete_note in Hdel.
  destruct (current_user db) as [cu|] eqn:Hcu; [|discriminate].
  destruct (find_note db note_id) as [n|] eqn:Hn; [|discriminate].
  destruct (n_uploader_id n =? s_id cu) eqn:Eo.
  - exists cu, n. apply Z.eqb_eq in Eo. auto.
  - destruct (s_role cu =? "admin")%string eqn:Er; [|discriminate].
    apply String.eqb_eq in Er.
    destruct (Hsess cu eq_refl) as [u [Hu [Eid [Ename Erole]]]].
    destruct (Hadm u Hu) as [H1 Hname]; [congruence|].
    exists cu, n. repeat split; try reflexivity. right. split; congruence.
Qed.

(** Restarting the application on a database it has used re-seeds nothing:
    in every reachable state [_create_demo_data] returns the state as it
    is. *)
Theorem restart_seeds_nothing (db : NotesDatabase) (clock : nat -> string) :
  reachable _hash_password json_dumps db ->
  _create_demo_data _hash_password json_dumps db clock = db.
Proof.
  intros Hreach. apply reachable_account_invariant in Hreach.
  destruct Hreach as [Hne _]. unfold _create_demo_data.
  destruct (users db) as [|u us]; [contradiction | reflexivity].
Qed.

End AccountsOverTime.

(** ** Catalog: what uploads and deletions touch *)

Lemma find_filter_other (ns : list note_row) (id other : Z) :
  other <> id ->
  find (fun n => n_id n =? other) (filter (fun n => negb (n_id n =? id)) ns)
  = find (fun n => n_id n =? other) ns.
Proof.
  intros Hne. induction ns as [|n ns IH]; simpl; [reflexivity|].
  destruct (n_id n =? id) eqn:E; simpl.
  - apply Z.eqb_eq in E.
    assert (Hn : (n_id n =? other) = false) by (apply Z.eqb_neq; congruence).
    now rewrite Hn.
  - destruct (n_id n =? other); [reflexivity | exact IH].
Qed.

Lemma filter_filter_other {A : Type} (key : A -> Z) (l : list A)
    (id other : Z) :
  other <> id ->
  filter (fun x => key x =? other) (filter (fun x => negb (key x =? id)) l)
  = filter (fun x => key x =? other) l.
Proof.
  intros Hne. induction l as [|x l IH]; simpl; [reflexivity|].
  destruct (key x =? id) eqn:E; simpl.
  - apply Z.eqb_eq in E.
    assert (Hx : (key x =? other) = false) by (apply Z.eqb_neq; congruence).
    now rewrite Hx.
  - now rewrite IH.
Qed.

(** Without a session none of the four catalog operations does anything:
    each answers "Please login first" and returns the state as it was, and
    [get_user_stats] returns the empty dict. *)
Theorem without_session_nothing_changes
    (json_dumps : list string -> string) (db : NotesDatabase) :
  current_user db = None ->
  (forall env title category subject description tags file,
      add_note json_dumps db env title category subject description tags file
      = (db, (false, "Please login first")))
  /\ (forall now note_id,
        download_note db now note_id
        = (db, (false, "Please login first", None)))
  /\ (forall now note_id rating review,
        rate_note db now note_id rating review
        = (db, (false, "Please login first")))
  /\ (forall note_id,
        delete_note db note_id = (db, (false, "Please login first")))
  /\ get_user_stats db = StatsEmpty.
Proof.
  intros Hcu. unfold add_note, download_note, rate_note, delete_note,
    get_user_stats. rewrite Hcu. now repeat split.
Qed.

(** [add_note] succeeds exactly when there is a session, a file, a
    non-empty title, category and subject, and the copy of the file
    succeeds; every failure returns the state as it was. *)
Theorem add_note_outcome (json_dumps : list string -> string)
    (db : NotesDatabase) (env : upload_env) (title category subject
    description tags : string) (file : option string) :
  (fst (snd (add_note json_dumps db env title category subject description
               tags file)) = true
   <-> current_user db <> None /\ file <> None
       /\ title <> EmptyString /\ category <> EmptyString
       /\ subject <> EmptyString
       /\ exists file_size, env_copy env = inr file_size)
  /\ (fst (snd (add_note json_dumps db env title category subject
                  description tags file)) = false ->
      fst (add_note json_dumps db env title category subject description
             tags file) = db).
Proof.
  unfold add_note.
  destruct (current_user db) as [cu|];
    [|simpl; split; [split; [discriminate | tauto] | reflexivity]].
  destruct file as [name|];
    [|simpl; split; [split; [discriminate | tauto] | reflexivity]].
  destruct title as [|c1 t1];
    [simpl; split; [split; [discriminate | tauto] | reflexivity]|].
  destruct category as [|c2 t2];
    [simpl; split; [split; [discriminate | tauto] | reflexivity]|].
  destruct subject as [|c3 t3];
    [simpl; split; [split; [discriminate | tauto] | reflexivity]|].
  simpl is_empty. cbn [orb].
  destruct (env_copy env) as [e|size]; simpl.
  - split; [split; [discriminate|] | reflexivity].
    intros [_ [_ [_ [_ [_ [size H]]]]]]. discriminate.
  - split; [|discriminate]. split; [|reflexivity]. intros _.
    repeat split; try discriminate. now exists size.
Qed.

(** The row a successful [add_note] writes, and what it leaves alone. *)
Lemma add_note_stores (json_dumps : list string -> string)
    (db : NotesDatabase) (env : upload_env) (title category subject
    description tags name : string) (cu : session) (file_size : Z) :
  current_user db = Some cu ->
  title <> EmptyString -> category <> EmptyString ->
  subject <> EmptyString ->
  env_copy env = inr file_size ->
  let db' := fst (add_note json_dumps db env title category subject
                    description tags (Some name)) in
  let id := next_rowid (notes_seq db) (map n_id (notes db)) in
  (forall n, In n (notes db) -> n_id n < id)
  /\ find_note db' id
     = Some (mk_note id title category subject (Some description) (s_id cu)
               (env_now env) 0 (json_dumps (split_tags tags))
               (os_path_join storage_dir
                  (env_timestamp env ++ "_" ++ os_path_basename name))
               (os_path_basename name) file_size 0 0)
  /\ (forall other, other <> id -> find_note db' other = find_note db other)
  /\ List.length (notes db') = S (List.length (notes db))
  /\ users db' = users db /\ ratings db' = ratings db
  /\ download_history db' = download_history db
  /\ current_user db' = current_user db.
Proof.
  intros Hcu Ht Hc Hs Hcopy db' id.
  assert (Hdb' : db' = insert_note db (env_now env) title category subject
                         (Some description) (s_id cu)
                         (json_dumps (split_tags tags))
                         (os_path_join storage_dir
                            (env_timestamp env ++ "_" ++ os_path_basename name))
                         (os_path_basename name) file_size).
  { unfold db', add_note. rewrite Hcu, Hcopy.
    rewrite (is_empty_false _ Ht), (is_empty_false _ Hc),
      (is_empty_false _ Hs). reflexivity. }
  assert (Hfresh : forall n, In n (notes db) -> n_id n < id).
  { intros n Hn. unfold id, next_rowid.
    pose proof (fold_max_ge (map n_id (notes db)) (n_id n)
                  (in_map n_id _ _ Hn)). lia. }
  assert (Hnone : find (fun n => n_id n =? id) (notes db) = None).
  { destruct (find (fun n => n_id n =? id) (notes db)) as [n|] eqn:E;
      [|reflexivity].
    apply find_some in E. destruct E as [Hn E]. apply Z.eqb_eq in E.
    specialize (Hfresh n Hn). lia. }
  rewrite Hdb'. unfold insert_note, find_note. simpl. fold id.
  split; [exact Hfresh|]. split.
  - rewrite find_app_missing by exact Hnone. simpl. now rewrite Z.eqb_refl.
  - split.
    + intros other Hother.
      destruct (find (fun n => n_id n =? other) (notes db)) as [n|] eqn:E.
      * now apply find_app_found.
      * rewrite find_app_missing by exact E. simpl.
        apply Z.eqb_neq in Hother. rewrite Z.eqb_sym in Hother.
        now rewrite Hother.
    + rewrite length_app. simpl. repeat split. lia.
Qed.

(** A successful [add_note] inserts one row and nothing else: the new note
    gets an id above every id in the table, looks up as the row built from
    the form (no downloads, no ratings, the session's user as uploader, the
    file under the storage directory), every other id looks up as before,
    and users, ratings, downloads and the session stay. *)
Theorem add_note_inserts (json_dumps : list string -> string)
    (db : NotesDatabase) (env : upload_env) (title category subject
    description tags name : string) (cu : session) (file_size : Z) :
  current_user db = Some cu ->
  title <> EmptyString -> category <> EmptyString ->
  subject <> EmptyString ->
  env_copy env = inr file_size ->
  let db' := fst (add_note json_dumps db env title category subject
                    description tags (Some name)) in
  let id := next_rowid (notes_seq db) (map n_id (notes db)) in
  (forall n, In n (notes db) -> n_id n < id)
  /\ find_note db' id
     = Some (mk_note id title category subject (Some description) (s_id cu)
               (env_now env) 0 (json_dumps (split_tags tags))
               (os_path_join storage_dir
                  (env_timestamp env ++ "_" ++ os_path_basename name))
               (os_path_basename name) file_size 0 0)
  /\ (forall other, other <> id -> find_note db' other = find_note db other)
  /\ List.length (notes db') = S (List.length (notes db))
  /\ users db' = users db /\ ratings db' = ratings db
  /\ download_history db' = download_history db
  /\ current_user db' = current_user db.
Proof.
  exact (add_note_stores json_dumps db env title category subject
           description tags name cu file_size).
Qed.

(** [delete_note], successful or not, leaves every other note alone: any
    other id looks up as before and keeps its rating rows and its download
    rows; users, the session and the id counter stay. *)
Theorem delete_note_frame (db : NotesDatabase) (note_id : Z) :
  users (fst (delete_note db note_id)) = users db
  /\ current_user (fst (delete_note db note_id)) = current_user db
  /\ notes_seq (fst (delete_note db note_id)) = notes_seq db
  /\ forall other,
       other <> note_id ->
       find_note (fst (delete_note db note_id)) other = find_note db other
       /\ ratings_of (ratings (fst (delete_note db note_id))) other
          = ratings_of (ratings db) other
       /\ filter (fun d => d_note_id d =? other)
            (download_history (fst (delete_note db note_id)))
          = filter (fun d => d_note_id d =? other) (download_history db).
Proof.
  unfold delete_note. destruct (current_user db) as [cu|] eqn:Hcu;
    [|now repeat split].
  destruct (find_note db note_id) as [n|]; [|now repeat split].
  destruct (negb (n_uploader_id n =? s_id cu)
            && negb (s_role cu =? "admin")%string); [now repeat split|].
  simpl. split; [reflexivity|]. split; [exact Hcu|]. split; [reflexivity|].
  intros other Hother. split; [|split].
  - unfold find_note. simpl. now apply find_filter_other.
  - unfold ratings_of. now apply (filter_filter_other r_note_id).
  - now apply (filter_filter_other d_note_id).
Qed.

(** ** File names and tag lists of an upload *)

Lemma has_char_app (c : ascii) (a b : string) :
  has_char c (a ++ b) = has_char c a || has_char c b.
Proof.
  induction a as [|d a IH]; simpl; [reflexivity|].
  rewrite IH. apply orb_assoc.
Qed.

Lemma has_char_existsb (c : ascii) (s : string) :
  existsb (fun d => (d =? c)%char) (list_ascii_of_string s) = has_char c s.
Proof. induction s as [|d s IH]; simpl; [reflexivity | now rewrite IH]. Qed.

Lemma ends_with_slash_snoc (a : string) :
  ends_with_slash (a ++ "/") = true.
Proof.
  induction a as [|c a IH]; [reflexivity|].
  simpl. destruct (a ++ "/") eqn:E; [|exact IH].
  destruct a; discriminate.
Qed.

(** [os.path.basename] returns the part after the last slash: the result
    holds no slash, and the path is the result preceded by nothing or by a
    prefix that ends in a slash. *)
Theorem os_path_basename_spec (p : string) :
  has_char "/" (os_path_basename p) = false
  /\ exists dir,
       p = dir ++ os_path_basename p
       /\ (dir = EmptyString \/ ends_with_slash dir = true).
Proof.
  induction p as [|c p [IHs [dir [IHp IHd]]]].
  - split; [reflexivity|]. exists EmptyString. auto.
  - simpl. destruct (c =? "/")%char eqn:Ec.
    + apply Ascii.eqb_eq in Ec. subst c. split; [exact IHs|].
      exists (String "/" dir). split; [simpl; now rewrite <- IHp|].
      right. destruct IHd as [-> | Hd]; [reflexivity|].
      simpl. destruct dir; [discriminate | exact Hd].
    + rewrite has_char_existsb.
      destruct (has_char "/" p) eqn:Hp.
      * split; [exact IHs|]. exists (String c dir).
        split; [simpl; now rewrite <- IHp|]. right.
        destruct IHd as [-> | Hd].
        -- simpl in IHp. rewrite <- IHp in IHs. congruence.
        -- simpl. destruct dir; [discriminate | exact Hd].
      * split; [simpl; now rewrite Ec, Hp|].
        exists EmptyString. auto.
Qed.

Lemma os_path_join_storage_dir (leaf : string) :
  has_char "/" leaf = false ->
  os_path_join storage_dir leaf = "uploaded_files/" ++ leaf.
Proof.
  intros Hleaf. destruct leaf as [|c leaf]; [reflexivity|].
  simpl in Hleaf. apply orb_false_iff in Hleaf. destruct Hleaf as [Hc _].
  destruct c as [[] [] [] [] [] [] [] []]; try reflexivity.
  vm_compute in Hc. discriminate.
Qed.

(** The file of an upload lands inside the storage directory: when the
    time stamp holds no slash (it is made of digits and an underscore), the
    path [add_note] stores is "uploaded_files/" followed by a name without
    any slash, whatever path the uploaded file came with. *)
Theorem upload_path_confined (json_dumps : list string -> string)
    (db : NotesDatabase) (env : upload_env) (title category subject
    description tags name : string) (cu : session) (file_size : Z) :
  current_user db = Some cu ->
  title <> EmptyString -> category <> EmptyString ->
  subject <> EmptyString ->
  env_copy env = inr file_size ->
  has_char "/" (env_timestamp env) = false ->
  exists n leaf,
    find_note
      (fst (add_note json_dumps db env title category subject description
              tags (Some name)))
      (next_rowid (notes_seq db) (map n_id (notes db))) = Some n
    /\ n_file_path n = "uploaded_files/" ++ leaf
    /\ has_char "/" leaf = false
    /\ has_char "/" (n_file_name n) = false.
Proof.
  intros Hcu Ht Hc Hs Hcopy Hstamp.
  destruct (add_note_stores json_dumps db env title category subject
              description tags name cu file_size Hcu Ht Hc Hs Hcopy)
    as [_ [Hfind _]].
  destruct (os_path_basename_spec name) as [Hbase _].
  eexists. exists (env_timestamp env ++ "_" ++ os_path_basename name).
  split; [exact Hfind|]. cbn [n_file_path n_file_name].
  assert (Hleaf : has_char "/"
                    (env_timestamp env ++ "_" ++ os_path_basename name)
                  = false).
  { rewrite has_char_app, Hstamp. simpl. exact Hbase. }
  split; [|split; [exact Hleaf | exact Hbase]].
  now apply os_path_join_storage_dir.
Qed.

Lemma split_nonempty (sep : ascii) (s : string) : split sep s <> [].
Proof.
  destruct s as [|c s]; simpl; [discriminate|].
  destruct (c =? sep)%char; [discriminate|].
  destruct (split sep s); discriminate.
Qed.

(** Joining the pieces of [split] with the separator gives the text back. *)
Theorem split_join (sep : ascii) (s : string) : join sep (split sep s) = s.
Proof.
  induction s as [|c s IH]; [reflexivity|]. simpl split.
  destruct (c =? sep)%char eqn:Ec.
  - apply Ascii.eqb_eq in Ec. subst c.
    pose proof (split_nonempty sep s) as Hne.
    cbn [join]. destruct (split sep s) as [|h t]; [contradiction|].
    simpl in *. now rewrite IH.
  - pose proof (split_nonempty sep s) as Hne.
    destruct (split sep s) as [|h t]; [contradiction|].
    cbn [join] in *. destruct t as [|h' t'].
    + now rewrite IH.
    + rewrite <- IH. reflexivity.
Qed.

Lemma split_no_sep (sep : ascii) (s : string) :
  Forall (fun p => has_char sep p = false) (split sep s).
Proof.
  induction s as [|c s IH]; simpl; [repeat constructor|].
  destruct (c =? sep)%char eqn:Ec; [constructor; [reflexivity | exact IH]|].
  pose proof (split_nonempty sep s) as Hne.
  destruct (split sep s) as [|h t]; [contradiction|].
  inversion IH as [|x l Hh Ht]; subst.
  constructor; [|exact Ht]. simpl. now rewrite Ec, Hh.
Qed.

(** A white-space character has one, two or three bytes. *)
Lemma is_space_cases (w : string) :
  is_space w = true ->
  (exists a, w = String a EmptyString)
  \/ (exists a b, w = String a (String b EmptyString))
  \/ (exists a b c, w = String a (String b (String c EmptyString))).
Proof.
  unfold is_space, whitespace. cbn [map existsb app]. intros H.
  repeat (apply orb_prop in H; destruct H as [H|H]); try discriminate;
    apply String.eqb_eq in H; subst w; cbv [bytes map string_of_list_ascii];
    eauto 6.
Qed.

Ltac no_space_head :=
  let w := fresh "w" in
  let rest := fresh "rest" in
  let Hw := fresh "Hw" in
  let E := fresh "E" in
  intros w rest Hw E;
  destruct (is_space_cases w Hw) as [[? ->]|[[? [? ->]]|[? [? [? ->]]]]];
  simpl in E; inversion E; subst; congruence.

(** [lstrip] drops a prefix and leaves no white space at the head. *)
Lemma lstrip_spec (s : string) :
  (exists x, s = x ++ lstrip s) /\ no_leading_space (lstrip s).
Proof.
  assert (H : forall n t, (String.length t <= n)%nat ->
                (exists x, t = x ++ lstrip t) /\ no_leading_space (lstrip t)).
  { induction n as [|n IH]; intros [|c1 s1] Hl; simpl in Hl; try lia;
      try (split; [now exists EmptyString | no_space_head]).
    cbn [lstrip].
    destruct (is_space (String c1 EmptyString)) eqn:E1.
    { destruct (IH s1) as [[x Hx] Hn]; [lia|]. split; [|exact Hn].
      exists (String c1 x). simpl. now rewrite <- Hx. }
    destruct s1 as [|c2 s2];
      [split; [now exists EmptyString | no_space_head]|].
    destruct (is_space (String c1 (String c2 EmptyString))) eqn:E2.
    { destruct (IH s2) as [[x Hx] Hn]; [simpl in Hl; lia|].
      split; [|exact Hn].
      exists (String c1 (String c2 x)). simpl. now rewrite <- Hx. }
    destruct s2 as [|c3 s3];
      [split; [now exists EmptyString | no_space_head]|].
    destruct (is_space (String c1 (String c2 (String c3 EmptyString))))
      eqn:E3.
    { destruct (IH s3) as [[x Hx] Hn]; [simpl in Hl; lia|].
      split; [|exact Hn].
      exists (String c1 (String c2 (String c3 x))). simpl.
      now rewrite <- Hx. }
    split; [now exists EmptyString | no_space_head]. }
  apply (H (String.length s)). lia.
Qed.

Lemma lstrip_fixed (s : string) : no_leading_space s -> lstrip s = s.
Proof.
  intros Hn. destruct s as [|c1 s1]; [reflexivity|]. cbn [lstrip].
  destruct (is_space (String c1 EmptyString)) eqn:E1;
    [exfalso; now apply (Hn _ s1 E1)|].
  destruct s1 as [|c2 s2]; [reflexivity|].
  destruct (is_space (String c1 (String c2 EmptyString))) eqn:E2;
    [exfalso; now apply (Hn _ s2 E2)|].
  destruct s2 as [|c3 s3]; [reflexivity|].
  destruct (is_space (String c1 (String c2 (String c3 EmptyString))))
    eqn:E3; [exfalso; now apply (Hn _ s3 E3) | reflexivity].
Qed.

(** [rstrip] keeps a prefix and leaves no white space at the end. *)
Lemma rstrip_prefix (s : string) : exists x, s = rstrip s ++ x.
Proof.
  induction s as [|c s [x IH]]; [now exists EmptyString|]. cbn [rstrip].
  destruct (is_space (String c (rstrip s))).
  - now exists (String c s).
  - exists x. simpl. now rewrite <- IH.
Qed.

Lemma rstrip_no_trailing_space (s : string) : no_trailing_space (rstrip s).
Proof.
  induction s as [|c s IH]; cbn [rstrip].
  - intros w [|a pre] Hw E; [|discriminate]. simpl in E. now subst w.
  - destruct (is_space (String c (rstrip s))) eqn:Ec.
    + intros w [|a pre] Hw E; [|discriminate]. simpl in E. now subst w.
    + intros w [|a pre] Hw E; simpl in E.
      * rewrite <- E in Hw. congruence.
      * inversion E as [[Ea Er]]. exact (IH w pre Hw Er).
Qed.

Lemma rstrip_fixed (s : string) : no_trailing_space s -> rstrip s = s.
Proof.
  induction s as [|c s IH]; intros Hn; [reflexivity|]. cbn [rstrip].
  rewrite IH.
  - destruct (is_space (String c s)) eqn:E; [|reflexivity].
    exfalso. now apply (Hn _ EmptyString E).
  - intros w pre Hw E. apply (Hn w (String c pre) Hw). simpl. now rewrite E.
Qed.

Lemma rstrip_no_leading_space (s : string) :
  no_leading_space s -> no_leading_space (rstrip s).
Proof.
  intros Hn w rest Hw E. destruct (rstrip_prefix s) as [x Hx].
  apply (Hn w (rest ++ x) Hw). now rewrite Hx, E, append_assoc.
Qed.

Lemma strip_no_space (s : string) :
  no_leading_space (strip s) /\ no_trailing_space (strip s).
Proof.
  unfold strip. split.
  - apply rstrip_no_leading_space, lstrip_spec.
  - apply rstrip_no_trailing_space.
Qed.

Lemma strip_idem (s : string) : strip (strip s) = strip s.
Proof.
  destruct (strip_no_space s) as [Hl Hr]. unfold strip at 1.
  now rewrite (lstrip_fixed _ Hl), (rstrip_fixed _ Hr).
Qed.

Lemma has_char_strip (c : ascii) (s : string) :
  has_char c s = false -> has_char c (strip s) = false.
Proof.
  intros H. unfold strip.
  destruct (lstrip_spec s) as [[x Hx] _].
  destruct (rstrip_prefix (lstrip s)) as [y Hy].
  rewrite Hx, Hy, !has_char_app in H.
  apply orb_false_iff in H. destruct H as [_ H].
  apply orb_false_iff in H. now destruct H as [H _].
Qed.

(** Every tag [add_note] stores is clean: it is not empty, no white-space
    character (of the whole set [str.strip] removes, ASCII or not) stands
    at its head or at its end, so that stripping it again changes nothing,
    and it holds no comma. *)
Theorem split_tags_clean (tags : string) :
  Forall (fun tag => tag <> EmptyString
                     /\ no_leading_space tag /\ no_trailing_space tag
                     /\ strip tag = tag
                     /\ has_char "," tag = false)
         (split_tags tags).
Proof.
  unfold split_tags. apply Forall_forall. intros tag Hin.
  apply in_map_iff in Hin. destruct Hin as [piece [<- Hin]].
  apply filter_In in Hin. destruct Hin as [Hin Hkeep].
  split; [|split; [|split; [|split]]].
  - intros E. rewrite E in Hkeep. discriminate.
  - apply strip_no_space.
  - apply strip_no_space.
  - apply strip_idem.
  - pose proof (split_no_sep "," tags) as Hsep.
    rewrite Forall_forall in Hsep. specialize (Hsep piece Hin).
    now apply has_char_strip.
Qed.

(** ** Counters, aggregates and note ids over time *)

Lemma ratings_sum_bounds (l : list Z) :
  Forall (fun v => 1 <= v <= 5) l ->
  Z.of_nat (List.length l) <= fold_right Z.add 0 l
  /\ fold_right Z.add 0 l <= 5 * Z.of_nat (List.length l).
Proof.
  induction 1 as [|v l Hv _ IH]; simpl List.length; simpl fold_right; lia.
Qed.

Lemma sum_count_bounds (rs : list rating_row) (id : Z) :
  Forall (fun r => 1 <= r_rating r <= 5) rs ->
  0 <= count_rating rs id
  /\ count_rating rs id <= sum_rating rs id <= 5 * count_rating rs id.
Proof.
  intros Hall. unfold count_rating, sum_rating.
  assert (H : Forall (fun v => 1 <= v <= 5) (map r_rating (ratings_of rs id))).
  { apply Forall_map. unfold ratings_of. now apply Forall_filter_keep. }
  apply ratings_sum_bounds in H. rewrite length_map in H. lia.
Qed.

Lemma upsert_rating_in_range rs id u v review now :
  1 <= v <= 5 ->
  Forall (fun r => 1 <= r_rating r <= 5) rs ->
  Forall (fun r => 1 <= r_rating r <= 5) (upsert_rating rs id u v review now).
Proof.
  intros Hv Hall. unfold upsert_rating.
  destruct (existsb (same_key id u) rs).
  - apply Forall_map. eapply Forall_impl; [|exact Hall].
    intros r Hr. unfold overwrite. now destruct (same_key id u r).
  - apply Forall_app. split; [exact Hall|]. now repeat constructor.
Qed.

Lemma next_rowid_above (seq : Z) (ids : list Z) :
  seq < next_rowid seq ids /\ 1 <= next_rowid seq ids.
Proof.
  unfold next_rowid.
  assert (0 <= fold_right Z.max 0 ids).
  { induction ids as [|x ids IH]; simpl; lia. }
  lia.
Qed.

Lemma find_filter_none (ns : list note_row) (p : note_row -> bool) (id : Z) :
  find (fun n => n_id n =? id) ns = None ->
  find (fun n => n_id n =? id) (filter p ns) = None.
Proof.
  induction ns as [|n ns IH]; simpl; [trivial|].
  destruct (n_id n =? id) eqn:E; [discriminate|]. intros H.
  destruct (p n); simpl; [rewrite E|]; now apply IH.
Qed.

Section NotesOverTime.

Variable _hash_password : string -> string.
Variable json_dumps : list string -> string.

Lemma counter_invariant_init clock :
  counter_invariant (init _hash_password json_dumps clock).
Proof.
  unfold counter_invariant. cbv [init _create_demo_data empty_db users notes
    ratings current_user List.length Nat.ltb Nat.leb demo_users
    sample_notes fold_left fst].
  vm_compute. repeat split; repeat constructor; discriminate.
Qed.

Lemma counter_invariant_step db db' :
  counter_invariant db -> step _hash_password json_dumps db db' ->
  counter_invariant db'.
Proof.
  intros Hinv Hstep. pose proof Hinv as [Hr [Ha [Hd Hi]]].
  destruct Hstep.
  - unfold authenticate. destruct (find_user db username) as [u|];
      [|exact Hinv].
    now destruct (u_password u =? _hash_password password)%string.
  - unfold register_user.
    destruct (len username <? 3)%nat; [exact Hinv|].
    destruct (len password <? 6)%nat; [exact Hinv|].
    unfold insert_user. now destruct (existsb _ (users db)).
  - exact Hinv.
  - unfold add_note. destruct (current_user db) as [cu|]; [|exact Hinv].
    destruct file as [name|]; [|exact Hinv].
    destruct (is_empty title || is_empty category || is_empty subject);
      [exact Hinv|].
    destruct (env_copy env) as [e|size]; [exact Hinv|].
    unfold counter_invariant, insert_note. simpl.
    destruct (next_rowid_above (notes_seq db) (map n_id (notes db)))
      as [Hlt Hpos].
    split; [exact Hr|]. split; [|split].
    + apply Forall_app. split; [exact Ha|]. repeat constructor; simpl; lia.
    + apply Forall_app. split; [exact Hd|]. repeat constructor; simpl; lia.
    + apply Forall_app. split.
      * eapply Forall_impl; [|exact Hi]. simpl. intros n Hn. lia.
      * repeat constructor; simpl; lia.
  - unfold download_note. destruct (current_user db) as [cu|]; [|exact Hinv].
    destruct (find_note db note_id) as [n|]; [|exact Hinv].
    unfold counter_invariant, bump_downloads. simpl.
    split; [exact Hr|]. split; [|split]; apply Forall_map.
    + eapply Forall_impl; [|exact Ha]. intros m Hm.
      now destruct (n_id m =? note_id).
    + eapply Forall_impl; [|exact Hd]. simpl. intros m Hm.
      destruct (n_id m =? note_id); simpl; lia.
    + eapply Forall_impl; [|exact Hi]. intros m Hm.
      now destruct (n_id m =? note_id).
  - unfold rate_note. destruct (current_user db) as [cu|]; [|exact Hinv].
    destruct ((rating <? 1) || (rating >? 5)) eqn:E; [exact Hinv|].
    assert (Hv : 1 <= rating <= 5).
    { apply orb_false_iff in E. destruct E as [E1 E5].
      apply Z.ltb_ge in E1. rewrite Z.gtb_ltb in E5. apply Z.ltb_ge in E5.
      lia. }
    pose proof (upsert_rating_in_range (ratings db) note_id (s_id cu) rating
                  review now Hv Hr) as Hr'.
    unfold counter_invariant, update_rating_summary. simpl.
    split; [exact Hr'|]. split; [|split]; apply Forall_map.
    + eapply Forall_impl; [|exact Ha]. intros m Hm.
      destruct (n_id m =? note_id); [|exact Hm].
      unfold aggregates_bounded. simpl. now apply sum_count_bounds.
    + eapply Forall_impl; [|exact Hd]. intros m Hm.
      now destruct (n_id m =? note_id).
    + eapply Forall_impl; [|exact Hi]. intros m Hm.
      now destruct (n_id m =? note_id).
  - unfold delete_note. destruct (current_user db) as [cu|]; [|exact Hinv].
    destruct (find_note db note_id) as [n|]; [|exact Hinv].
    destruct (negb (n_uploader_id n =? s_id cu)
              && negb (s_role cu =? "admin")%string); [exact Hinv|].
    unfold counter_invariant. simpl.
    repeat split; now apply Forall_filter_keep.
Qed.

Lemma reachable_counter_invariant db :
  reachable _hash_password json_dumps db -> counter_invariant db.
Proof.
  induction 1 as [clock | db db' _ IH Hstep].
  - apply counter_invariant_init.
  - exact (counter_invariant_step db db' IH Hstep).
Qed.

(** In every reachable state each stored rating lies in 1..5, each note has
    [rating_count >= 0] and [rating_count <= rating_sum <= 5 * rating_count],
    no download counter is negative, and note ids are positive and at most
    the AUTOINCREMENT counter. *)
Theorem reachable_counters (db : NotesDatabase) :
  reachable _hash_password json_dumps db ->
  (forall r, In r (ratings db) -> 1 <= r_rating r <= 5)
  /\ (forall n, In n (notes db) ->
        0 <= n_rating_count n
        /\ n_rating_count n <= n_rating_sum n <= 5 * n_rating_count n
        /\ 0 <= n_downloads n
        /\ 1 <= n_id n <= notes_seq db).
Proof.
  intros Hreach. apply reachable_counter_invariant in Hreach.
  destruct Hreach as [Hr [Ha [Hd Hi]]].
  rewrite Forall_forall in Hr, Ha, Hd, Hi. split; [exact Hr|].
  intros n Hn. destruct (Ha n Hn) as [H0 H1].
  specialize (Hd n Hn). specialize (Hi n Hn). simpl in *. tauto.
Qed.

(** The average shown for a note of a reachable state is 0 when the note
    has no counted rating and lies between 1 and 5 otherwise. *)
Theorem avg_rating_range (db : NotesDatabase) (n : note_row) :
  reachable _hash_password json_dumps db ->
  In n (notes db) ->
  (n_rating_count n = 0 /\ avg_rating n = 0%Q)
  \/ (0 < n_rating_count n /\ (1 <= avg_rating n <= 5)%Q).
Proof.
  intros Hreach Hn. apply reachable_counter_invariant in Hreach.
  destruct Hreach as [_ [Ha _]]. rewrite Forall_forall in Ha.
  destruct (Ha n Hn) as [H0 [H1 H5]]. unfold avg_rating.
  destruct (n_rating_count n >? 0) eqn:E.
  - right. rewrite Z.gtb_ltb in E. apply Z.ltb_lt in E. split; [exact E|].
    assert (Hc : (0 < inject_Z (n_rating_count n))%Q).
    { change 0%Q with (inject_Z 0). now rewrite <- Zlt_Qlt. }
    split.
    + apply Qle_shift_div_l; [exact Hc|]. rewrite Qmult_1_l.
      rewrite <- Zle_Qle. lia.
    + apply Qle_shift_div_r; [exact Hc|]. change 5%Q with (inject_Z 5).
      rewrite <- inject_Z_mult, <- Zle_Qle. lia.
  - left. rewrite Z.gtb_ltb in E. apply Z.ltb_ge in E.
    split; [lia | reflexivity].
Qed.

(** What one call can do to the note of a given id: remove it, or leave
    its metadata alone and its download counter the same or one higher. *)
Lemma step_note db db' id n :
  step _hash_password json_dumps db db' ->
  find_note db id = Some n ->
  find_note db' id = None
  \/ exists n', find_note db' id = Some n' /\ same_metadata n n'
                /\ n_downloads n <= n_downloads n' <= n_downloads n + 1.
Proof.
  intros Hstep Hn.
  assert (Hsame : exists n', find_note db id = Some n' /\ same_metadata n n'
                  /\ n_downloads n <= n_downloads n' <= n_downloads n + 1).
  { exists n. unfold same_metadata.
    repeat split; try reflexivity; try exact Hn; lia. }
  destruct Hstep.
  - right. unfold authenticate. destruct (find_user db username) as [u|];
      [|exact Hsame].
    now destruct (u_password u =? _hash_password password)%string.
  - right. unfold register_user.
    destruct (len username <? 3)%nat; [exact Hsame|].
    destruct (len password <? 6)%nat; [exact Hsame|].
    unfold insert_user. now destruct (existsb _ (users db)).
  - right. exact Hsame.
  - right. unfold add_note. destruct (current_user db) as [cu|];
      [|exact Hsame].
    destruct file as [name|]; [|exact Hsame].
    destruct (is_empty title || is_empty category || is_empty subject);
      [exact Hsame|].
    destruct (env_copy env) as [e|size]; [exact Hsame|].
    exists n. unfold find_note, insert_note. simpl.
    split; [now apply find_app_found|].
    unfold same_metadata. repeat split; try reflexivity; lia.
  - right. unfold download_note. destruct (current_user db) as [cu|];
      [|exact Hsame].
    destruct (find_note db note_id) as [m|]; [|exact Hsame].
    unfold find_note, bump_downloads in *. simpl.
    rewrite find_map_preserved
      by (intros x; now destruct (n_id x =? note_id)).
    rewrite Hn. simpl. eexists. split; [reflexivity|].
    destruct (n_id n =? note_id); unfold same_metadata; simpl;
      repeat split; try reflexivity; lia.
  - right. unfold rate_note. destruct (current_user db) as [cu|];
      [|exact Hsame].
    destruct ((rating <? 1) || (rating >? 5)); [exact Hsame|].
    unfold find_note, update_rating_summary in *. simpl.
    rewrite find_map_preserved
      by (intros x; now destruct (n_id x =? note_id)).
    rewrite Hn. simpl. eexists. split; [reflexivity|].
    destruct (n_id n =? note_id); unfold same_metadata; simpl;
      repeat split; try reflexivity; lia.
  - unfold delete_note. destruct (current_user db) as [cu|];
      [|right; exact Hsame].
    destruct (find_note db note_id) as [m|]; [|right; exact Hsame].
    destruct (negb (n_uploader_id m =? s_id cu)
              && negb (s_role cu =? "admin")%string); [right; exact Hsame|].
    unfold find_note. simpl. destruct (Z.eq_dec id note_id) as [-> | Hne].
    + left. apply find_note_filtered_out.
    + right. rewrite find_filter_other by exact Hne. exact Hsame.
Qed.

(** An id that the counter has passed and that no note carries stays
    free: uploads take ids above the counter. *)
Lemma step_absent_stays db db' id :
  step _hash_password json_dumps db db' ->
  id <= notes_seq db -> find_note db id = None ->
  id <= notes_seq db' /\ find_note db' id = None.
Proof.
  intros Hstep Hseq Hnone. destruct Hstep.
  - unfold authenticate. destruct (find_user db username) as [u|];
      [|now split].
    now destruct (u_password u =? _hash_password password)%string.
  - unfold register_user.
    destruct (len username <? 3)%nat; [now split|].
    destruct (len password <? 6)%nat; [now split|].
    unfold insert_user. now destruct (existsb _ (users db)).
  - now split.
  - unfold add_note. destruct (current_user db) as [cu|]; [|now split].
    destruct file as [name|]; [|now split].
    destruct (is_empty title || is_empty category || is_empty subject);
      [now split|].
    destruct (env_copy env) as [e|size]; [now split|].
    unfold find_note, insert_note in *. simpl.
    destruct (next_rowid_above (notes_seq db) (map n_id (notes db)))
      as [Hlt _].
    split; [lia|]. rewrite find_app_missing by exact Hnone. simpl.
    assert (E : (next_rowid (notes_seq db) (map n_id (notes db)) =? id)
                = false) by (apply Z.eqb_neq; lia).
    now rewrite E.
  - unfold download_note. destruct (current_user db) as [cu|]; [|now split].
    destruct (find_note db note_id) as [m|]; [|now split].
    unfold find_note, bump_downloads in *. simpl. split; [exact Hseq|].
    rewrite find_map_preserved
      by (intros x; now destruct (n_id x =? note_id)).
    now rewrite Hnone.
  - unfold rate_note. destruct (current_user db) as [cu|]; [|now split].
    destruct ((rating <? 1) || (rating >? 5)); [now split|].
    unfold find_note, update_rating_summary in *. simpl. split; [exact Hseq|].
    rewrite find_map_preserved
      by (intros x; now destruct (n_id x =? note_id)).
    now rewrite Hnone.
  - unfold delete_note. destruct (current_user db) as [cu|]; [|now split].
    destruct (find_note db note_id) as [m|]; [|now split].
    destruct (negb (n_uploader_id m =? s_id cu)
              && negb (s_role cu =? "admin")%string); [now split|].
    unfold find_note in *. simpl. split; [exact Hseq|].
    now apply find_filter_none.
Qed.

Lemma step_seq_grows db db' :
  step _hash_password json_dumps db db' -> notes_seq db <= notes_seq db'.
Proof.
  intros Hstep. destruct Hstep.
  - unfold authenticate. destruct (find_user db username) as [u|];
      [|reflexivity].
    destruct (u_password u =? _hash_password password)%string; reflexivity.
  - unfold register_user.
    destruct (len username <? 3)%nat; [reflexivity|].
    destruct (len password <? 6)%nat; [reflexivity|].
    unfold insert_user. destruct (existsb _ (users db)); reflexivity.
  - reflexivity.
  - unfold add_note. destruct (current_user db) as [cu|]; [|reflexivity].
    destruct file as [name|]; [|reflexivity].
    destruct (is_empty title || is_empty category || is_empty subject);
      [reflexivity|].
    destruct (env_copy env) as [e|size]; [reflexivity|].
    unfold insert_note. simpl.
    destruct (next_rowid_above (notes_seq db) (map n_id (notes db))). lia.
  - unfold download_note. destruct (current_user db) as [cu|];
      [|reflexivity].
    destruct (find_note db note_id); reflexivity.
  - unfold rate_note. destruct (current_user db) as [cu|]; [|reflexivity].
    destruct ((rating <? 1) || (rating >? 5)); reflexivity.
  - unfold delete_note. destruct (current_user db) as [cu|]; [|reflexivity].
    destruct (find_note db note_id) as [m|]; [|reflexivity].
    destruct (negb (n_uploader_id m =? s_id cu)
              && negb (s_role cu =? "admin")%string); reflexivity.
Qed.

Lemma steps_absent_stays db db' id :
  steps _hash_password json_dumps db db' ->
  id <= notes_seq db -> find_note db id = None ->
  id <= notes_seq db' /\ find_note db' id = None.
Proof.
  induction 1 as [db | db db1 db2 _ IH Hstep]; intros Hseq Hnone;
    [now split|].
  destruct (IH Hseq Hnone) as [Hseq1 Hnone1].
  exact (step_absent_stays db1 db2 id Hstep Hseq1 Hnone1).
Qed.

(** A deleted note never comes back: after a successful [delete_note] in a
    reachable state, no sequence of later calls makes the id resolve
    again, because uploads take ids above every id ever given out. *)
Theorem deleted_note_never_returns (db db1 db2 : NotesDatabase)
    (note_id : Z) (message : string) :
  reachable _hash_password json_dumps db ->
  delete_note db note_id = (db1, (true, message)) ->
  steps _hash_password json_dumps db1 db2 ->
  find_note db2 note_id = None.
Proof.
  intros Hreach Hdel Hsteps.
  apply reachable_counter_invariant in Hreach.
  destruct Hreach as [_ [_ [_ Hi]]]. rewrite Forall_forall in Hi.
  unfold delete_note in Hdel.
  destruct (current_user db) as [cu|]; [|discriminate].
  destruct (find_note db note_id) as [n|] eqn:Hn; [|discriminate].
  destruct (negb (n_uploader_id n =? s_id cu)
            && negb (s_role cu =? "admin")%string); [discriminate|].
  inversion Hdel. subst db1. clear Hdel.
  pose proof (find_note_id db note_id n Hn) as Hid.
  unfold find_note in Hn. apply find_some in Hn. destruct Hn as [Hin _].
  specialize (Hi n Hin). simpl in Hi.
  apply (steps_absent_stays _ db2 note_id Hsteps).
  - simpl. lia.
  - unfold find_note. simpl. apply find_note_filtered_out.
Qed.

(** No operation edits a note: as long as an id of a reachable state
    resolves, it resolves to a row with the same title, category, subject,
    description, uploader, upload date, tags and file columns, and a
    download counter that has not gone down. *)
Theorem note_metadata_immutable (db db' : NotesDatabase) (note_id : Z)
    (n n' : note_row) :
  reachable _hash_password json_dumps db ->
  steps _hash_password json_dumps db db' ->
  find_note db note_id = Some n ->
  find_note db' note_id = Some n' ->
  same_metadata n n' /\ n_downloads n <= n_downloads n'.
Proof.
  intros Hreach Hsteps Hn Hn'.
  apply reachable_counter_invariant in Hreach.
  destruct Hreach as [_ [_ [_ Hi]]]. rewrite Forall_forall in Hi.
  assert (Hseq : note_id <= notes_seq db).
  { pose proof (find_note_id db note_id n Hn) as Hid.
    unfold find_note in Hn. apply find_some in Hn. destruct Hn as [Hin _].
    specialize (Hi n Hin). simpl in Hi. lia. }
  clear Hi.
  assert (Hgen : note_id <= notes_seq db'
                 /\ (find_note db' note_id = None
                     \/ exists m, find_note db' note_id = Some m
                                  /\ same_metadata n m
                                  /\ n_downloads n <= n_downloads m)).
  { clear Hn'. induction Hsteps as [db | db db1 db2 _ IH Hstep].
    - split; [exact Hseq|]. right. exists n. unfold same_metadata.
      repeat split; try reflexivity; try exact Hn; lia.
    - destruct (IH Hn Hseq) as [Hseq1 [Hnone | [m [Hm [Hmeta Hdl]]]]].
      + destruct (step_absent_stays db1 db2 note_id Hstep Hseq1 Hnone).
        auto.
      + split; [pose proof (step_seq_grows db1 db2 Hstep); lia|].
        destruct (step_note db1 db2 note_id m Hstep Hm)
          as [Hgone | [m' [Hm' [Hmeta' Hdl']]]]; [now left|].
        right. exists m'. split; [exact Hm'|].
        unfold same_metadata in *. split; [|lia].
        intuition congruence. }
  destruct Hgen as [_ [Hnone | [m [Hm Hrest]]]]; [congruence|].
  rewrite Hn' in Hm. inversion Hm. now subst m.
Qed.

End NotesOverTime.

(** ** The query engine with filters and the three sort keys *)

Section StableOrderBy.

Context {A : Type} (geb : A -> A -> bool).
Hypothesis geb_total : forall a b, geb a b = true \/ geb b a = true.
Hypothesis geb_trans :
  forall a b c, geb a b = true -> geb b c = true -> geb a c = true.

Lemma insert_desc_head (x : A) (l : list A) :
  (forall z, In z l -> geb x z = true) -> insert_desc geb x l = x :: l.
Proof.
  destruct l as [|y l]; simpl; [reflexivity|]. intros H.
  now rewrite (H y (or_introl eq_refl)).
Qed.

Lemma filter_insert_desc (p : A -> bool) (x : A) (l : list A) :
  StronglySorted (fun a b => geb a b = true) l ->
  filter p (insert_desc geb x l)
  = if p x then insert_desc geb x (filter p l) else filter p l.
Proof.
  induction l as [|y l IH]; intros Hs; simpl.
  - now destruct (p x).
  - inversion Hs as [|y' l' Hs' Hall]; subst. rewrite Forall_forall in Hall.
    destruct (geb x y) eqn:E.
    + simpl. destruct (p x) eqn:Px; [|reflexivity].
      symmetry. apply insert_desc_head. intros z Hz.
      destruct (p y) eqn:Py.
      * destruct Hz as [<- | Hz]; [exact E|].
        apply filter_In in Hz. destruct Hz as [Hz _].
        exact (geb_trans x y z E (Hall z Hz)).
      * apply filter_In in Hz. destruct Hz as [Hz _].
        exact (geb_trans x y z E (Hall z Hz)).
    + simpl. rewrite (IH Hs'). destruct (p y) eqn:Py, (p x) eqn:Px;
        simpl; try reflexivity. now rewrite E.
Qed.

(** Filtering commutes with the stable [ORDER BY]. *)
Lemma filter_order_by_desc (p : A -> bool) (l : list A) :
  filter p (order_by_desc geb l) = order_by_desc geb (filter p l).
Proof.
  induction l as [|x l IH]; simpl; [reflexivity|].
  rewrite filter_insert_desc
    by (apply order_by_desc_sorted; [exact geb_total | exact geb_trans]).
  rewrite IH. now destruct (p x).
Qed.

End StableOrderBy.

Lemma StronglySorted_impl {A : Type} (R S : A -> A -> Prop) (l : list A) :
  (forall a b, R a b -> S a b) -> StronglySorted R l -> StronglySorted S l.
Proof.
  intros HRS. induction 1 as [|x l _ IH Hall]; constructor; [exact IH|].
  eapply Forall_impl; [|exact Hall]. intros b. apply HRS.
Qed.

Lemma popular_geb_total (a b : search_row) :
  popular_geb a b = true \/ popular_geb b a = true.
Proof. unfold popular_geb. rewrite !Z.leb_le. lia. Qed.

Lemma popular_geb_trans (a b c : search_row) :
  popular_geb a b = true -> popular_geb b c = true -> popular_geb a c = true.
Proof. unfold popular_geb. rewrite !Z.leb_le. lia. Qed.

Lemma rating_geb_total (a b : search_row) :
  rating_geb a b = true \/ rating_geb b a = true.
Proof.
  unfold rating_geb. rewrite !Qle_bool_iff.
  destruct (Qlt_le_dec (row_avg_rating a) (row_avg_rating b)) as [H|H];
    [right; now apply Qlt_le_weak | now left].
Qed.

Lemma rating_geb_trans (a b c : search_row) :
  rating_geb a b = true -> rating_geb b c = true -> rating_geb a c = true.
Proof.
  unfold rating_geb. rewrite !Qle_bool_iff. intros H1 H2.
  exact (Qle_trans _ _ _ H2 H1).
Qed.

Lemma filter_sort_rows (p : search_row -> bool) (sort_by : string)
    (rows : list search_row) :
  filter p (sort_rows sort_by rows) = sort_rows sort_by (filter p rows).
Proof.
  unfold sort_rows.
  destruct (sort_by =? "recent")%string;
    [apply filter_order_by_desc;
     [exact recent_geb_total | exact recent_geb_trans]|].
  destruct (sort_by =? "popular")%string;
    [apply filter_order_by_desc;
     [exact popular_geb_total | exact popular_geb_trans]|].
  destruct (sort_by =? "rating")%string;
    [apply filter_order_by_desc;
     [exact rating_geb_total | exact rating_geb_trans]|].
  reflexivity.
Qed.

Lemma views_of_filter (json_loads : string -> option (list string))
    (round1 : Q -> Q) (p : search_row -> bool) (rows : list search_row)
    (vs : list NoteView) :
  views_of json_loads round1 rows = Some vs ->
  exists vs', views_of json_loads round1 (filter p rows) = Some vs'
              /\ incl vs' vs.
Proof.
  revert vs. induction rows as [|r rows IH]; intros vs Hvs; simpl in *.
  - exists []. split; [reflexivity | intros x []].
  - destruct (view_of json_loads round1 r) as [v|] eqn:Ev; [|discriminate].
    destruct (views_of json_loads round1 rows) as [vs0|]; [|discriminate].
    inversion Hvs. subst vs. destruct (IH vs0 eq_refl) as [vs' [Hvs' Hincl]].
    destruct (p r); simpl.
    + rewrite Ev, Hvs'. exists (v :: vs'). split; [reflexivity|].
      intros x [<- | Hx]; [now left | right; now apply Hincl].
    + exists vs'. split; [exact Hvs'|]. intros x Hx. right. now apply Hincl.
Qed.

(** The rows of a search are a rearrangement of the joined rows that pass
    the text condition and the category condition. *)
Lemma search_rows_perm (db : NotesDatabase) (query category sort_by
    : string) :
  Permutation
    (filter (fun r => text_filter query (row_note r)
                      && category_filter category (row_note r))
            (join_users (users db) (notes db)))
    (search_rows db query category sort_by).
Proof.
  unfold search_rows, sort_rows.
  destruct (sort_by =? "recent")%string; [apply order_by_desc_perm|].
  destruct (sort_by =? "popular")%string; [apply order_by_desc_perm|].
  destruct (sort_by =? "rating")%string; [apply order_by_desc_perm|].
  reflexivity.
Qed.

Lemma filter_andb_only {A : Type} (q : A -> bool) (p : A -> bool)
    (l : list A) :
  filter p (filter q l) = filter (fun x => p x && q x) l.
Proof.
  induction l as [|x l IH]; simpl; [reflexivity|].
  destruct (q x); simpl.
  - rewrite andb_true_r. destruct (p x); simpl; now rewrite IH.
  - rewrite andb_false_r. exact IH.
Qed.

Lemma Permutation_filter {A : Type} (p : A -> bool) (l l' : list A) :
  Permutation l l' -> Permutation (filter p l) (filter p l').
Proof.
  induction 1 as [|x l l' _ IH|x y l|l l' l'' _ IH1 _ IH2]; simpl.
  - constructor.
  - destruct (p x); [now constructor | exact IH].
  - destruct (p x), (p y); try reflexivity; try constructor; reflexivity.
  - now transitivity (filter p l').
Qed.

(** A search text only removes rows. For a text whose pattern the engine
    accepts, and every category and sort key, the rows of the search are,
    up to their order, the rows of the search with empty text without
    those the text condition rejects; and when the search with empty text
    returns its views, the search with the text returns views too, each of
    them among the former. *)
Theorem search_text_only_removes
    (json_loads : string -> option (list string)) (round1 : Q -> Q)
    (db : NotesDatabase) (query category sort_by : string) :
  within_like_limit query ->
  Permutation
    (search_rows db query category sort_by)
    (filter (fun r => text_filter query (row_note r))
       (search_rows db EmptyString category sort_by))
  /\ forall vs,
       search_notes json_loads round1 db EmptyString category sort_by
       = Some vs ->
       exists vs',
         search_notes json_loads round1 db query category sort_by = Some vs'
         /\ incl vs' vs.
Proof.
  intros _.
  assert (Hrows : search_rows db query category sort_by
                  = filter (fun r => text_filter query (row_note r))
                      (search_rows db EmptyString category sort_by)).
  { unfold search_rows. rewrite filter_sort_rows. f_equal.
    induction (join_users (users db) (notes db)) as [|r rows IH];
      simpl; [reflexivity|].
    destruct (category_filter category (row_note r)); simpl.
    - destruct (text_filter query (row_note r)); simpl; now rewrite IH.
    - rewrite andb_false_r. exact IH. }
  split.
  - apply Permutation_sym.
    apply (Permutation_trans
             (l' := filter (fun r => text_filter query (row_note r))
                      (filter (fun r => text_filter EmptyString (row_note r)
                                        && category_filter category
                                             (row_note r))
                         (join_users (users db) (notes db))))).
    + apply Permutation_filter, Permutation_sym, search_rows_perm.
    + rewrite filter_andb_only.
      erewrite filter_ext; [apply search_rows_perm|].
      intros r. cbn [text_filter is_empty].
      now destruct (text_filter query (row_note r)).
  - intros vs Hvs. unfold search_notes in *.
    rewrite Hrows. now apply views_of_filter.
Qed.

(** What [search_rows] returns for a text whose pattern the engine
    accepts, and any category and sort key: a rearrangement of exactly the
    joined rows that pass both conditions, so every row passes them and,
    for a category other than "All", carries that category; for the key
    "recent" the upload dates descend, for "popular" the download counters,
    for "rating" the averages. *)
Theorem search_rows_sorted (db : NotesDatabase) (query category sort_by
    : string) :
  within_like_limit query ->
  Permutation
    (filter (fun r => text_filter query (row_note r)
                      && category_filter category (row_note r))
            (join_users (users db) (notes db)))
    (search_rows db query category sort_by)
  /\ (forall r, In r (search_rows db query category sort_by) ->
        text_filter query (row_note r) = true
        /\ (category <> "All" -> n_category (row_note r) = category))
  /\ (sort_by = "recent" ->
      StronglySorted
        (fun a b => String.leb (n_upload_date (row_note b))
                      (n_upload_date (row_note a)) = true)
        (search_rows db query category sort_by))
  /\ (sort_by = "popular" ->
      StronglySorted
        (fun a b => n_downloads (row_note b) <= n_downloads (row_note a))
        (search_rows db query category sort_by))
  /\ (sort_by = "rating" ->
      StronglySorted
        (fun a b => (row_avg_rating b <= row_avg_rating a)%Q)
        (search_rows db query category sort_by)).
Proof.
  intros _.
  pose proof (search_rows_perm db query category sort_by) as Hperm.
  split; [exact Hperm|]. unfold search_rows in *.
  set (rows := filter _ (join_users (users db) (notes db))) in *.
  split; [|split; [|split]].
  - intros r Hr. apply (Permutation_in _ (Permutation_sym Hperm)) in Hr.
    apply filter_In in Hr. destruct Hr as [_ Hr].
    apply andb_true_iff in Hr. destruct Hr as [Ht Hc].
    split; [exact Ht|]. intros Hall. unfold category_filter in Hc.
    apply String.eqb_neq in Hall. rewrite Hall in Hc.
    now apply String.eqb_eq.
  - intros ->. unfold sort_rows. simpl.
    apply (order_by_desc_sorted recent_geb recent_geb_total recent_geb_trans).
  - intros ->. unfold sort_rows. simpl.
    apply (StronglySorted_impl (fun a b => popular_geb a b = true)).
    + intros a b H. unfold popular_geb in H. now apply Z.leb_le.
    + apply (order_by_desc_sorted popular_geb popular_geb_total
               popular_geb_trans).
  - intros ->. unfold sort_rows. simpl.
    apply (StronglySorted_impl (fun a b => rating_geb a b = true)).
    + intros a b H. unfold rating_geb in H. now apply Qle_bool_iff.
    + apply (order_by_desc_sorted rating_geb rating_geb_total
               rating_geb_trans).
Qed.

(** ** LIKE ignores ASCII letter case on both sides *)

Lemma lower_skip_continuation (s : string) :
  skip_continuation (lower s) = lower (skip_continuation s).
Proof.
  induction s as [|c s IH]; [reflexivity|]. simpl.
  rewrite to_lower_continuation. now destruct (is_continuation c).
Qed.

Lemma lower_after_char (d : ascii) (s : string) :
  after_char (to_lower d) (lower s) = lower (after_char d s).
Proof.
  unfold after_char. rewrite to_lower_lead.
  destruct (192 <=? N_of_ascii d)%N; [apply lower_skip_continuation|].
  reflexivity.
Qed.

Lemma like_pattern_lower_text (p s : string) :
  like_pattern p (lower s) = like_pattern p s.
Proof.
  revert s. induction p as [|c p IH]; intros s.
  - now destruct s.
  - destruct (c =? "%")%char eqn:Ep.
    + apply Ascii.eqb_eq in Ep. subst c.
      induction s as [|d s IHs] using char_ind; [reflexivity|].
      rewrite (like_percent p (lower (String d s))),
        (like_percent p (String d s)), IH.
      simpl lower. cbv iota. now rewrite lower_after_char, IHs.
    + destruct (c =? "_")%char eqn:Eu.
      * apply Ascii.eqb_eq in Eu. subst c. rewrite !like_underscore.
        destruct s as [|d s]; [reflexivity|]. simpl lower. cbv iota.
        rewrite lower_after_char. apply IH.
      * rewrite !(like_literal c p _ Ep Eu).
        destruct s as [|d s]; [reflexivity|]. simpl.
        now rewrite to_lower_idem, IH.
Qed.

Lemma like_pattern_lower_pattern (p s : string) :
  like_pattern (lower p) s = like_pattern p s.
Proof.
  revert s. induction p as [|c p IH]; intros s; [reflexivity|].
  simpl lower. destruct (c =? "%")%char eqn:Ep.
  - apply Ascii.eqb_eq in Ep. subst c. change (to_lower "%") with "%"%char.
    induction s as [|d s IHs] using char_ind;
      rewrite (like_percent (lower p)), (like_percent p), IH;
      [reflexivity | now rewrite IHs].
  - destruct (c =? "_")%char eqn:Eu.
    + apply Ascii.eqb_eq in Eu. subst c. change (to_lower "_") with "_"%char.
      rewrite !like_underscore. destruct s as [|d s]; [reflexivity | apply IH].
    + rewrite (like_literal c p _ Ep Eu).
      rewrite (like_literal (to_lower c) (lower p) s)
        by (rewrite ?to_lower_percent, ?to_lower_underscore; assumption).
      destruct s as [|d s]; [reflexivity|].
      now rewrite to_lower_idem, IH.
Qed.

Lemma lower_c_string (s : string) : lower (c_string s) = c_string (lower s).
Proof.
  induction s as [|c s IH]; [reflexivity|]. simpl.
  rewrite to_lower_zero. destruct (c =? zero)%char; [reflexivity|].
  simpl. now rewrite IH.
Qed.

Lemma like_pattern_case (p p' s s' : string) :
  lower p = lower p' -> lower s = lower s' ->
  like_pattern (c_string p) (c_string s)
  = like_pattern (c_string p') (c_string s').
Proof.
  intros Hp Hs.
  rewrite <- (like_pattern_lower_pattern (c_string p)),
    <- (like_pattern_lower_text _ (c_string s)).
  rewrite !lower_c_string, Hp, Hs, <- !lower_c_string.
  now rewrite like_pattern_lower_pattern, like_pattern_lower_text.
Qed.

(** The text condition of a search ignores ASCII letter case on both
    sides: two texts that agree once lower-cased, applied to two notes
    whose title, description, subject and tag text agree once lower-cased,
    give the same verdict. *)
Theorem text_filter_ignores_case (query query' : string) (n n' : note_row) :
  lower query = lower query' ->
  lower (n_title n) = lower (n_title n') ->
  option_map lower (n_description n) = option_map lower (n_description n') ->
  lower (n_subject n) = lower (n_subject n') ->
  lower (n_tags n) = lower (n_tags n') ->
  text_filter query n = text_filter query' n'.
Proof.
  intros Hq Ht Hd Hs Hg. unfold text_filter.
  assert (He : is_empty query = is_empty query').
  { destruct query, query'; try reflexivity; discriminate. }
  rewrite He. destruct (is_empty query'); [reflexivity|].
  assert (Hp : lower ("%" ++ query ++ "%") = lower ("%" ++ query' ++ "%")).
  { simpl. rewrite !lower_app. now rewrite Hq. }
  unfold sql_like.
  rewrite (like_pattern_case _ _ _ _ Hp Ht),
    (like_pattern_case _ _ _ _ Hp Hs), (like_pattern_case _ _ _ _ Hp Hg).
  destruct (n_description n) as [d|], (n_description n') as [d'|];
    simpl in Hd; try discriminate; [|reflexivity].
  inversion Hd as [Hd']. now rewrite (like_pattern_case _ _ _ _ Hp Hd').
Qed.

(** ** The category list *)

Lemma insert_asc_perm (x : string) (l : list string) :
  Permutation (x :: l) (insert_asc x l).
Proof.
  induction l as [|y l IH]; simpl; [reflexivity|].
  destruct (String.leb x y); [reflexivity|].
  rewrite perm_swap. now apply perm_skip.
Qed.

Lemma order_by_asc_perm (l : list string) : Permutation l (order_by_asc l).
Proof.
  induction l as [|x l IH]; simpl; [reflexivity|].
  rewrite <- insert_asc_perm. now apply perm_skip.
Qed.

Lemma insert_asc_sorted (x : string) (l : list string) :
  StronglySorted (fun a b => String.leb a b = true) l ->
  StronglySorted (fun a b => String.leb a b = true) (insert_asc x l).
Proof.
  induction l as [|y l IH]; intros Hs; simpl.
  - constructor; constructor.
  - inversion Hs as [|y' l' Hs' Hall]; subst.
    destruct (String.leb x y) eqn:E.
    + constructor; [exact Hs|]. constructor; [exact E|].
      eapply Forall_impl; [|exact Hall]. intros z Hz.
      exact (string_leb_trans x y z E Hz).
    + constructor; [now apply IH|].
      eapply Permutation_Forall; [apply insert_asc_perm|].
      constructor; [|exact Hall].
      destruct (String.leb_total x y) as [H|H]; [congruence | exact H].
Qed.

Lemma order_by_asc_sorted (l : list string) :
  StronglySorted (fun a b => String.leb a b = true) (order_by_asc l).
Proof.
  induction l as [|x l IH]; simpl; [constructor|].
  now apply insert_asc_sorted.
Qed.

Lemma string_ltb_of_leb (a b : string) :
  String.leb a b = true -> a <> b -> String.ltb a b = true.
Proof.
  unfold String.leb, String.ltb. intros Hle Hne.
  destruct (String.compare a b) eqn:E; [|reflexivity | discriminate].
  apply String.compare_eq_iff in E. contradiction.
Qed.

Lemma sorted_distinct_strict (l : list string) :
  NoDup l ->
  StronglySorted (fun a b => String.leb a b = true) l ->
  StronglySorted (fun a b => String.ltb a b = true) l.
Proof.
  induction l as [|x l IH]; intros Hnd Hs; [constructor|].
  inversion Hnd as [|x' l' Hnotin Hnd']; subst.
  inversion Hs as [|x' l' Hs' Hall]; subst.
  constructor; [now apply IH|].
  rewrite Forall_forall in *. intros y Hy.
  apply string_ltb_of_leb; [now apply Hall|].
  intros ->. contradiction.
Qed.

(** [get_all_categories] returns "All" followed by the categories in use,
    each once, in strictly ascending text order: a text is listed after
    "All" exactly when some note carries it as its category. *)
Theorem get_all_categories_spec (db : NotesDatabase) :
  exists cats,
    get_all_categories db = "All" :: cats
    /\ StronglySorted (fun a b => String.ltb a b = true) cats
    /\ forall c, In c cats <-> exists n, In n (notes db) /\ n_category n = c.
Proof.
  exists (order_by_asc (select_distinct (map n_category (notes db)))).
  split; [reflexivity|].
  pose proof (order_by_asc_perm
                (select_distinct (map n_category (notes db)))) as Hperm.
  split.
  - apply sorted_distinct_strict; [|apply order_by_asc_sorted].
    apply (Permutation_NoDup Hperm). apply NoDup_nodup.
  - intros c. split.
    + intros Hc. apply (Permutation_in _ (Permutation_sym Hperm)) in Hc.
      unfold select_distinct in Hc. apply nodup_In in Hc.
      apply in_map_iff in Hc. destruct Hc as [n [E Hn]]. now exists n.
    + intros [n [Hn E]]. apply (Permutation_in _ Hperm).
      unfold select_distinct. apply nodup_In. rewrite <- E.
      now apply in_map.
Qed.

(** ** The profile statistics *)

Lemma find_user_by_id_unique (db : NotesDatabase) (u : user_row) :
  NoDup (map u_id (users db)) -> In u (users db) ->
  find_user_by_id db (u_id u) = Some u.
Proof.
  unfold find_user_by_id. induction (users db) as [|x us IH];
    intros Hnd Hin; [contradiction|].
  simpl in Hnd. inversion Hnd as [|k ks Hnotin Hnd']; subst. simpl.
  destruct Hin as [-> | Hin]; [now rewrite Z.eqb_refl|].
  assert (E : (u_id x =? u_id u) = false).
  { apply Z.eqb_neq. intros E. apply Hnotin. rewrite E. now apply in_map. }
  rewrite E. now apply IH.
Qed.

Lemma sum_downloads_nonneg (ns : list note_row) (u : Z) :
  Forall (fun n => 0 <= n_downloads n) ns -> 0 <= sum_downloads ns u.
Proof.
  unfold sum_downloads. induction 1 as [|n ns Hn _ IH]; simpl; [lia|].
  destruct (n_uploader_id n =? u); simpl; lia.
Qed.

Lemma count_uploads_bump (ns : list note_row) (id u : Z) :
  count_uploads (bump_downloads ns id) u = count_uploads ns u.
Proof.
  unfold count_uploads, bump_downloads. f_equal.
  induction ns as [|n ns IH]; simpl; [reflexivity|].
  assert (E : n_uploader_id
                (if n_id n =? id
                 then mk_note (n_id n) (n_title n) (n_category n)
                        (n_subject n) (n_description n) (n_uploader_id n)
                        (n_upload_date n) (n_downloads n + 1) (n_tags n)
                        (n_file_path n) (n_file_name n) (n_file_size n)
                        (n_rating_sum n) (n_rating_count n)
                 else n) = n_uploader_id n)
    by now destruct (n_id n =? id).
  rewrite E. destruct (n_uploader_id n =? u); simpl; now rewrite IH.
Qed.

Lemma bump_downloads_absent (ns : list note_row) (id : Z) :
  ~ In id (map n_id ns) -> bump_downloads ns id = ns.
Proof.
  intros Hnotin. unfold bump_downloads. rewrite <- (map_id ns) at 2.
  apply map_ext_in. intros n Hn.
  destruct (n_id n =? id) eqn:E; [|reflexivity].
  apply Z.eqb_eq in E. exfalso. apply Hnotin. rewrite <- E. now apply in_map.
Qed.

Lemma sum_downloads_bump (ns : list note_row) (id u : Z) (n : note_row) :
  NoDup (map n_id ns) ->
  find (fun m => n_id m =? id) ns = Some n ->
  sum_downloads (bump_downloads ns id) u
  = sum_downloads ns u + (if n_uploader_id n =? u then 1 else 0).
Proof.
  induction ns as [|m ns IH]; intros Hnd Hfind; [discriminate|].
  simpl in Hnd. inversion Hnd as [|k ks Hnotin Hnd']; subst.
  simpl in Hfind. change (bump_downloads (m :: ns) id)
    with ((if n_id m =? id
           then mk_note (n_id m) (n_title m) (n_category m) (n_subject m)
                  (n_description m) (n_uploader_id m) (n_upload_date m)
                  (n_downloads m + 1) (n_tags m) (n_file_path m)
                  (n_file_name m) (n_file_size m) (n_rating_sum m)
                  (n_rating_count m)
           else m) :: bump_downloads ns id).
  destruct (n_id m =? id) eqn:E.
  - inversion Hfind. subst m. apply Z.eqb_eq in E.
    rewrite bump_downloads_absent by (rewrite <- E; exact Hnotin).
    unfold sum_downloads. simpl.
    destruct (n_uploader_id n =? u); simpl; lia.
  - specialize (IH Hnd' Hfind). unfold sum_downloads in *. simpl.
    destruct (n_uploader_id m =? u); simpl; lia.
Qed.

Lemma get_user_stats_unfold (db : NotesDatabase) (cu : session)
    (u : user_row) :
  current_user db = Some cu ->
  find_user_by_id db (s_id cu) = Some u ->
  get_user_stats db
  = Stats (mk_stats (u_username u) (u_email u)
             (substring 0 10 (u_created_at u))
             (count_uploads (notes db) (s_id cu))
             (sum_downloads (notes db) (s_id cu))
             (count_downloads (download_history db) (s_id cu))
             (s_role cu)).
Proof. intros Hcu Hu. unfold get_user_stats. now rewrite Hcu, Hu. Qed.

Section Statistics.

Variable _hash_password : string -> string.
Variable json_dumps : list string -> string.

(** In a reachable state [get_user_stats] never fails for a logged-in
    user: it returns statistics that carry the session's username and
    role, and none of the three counts is negative. *)
Theorem get_user_stats_total (db : NotesDatabase) (cu : session) :
  reachable _hash_password json_dumps db ->
  current_user db = Some cu ->
  exists st,
    get_user_stats db = Stats st
    /\ st_username st = s_username cu /\ st_role st = s_role cu
    /\ 0 <= st_total_uploads st
    /\ 0 <= st_total_downloads_of_uploads st
    /\ 0 <= st_personal_downloads st.
Proof.
  intros Hreach Hcu.
  pose proof (reachable_invariant _ _ db Hreach) as [Hu _].
  pose proof (reachable_account_invariant _ _ db Hreach)
    as [_ [_ [_ Hsess]]].
  pose proof (reachable_counter_invariant _ _ db Hreach) as [_ [_ [Hd _]]].
  destruct (Hsess cu Hcu) as [u [Hin [Eid [Ename Erole]]]].
  unfold get_user_stats. rewrite Hcu, <- Eid.
  rewrite (find_user_by_id_unique db u Hu Hin).
  eexists. split; [reflexivity|]. simpl.
  split; [exact Ename|]. split; [reflexivity|].
  split; [unfold count_uploads; lia|].
  split; [now apply sum_downloads_nonneg | unfold count_downloads; lia].
Qed.

(** A download shows in the profiles: after a successful [download_note]
    in a reachable state the downloader's "personal downloads" is one
    higher, their upload count is unchanged, and their "downloads of
    uploads" is one higher exactly when they uploaded the note. *)
Theorem stats_after_download (db : NotesDatabase) (now : string)
    (note_id : Z) (cu : session) (n : note_row) :
  reachable _hash_password json_dumps db ->
  current_user db = Some cu ->
  find_note db note_id = Some n ->
  exists st st',
    get_user_stats db = Stats st
    /\ get_user_stats (fst (download_note db now note_id)) = Stats st'
    /\ st_personal_downloads st' = st_personal_downloads st + 1
    /\ st_total_uploads st' = st_total_uploads st
    /\ st_total_downloads_of_uploads st'
       = st_total_downloads_of_uploads st
         + (if n_uploader_id n =? s_id cu then 1 else 0)
    /\ st_username st' = st_username st /\ st_email st' = st_email st
    /\ st_member_since st' = st_member_since st
    /\ st_role st' = st_role st.
Proof.
  intros Hreach Hcu Hn.
  pose proof (reachable_invariant _ _ db Hreach) as [Hu [Hnd _]].
  pose proof (reachable_account_invariant _ _ db Hreach)
    as [_ [_ [_ Hsess]]].
  destruct (Hsess cu Hcu) as [u [Hin [Eid _]]].
  assert (Hfind : find_user_by_id db (s_id cu) = Some u).
  { rewrite <- Eid. now apply find_user_by_id_unique. }
  assert (Hdb' : fst (download_note db now note_id)
                 = set_download_history
                     (set_notes db (bump_downloads (notes db) note_id)
                        (notes_seq db))
                     (download_history db
                      ++ [mk_download note_id (s_id cu) now])%list).
  { unfold download_note. now rewrite Hcu, Hn. }
  rewrite Hdb'.
  set (db' := set_download_history _ _).
  rewrite (get_user_stats_unfold db cu u Hcu Hfind).
  rewrite (get_user_stats_unfold db' cu u Hcu Hfind). subst db'.
  eexists. eexists. split; [reflexivity|]. split; [reflexivity|].
  cbn [st_personal_downloads st_total_uploads st_total_downloads_of_uploads
       st_username st_email st_member_since st_role notes download_history
       set_download_history set_notes].
  unfold find_note in Hn.
  rewrite count_uploads_bump, (sum_downloads_bump _ _ _ n Hnd Hn).
  repeat split. unfold count_downloads. rewrite filter_app, length_app.
  simpl. rewrite Z.eqb_refl. simpl. lia.
Qed.

End Statistics.

(** ** Outcomes of rating and deleting *)

(** For a note id the engine can bind (a 64-bit integer), [rate_note]
    succeeds exactly when there is a session and the value lies in 1..5.
    Whatever the id, a value out of range is refused with "Rating must be
    between 1 and 5", and every failure returns the state as it was. *)
Theorem rate_note_outcome (db : NotesDatabase) (now : string)
    (note_id rating : Z) (review : string) :
  (sqlite_integer note_id ->
   (fst (snd (rate_note db now note_id rating review)) = true
    <-> current_user db <> None /\ 1 <= rating <= 5))
  /\ (current_user db <> None -> ~ 1 <= rating <= 5 ->
      rate_note db now note_id rating review
      = (db, (false, "Rating must be between 1 and 5")))
  /\ (fst (snd (rate_note db now note_id rating review)) = false ->
      fst (rate_note db now note_id rating review) = db).
Proof.
  unfold rate_note. destruct (current_user db) as [cu|].
  - destruct ((rating <? 1) || (rating >? 5)) eqn:E; simpl.
    + assert (Hout : ~ 1 <= rating <= 5).
      { apply orb_true_iff in E. rewrite Z.gtb_ltb in E.
        rewrite !Z.ltb_lt in E. lia. }
      split; [intros _; split; [discriminate | tauto]|]. now split.
    + assert (Hin : 1 <= rating <= 5).
      { apply orb_false_iff in E. rewrite Z.gtb_ltb in E.
        rewrite !Z.ltb_ge in E. lia. }
      split; [intros _; split; [intros _; split; [discriminate | exact Hin]
                               | reflexivity]|].
      split; [intros _ Hout; contradiction | discriminate].
  - simpl. split; [intros _; split; [discriminate | tauto]|].
    split; [intros H; contradiction | reflexivity].
Qed.

(** [delete_note] succeeds exactly when there is a session, the note
    exists and the session's user is its uploader or has role admin;
    every failure returns the state as it was. *)
Theorem delete_note_outcome (db : NotesDatabase) (note_id : Z) :
  (fst (snd (delete_note db note_id)) = true
   <-> exists cu n,
         current_user db = Some cu /\ find_note db note_id = Some n
         /\ (n_uploader_id n = s_id cu \/ s_role cu = "admin"))
  /\ (fst (snd (delete_note db note_id)) = false ->
      fst (delete_note db note_id) = db).
Proof.
  unfold delete_note. destruct (current_user db) as [cu|].
  - destruct (find_note db note_id) as [n|].
    + destruct (n_uploader_id n =? s_id cu) eqn:Eo; simpl.
      * apply Z.eqb_eq in Eo. split; [|discriminate].
        split; [|reflexivity]. intros _. exists cu, n. auto.
      * destruct (s_role cu =? "admin")%string eqn:Er; simpl.
        -- apply String.eqb_eq in Er. split; [|discriminate].
           split; [|reflexivity]. intros _. exists cu, n. auto.
        -- apply Z.eqb_neq in Eo. apply String.eqb_neq in Er.
           split; [|reflexivity]. split; [discriminate|].
           intros [cu' [n' [Ecu [En [H|H]]]]];
             inversion Ecu; inversion En; subst; contradiction.
    + simpl. split; [|reflexivity]. split; [discriminate|].
      intros [cu' [n' [_ [En _]]]]. discriminate.
  - simpl. split; [|reflexivity]. split; [discriminate|].
    intros [cu' [n' [Ecu _]]]. discriminate.
Qed.

(** ** Uploads, deletions and the search results *)

Lemma in_join_users (us : list user_row) (ns : list note_row)
    (r : search_row) :
  In r (join_users us ns) <->
  exists u, In u us /\ In (row_note r) ns
            /\ n_uploader_id (row_note r) = u_id u
            /\ r = mk_row (row_note r) (u_username u)
                     (avg_rating (row_note r)).
Proof.
  unfold join_users. rewrite in_flat_map. split.
  - intros [n [Hn Hr]]. apply in_map_iff in Hr. destruct Hr as [u [<- Hu]].
    apply filter_In in Hu. destruct Hu as [Hu E]. apply Z.eqb_eq in E.
    exists u. simpl. auto.
  - intros [u [Hu [Hn [E Hr]]]]. exists (row_note r). split; [exact Hn|].
    apply in_map_iff. exists u. split; [now symmetry|].
    apply filter_In. split; [exact Hu | now apply Z.eqb_eq].
Qed.

(** A deleted note is gone from every search: after a successful
    [delete_note], no text, category or sort key returns a row of that
    id. *)
Theorem deleted_note_not_in_search (db db' : NotesDatabase) (note_id : Z)
    (message : string) :
  delete_note db note_id = (db', (true, message)) ->
  forall query category sort_by r,
    In r (search_rows db' query category sort_by) ->
    n_id (row_note r) <> note_id.
Proof.
  intros Hdel query category sort_by r Hr.
  pose proof (search_rows_perm db' query category sort_by) as Hperm.
  apply (Permutation_in _ (Permutation_sym Hperm)) in Hr.
  apply filter_In in Hr. destruct Hr as [Hr _].
  apply in_join_users in Hr. destruct Hr as [u [_ [Hn _]]].
  unfold delete_note in Hdel.
  destruct (current_user db) as [cu|]; [|discriminate].
  destruct (find_note db note_id) as [n|]; [|discriminate].
  destruct (negb (n_uploader_id n =? s_id cu)
            && negb (s_role cu =? "admin")%string); [discriminate|].
  inversion Hdel. subst db'. simpl in Hn. apply filter_In in Hn.
  destruct Hn as [_ Hn]. apply negb_true_iff in Hn. now apply Z.eqb_neq.
Qed.

Section SearchOverTime.

Variable _hash_password : string -> string.
Variable json_dumps : list string -> string.
Variable json_loads : string -> option (list string).
Variable round1 : Q -> Q.

Hypothesis json_roundtrip : forall l, json_loads (json_dumps l) = Some l.

(** [search_notes] does not fail in a reachable state: for every text
    whose pattern the engine accepts, and every category and sort key, it
    returns one view per row of the query, since every stored tag list was
    written by [json.dumps]. *)
Theorem search_notes_total (db : NotesDatabase) (query category sort_by
    : string) :
  reachable _hash_password json_dumps db ->
  within_like_limit query ->
  exists vs,
    search_notes json_loads round1 db query category sort_by = Some vs
    /\ Forall2 (fun r v => view_of json_loads round1 r = Some v)
         (search_rows db query category sort_by) vs.
Proof.
  intros Hreach _. apply reachable_invariant in Hreach.
  destruct Hreach as [_ [_ [_ [Hok _]]]]. rewrite Forall_forall in Hok.
  unfold search_notes.
  apply (views_of_total json_dumps json_loads round1 json_roundtrip).
  apply Forall_forall. intros r Hr.
  pose proof (search_rows_perm db query category sort_by) as Hperm.
  apply (Permutation_in _ (Permutation_sym Hperm)) in Hr.
  apply filter_In in Hr. destruct Hr as [Hr _].
  apply in_join_users in Hr. destruct Hr as [u [_ [Hn _]]].
  exact (proj2 (Hok _ Hn)).
Qed.

(** An upload shows up at once: after a successful [add_note] in a
    reachable state, the search with empty text and category "All" returns,
    for every sort key, a row for the new note with the uploader's
    username. *)
Theorem uploaded_note_in_search (db : NotesDatabase) (env : upload_env)
    (title category subject description tags name sort_by : string)
    (cu : session) (file_size : Z) :
  reachable _hash_password json_dumps db ->
  current_user db = Some cu ->
  title <> EmptyString -> category <> EmptyString ->
  subject <> EmptyString ->
  env_copy env = inr file_size ->
  exists r,
    In r (search_rows
            (fst (add_note json_dumps db env title category subject
                    description tags (Some name)))
            EmptyString "All" sort_by)
    /\ n_id (row_note r) = next_rowid (notes_seq db) (map n_id (notes db))
    /\ n_title (row_note r) = title
    /\ row_uploader_name r = s_username cu.
Proof.
  intros Hreach Hcu Ht Hc Hs Hcopy.
  pose proof (reachable_account_invariant _ _ db Hreach)
    as [_ [_ [_ Hsess]]].
  destruct (Hsess cu Hcu) as [u [Hu [Eid [Ename _]]]].
  destruct (add_note_stores json_dumps db env title category subject
              description tags name cu file_size Hcu Ht Hc Hs Hcopy)
    as [_ [Hfind [_ [_ [Husers _]]]]].
  set (db' := fst (add_note json_dumps db env title category subject
                     description tags (Some name))) in *.
  unfold find_note in Hfind. apply find_some in Hfind.
  destruct Hfind as [Hin _].
  match type of Hin with In ?new _ =>
    exists (mk_row new (u_username u) (avg_rating new))
  end.
  split; [|simpl; repeat split; exact Ename].
  pose proof (search_rows_perm db' EmptyString "All" sort_by) as Hperm.
  apply (Permutation_in _ Hperm). apply filter_In.
  split; [|reflexivity]. apply in_join_users. exists u. simpl.
  rewrite Husers. repeat split; [exact Hu | exact Hin | now symmetry].
Qed.

(** An upload shows in the uploader's profile: after a successful
    [add_note] in a reachable state their upload count is one higher and
    the two download counts are unchanged. *)
Theorem stats_after_upload (db : NotesDatabase) (env : upload_env)
    (title category subject description tags name : string)
    (cu : session) (file_size : Z) :
  reachable _hash_password json_dumps db ->
  current_user db = Some cu ->
  title <> EmptyString -> category <> EmptyString ->
  subject <> EmptyString ->
  env_copy env = inr file_size ->
  exists st st',
    get_user_stats db = Stats st
    /\ get_user_stats
         (fst (add_note json_dumps db env title category subject description
                 tags (Some name))) = Stats st'
    /\ st_total_uploads st' = st_total_uploads st + 1
    /\ st_total_downloads_of_uploads st' = st_total_downloads_of_uploads st
    /\ st_personal_downloads st' = st_personal_downloads st.
Proof.
  intros Hreach Hcu Ht Hc Hs Hcopy.
  pose proof (reachable_invariant _ _ db Hreach) as [Hu _].
  pose proof (reachable_account_invariant _ _ db Hreach)
    as [_ [_ [_ Hsess]]].
  destruct (Hsess cu Hcu) as [u [Hin [Eid _]]].
  assert (Hfind : find_user_by_id db (s_id cu) = Some u).
  { rewrite <- Eid. now apply find_user_by_id_unique. }
  assert (Hdb' : fst (add_note json_dumps db env title category subject
                        description tags (Some name))
                 = insert_note db (env_now env) title category subject
                     (Some description) (s_id cu)
                     (json_dumps (split_tags tags))
                     (os_path_join storage_dir
                        (env_timestamp env ++ "_" ++ os_path_basename name))
                     (os_path_basename name) file_size).
  { unfold add_note. rewrite Hcu, Hcopy.
    rewrite (is_empty_false _ Ht), (is_empty_false _ Hc),
      (is_empty_false _ Hs). reflexivity. }
  rewrite Hdb'. set (db' := insert_note _ _ _ _ _ _ _ _ _ _ _).
  rewrite (get_user_stats_unfold db cu u Hcu Hfind).
  rewrite (get_user_stats_unfold db' cu u Hcu Hfind). subst db'.
  eexists. eexists. split; [reflexivity|]. split; [reflexivity|].
  unfold insert_note. simpl.
  unfold count_uploads, sum_downloads. rewrite !filter_app. simpl.
  rewrite Z.eqb_refl. rewrite length_app, map_app, fold_right_app. simpl.
  repeat split; lia.
Qed.

End SearchOverTime.

(** ** The further theorems at work on the sample states *)

Lemma rated_db_reachable : reachable plain_digest ascii_json_dumps rated_db.
Proof.
  apply reach_step with student_db; [apply student_db_reachable|].
  apply step_rate.
Qed.

Lemma stale_db_steps : steps plain_digest ascii_json_dumps fresh_db stale_db.
Proof.
  apply steps_step with orphan_db; [|apply step_add_note].
  apply steps_step with student_db; [|apply step_rate].
  apply steps_step with fresh_db; [apply steps_refl|].
  apply step_authenticate.
Qed.

Lemma downloaded_db_steps :
  steps plain_digest ascii_json_dumps student_db downloaded_db.
Proof.
  apply steps_step with student_db; [apply steps_refl | apply step_download].
Qed.

Lemma reupload_db_steps :
  steps plain_digest ascii_json_dumps deleted_db reupload_db.
Proof.
  apply steps_step with deleted_db; [apply steps_refl | apply step_add_note].
Qed.

(** alice registers and logs in. *)
Lemma register_then_authenticate_example :
  exists id,
    ~ In id (map u_id (users fresh_db))
    /\ authenticate plain_digest alice_db "alice" "secret1"
       = (set_current_user alice_db (Some (mk_session id "alice" "student")),
          (true, "Welcome back, alice!", Some id)).
Proof.
  exact (register_then_authenticate plain_digest fresh_db
           "2024-01-02 08:00:00" "alice" "secret1" "a@x.edu" eq_refl).
Defined.

(** A second alice is refused. *)
Lemma register_user_twice_example :
  register_user plain_digest alice_db "2024-01-02 08:05:00" "alice"
    "another1" "b@y.org"
  = (alice_db, (false, "Username already exists")).
Proof.
  apply (register_user_twice plain_digest fresh_db "2024-01-02 08:00:00"
           "2024-01-02 08:05:00" "alice" "secret1" "a@x.edu" "another1"
           "b@y.org"); [reflexivity | simpl; lia].
Defined.

(** The admin account is the same after a login, a rating and an upload. *)
Lemma accounts_persist_example :
  exists u,
    find_user fresh_db "admin" = Some u
    /\ find_user stale_db "admin" = Some u
    /\ forall password,
         snd (authenticate plain_digest stale_db "admin" password)
         = snd (authenticate plain_digest fresh_db "admin" password).
Proof.
  eexists. split; [vm_compute; reflexivity|].
  eapply (accounts_persist plain_digest ascii_json_dumps fresh_db stale_db
            "admin"); [exact stale_db_steps | vm_compute; reflexivity].
Defined.

Lemma reachable_accounts_example :
  NoDup (map u_username (users stale_db))
  /\ (forall u, In u (users stale_db) -> u_role u = "admin" ->
                u_id u = 1 /\ u_username u = "admin")
  /\ (forall cu, current_user stale_db = Some cu ->
                 exists u, In u (users stale_db) /\ u_id u = s_id cu
                           /\ u_username u = s_username cu
                           /\ u_role u = s_role cu).
Proof.
  exact (reachable_accounts plain_digest ascii_json_dumps stale_db
           stale_db_reachable).
Defined.

(** student1 deletes note 2, which they uploaded. *)
Lemma delete_note_only_owner_or_admin_example :
  exists cu n,
    current_user student_db = Some cu /\ find_note student_db 2 = Some n
    /\ (n_uploader_id n = s_id cu
        \/ (s_id cu = 1 /\ s_username cu = "admin")).
Proof.
  exact (delete_note_only_owner_or_admin plain_digest ascii_json_dumps
           student_db deleted_db 2 "✅ Note deleted successfully"
           student_db_reachable eq_refl).
Defined.

Lemma restart_seeds_nothing_example :
  _create_demo_data plain_digest ascii_json_dumps stale_db tick = stale_db.
Proof.
  exact (restart_seeds_nothing plain_digest ascii_json_dumps stale_db tick
           stale_db_reachable).
Defined.

(** Nobody is logged in on the fresh database. *)
Lemma without_session_example :
  rate_note fresh_db "2024-01-02 09:00:00" 1 5 "Clear"
  = (fresh_db, (false, "Please login first"))
  /\ delete_note fresh_db 1 = (fresh_db, (false, "Please login first"))
  /\ get_user_stats fresh_db = StatsEmpty.
Proof.
  destruct (without_session_nothing_changes ascii_json_dumps fresh_db eq_refl)
    as [_ [_ [Hrate [Hdel Hstats]]]].
  split; [apply Hrate | split; [apply Hdel | exact Hstats]].
Defined.

(** student1 uploads a file with tags padded by white space that is not
    ASCII: it becomes note 6 with the two clean tags, and note 1 stays. *)
Lemma add_note_inserts_example :
  let db' := fst (add_note ascii_json_dumps student_db graphs_env
                    "Graph Theory" "Mathematics" "Graphs" "Trees and flows"
                    padded_tags (Some "/tmp/gradio/graphs.pdf")) in
  option_map n_title (find_note db' 6) = Some "Graph Theory"
  /\ option_map n_tags (find_note db' 6)
     = Some (ascii_json_dumps ["graphs"; "flows"])
  /\ find_note db' 1 = find_note student_db 1.
Proof.
  intros db'.
  assert (Hcu : current_user student_db
                = Some (mk_session 2 "student1" "student"))
    by (vm_compute; reflexivity).
  assert (Ht : "Graph Theory" <> EmptyString) by discriminate.
  assert (Hc : "Mathematics" <> EmptyString) by discriminate.
  assert (Hs : "Graphs" <> EmptyString) by discriminate.
  assert (Hcopy : env_copy graphs_env = inr 2048) by reflexivity.
  pose proof (add_note_inserts ascii_json_dumps student_db graphs_env
                "Graph Theory" "Mathematics" "Graphs" "Trees and flows"
                padded_tags "/tmp/gradio/graphs.pdf"
                (mk_session 2 "student1" "student") 2048 Hcu Ht Hc Hs Hcopy)
    as H.
  cbv zeta in H. destruct H as [_ [Hnew [Hold _]]].
  assert (E : next_rowid (notes_seq student_db)
                (map n_id (notes student_db)) = 6)
    by (vm_compute; reflexivity).
  assert (Etags : split_tags padded_tags = ["graphs"; "flows"])
    by (vm_compute; reflexivity).
  rewrite E, Etags in Hnew. rewrite E in Hold. unfold db'.
  split; [|split].
  - rewrite Hnew. reflexivity.
  - rewrite Hnew. reflexivity.
  - apply Hold. lia.
Defined.

(** The padded line of tags yields two clean tags. *)
Lemma split_tags_clean_example :
  split_tags padded_tags = ["graphs"; "flows"]
  /\ Forall (fun tag => tag <> EmptyString
                        /\ no_leading_space tag /\ no_trailing_space tag
                        /\ strip tag = tag
                        /\ has_char "," tag = false)
            ["graphs"; "flows"].
Proof.
  assert (E : split_tags padded_tags = ["graphs"; "flows"])
    by (vm_compute; reflexivity).
  split; [exact E|]. rewrite <- E. apply split_tags_clean.
Defined.

(** student1 rates note 1 with 5, which is accepted, and with 6, which is
    not. *)
Lemma rate_note_outcome_example :
  fst (snd (rate_note student_db "2024-01-02 09:00:00" 1 5 "Clear")) = true
  /\ rate_note student_db "2024-01-02 09:00:00" 1 6 "Clear"
     = (student_db, (false, "Rating must be between 1 and 5")).
Proof.
  destruct (rate_note_outcome student_db "2024-01-02 09:00:00" 1 5 "Clear")
    as [Hiff _].
  destruct (rate_note_outcome student_db "2024-01-02 09:00:00" 1 6 "Clear")
    as [_ [Hout _]].
  assert (Hcu : current_user student_db <> None)
    by (vm_compute; discriminate).
  split.
  - apply Hiff; [unfold sqlite_integer; lia|]. split; [exact Hcu | lia].
  - apply Hout; [exact Hcu | lia].
Defined.

Lemma upload_path_confined_example :
  exists n leaf,
    find_note
      (fst (add_note ascii_json_dumps student_db graphs_env "Graph Theory"
              "Mathematics" "Graphs" "Trees and flows" "graphs, flows"
              (Some "/tmp/gradio/graphs.pdf")))
      (next_rowid (notes_seq student_db) (map n_id (notes student_db)))
    = Some n
    /\ n_file_path n = "uploaded_files/" ++ leaf
    /\ has_char "/" leaf = false
    /\ has_char "/" (n_file_name n) = false.
Proof.
  apply (upload_path_confined ascii_json_dumps student_db graphs_env
           "Graph Theory" "Mathematics" "Graphs" "Trees and flows"
           "graphs, flows" "/tmp/gradio/graphs.pdf"
           (mk_session 2 "student1" "student") 2048);
    try discriminate; reflexivity.
Defined.

Lemma reachable_counters_example :
  (forall r, In r (ratings rated_db) -> 1 <= r_rating r <= 5)
  /\ (forall n, In n (notes rated_db) ->
        0 <= n_rating_count n
        /\ n_rating_count n <= n_rating_sum n <= 5 * n_rating_count n
        /\ 0 <= n_downloads n
        /\ 1 <= n_id n <= notes_seq rated_db).
Proof.
  exact (reachable_counters plain_digest ascii_json_dumps rated_db
           rated_db_reachable).
Defined.

(** After the five-star rating every note shows 0 or a value in 1..5. *)
Lemma avg_rating_range_example :
  Forall (fun n => (n_rating_count n = 0 /\ avg_rating n = 0%Q)
                   \/ (0 < n_rating_count n /\ (1 <= avg_rating n <= 5)%Q))
         (notes rated_db).
Proof.
  apply Forall_forall.
  exact (fun n Hn => avg_rating_range plain_digest ascii_json_dumps rated_db
                       n rated_db_reachable Hn).
Defined.

(** Note 2 is deleted; the next upload does not bring the id back. *)
Lemma deleted_note_never_returns_example : find_note reupload_db 2 = None.
Proof.
  exact (deleted_note_never_returns plain_digest ascii_json_dumps student_db
           deleted_db reupload_db 2 "✅ Note deleted successfully"
           student_db_reachable eq_refl reupload_db_steps).
Defined.

(** Note 1 before and after a download. *)
Lemma note_metadata_immutable_example :
  exists n n',
    find_note student_db 1 = Some n /\ find_note downloaded_db 1 = Some n'
    /\ same_metadata n n' /\ n_downloads n <= n_downloads n'.
Proof.
  eexists. eexists. split; [vm_compute; reflexivity|].
  split; [vm_compute; reflexivity|].
  eapply (note_metadata_immutable plain_digest ascii_json_dumps student_db
            downloaded_db 1);
    [exact student_db_reachable | exact downloaded_db_steps
     | vm_compute; reflexivity | vm_compute; reflexivity].
Defined.

Lemma text_filter_ignores_case_example :
  text_filter "ALGEBRA" algebra_note = text_filter "algebra" algebra_note.
Proof.
  apply text_filter_ignores_case; reflexivity.
Defined.

Lemma get_user_stats_total_example :
  exists st,
    get_user_stats student_db = Stats st
    /\ st_username st = "student1" /\ st_role st = "student"
    /\ 0 <= st_total_uploads st
    /\ 0 <= st_total_downloads_of_uploads st
    /\ 0 <= st_personal_downloads st.
Proof.
  exact (get_user_stats_total plain_digest ascii_json_dumps student_db
           (mk_session 2 "student1" "student") student_db_reachable
           eq_refl).
Defined.

(** student1 downloads the admin's note 1. *)
Lemma stats_after_download_example :
  exists st st',
    get_user_stats student_db = Stats st
    /\ get_user_stats downloaded_db = Stats st'
    /\ st_personal_downloads st' = st_personal_downloads st + 1
    /\ st_total_uploads st' = st_total_uploads st
    /\ st_total_downloads_of_uploads st' = st_total_downloads_of_uploads st.
Proof.
  destruct (stats_after_download plain_digest ascii_json_dumps student_db
              "2024-01-02 09:30:00" 1 (mk_session 2 "student1" "student")
              (mk_note 1 "Introduction to Python Programming"
                 "Computer Science" "Programming"
                 (Some "Comprehensive guide covering Python basics, data structures, OOP, and best practices for beginners")
                 1 (tick 3) 0
                 (ascii_json_dumps ["python"; "programming"; "basics"; "oop"])
                 "uploaded_files/intro_python.pdf" "intro_python.pdf" 112 0 0)
              student_db_reachable eq_refl eq_refl)
    as [st [st' [H1 [H2 [H3 [H4 [H5 _]]]]]]].
  exists st, st'. simpl in H5. rewrite Z.add_0_r in H5.
  repeat split; assumption.
Defined.

Lemma deleted_note_not_in_search_example :
  Forall (fun r => n_id (row_note r) <> 2)
         (search_rows deleted_db EmptyString "All" "recent").
Proof.
  apply Forall_forall. intros r.
  exact (deleted_note_not_in_search student_db deleted_db 2
           "✅ Note deleted successfully" eq_refl EmptyString "All" "recent"
           r).
Defined.

Lemma search_notes_total_example :
  exists vs,
    search_notes ascii_json_loads round_tenths student_db "python"
      "Computer Science" "popular" = Some vs
    /\ Forall2 (fun r v => view_of ascii_json_loads round_tenths r = Some v)
         (search_rows student_db "python" "Computer Science" "popular") vs.
Proof.
  apply (search_notes_total plain_digest ascii_json_dumps ascii_json_loads
           round_tenths ascii_json_roundtrip student_db "python"
           "Computer Science" "popular" student_db_reachable).
  unfold within_like_limit, like_pattern_limit. simpl. lia.
Defined.

(** The search for "python" keeps some of the rows of the search for
    everything. *)
Lemma search_text_only_removes_example :
  Permutation
    (search_rows student_db "python" "All" "recent")
    (filter (fun r => text_filter "python" (row_note r))
       (search_rows student_db EmptyString "All" "recent"))
  /\ exists vs vs',
       search_notes ascii_json_loads round_tenths student_db EmptyString
         "All" "recent" = Some vs
       /\ search_notes ascii_json_loads round_tenths student_db "python"
            "All" "recent" = Some vs'
       /\ incl vs' vs.
Proof.
  assert (Hlimit : within_like_limit "python").
  { unfold within_like_limit, like_pattern_limit. simpl. lia. }
  destruct (search_text_only_removes ascii_json_loads round_tenths
              student_db "python" "All" "recent" Hlimit) as [Hperm Hviews].
  split; [exact Hperm|].
  destruct (search_notes ascii_json_loads round_tenths student_db
              EmptyString "All" "recent") as [vs|] eqn:Hvs;
    [|vm_compute in Hvs; discriminate].
  destruct (Hviews vs eq_refl) as [vs' [Hvs' Hincl]].
  now exists vs, vs'.
Defined.

(** After student1 downloaded note 1, the notes that mention "a", most
    downloaded first. *)
Lemma search_rows_sorted_example :
  StronglySorted
    (fun a b => n_downloads (row_note b) <= n_downloads (row_note a))
    (search_rows downloaded_db "a" "All" "popular")
  /\ Forall (fun r => text_filter "a" (row_note r) = true)
            (search_rows downloaded_db "a" "All" "popular").
Proof.
  assert (Hlimit : within_like_limit "a").
  { unfold within_like_limit, like_pattern_limit. simpl. lia. }
  destruct (search_rows_sorted downloaded_db "a" "All" "popular" Hlimit)
    as [_ [Hall [_ [Hpop _]]]].
  split; [now apply Hpop|].
  apply Forall_forall. intros r Hr. exact (proj1 (Hall r Hr)).
Defined.

Lemma uploaded_note_in_search_example :
  exists r,
    In r (search_rows
            (fst (add_note ascii_json_dumps student_db graphs_env
                    "Graph Theory" "Mathematics" "Graphs" "Trees and flows"
                    "graphs, flows" (Some "/tmp/gradio/graphs.pdf")))
            EmptyString "All" "rating")
    /\ n_id (row_note r)
       = next_rowid (notes_seq student_db) (map n_id (notes student_db))
    /\ n_title (row_note r) = "Graph Theory"
    /\ row_uploader_name r = "student1".
Proof.
  apply (uploaded_note_in_search plain_digest ascii_json_dumps student_db
           graphs_env "Graph Theory" "Mathematics" "Graphs" "Trees and flows"
           "graphs, flows" "/tmp/gradio/graphs.pdf" "rating"
           (mk_session 2 "student1" "student") 2048);
    try discriminate; [exact student_db_reachable | reflexivity | reflexivity].
Defined.

Lemma stats_after_upload_example :
  exists st st',
    get_user_stats student_db = Stats st
    /\ get_user_stats
         (fst (add_note ascii_json_dumps student_db graphs_env "Graph Theory"
                 "Mathematics" "Graphs" "Trees and flows" "graphs, flows"
                 (Some "/tmp/gradio/graphs.pdf"))) = Stats st'
    /\ st_total_uploads st' = st_total_uploads st + 1
    /\ st_total_downloads_of_uploads st' = st_total_downloads_of_uploads st
    /\ st_personal_downloads st' = st_personal_downloads st.
Proof.
  apply (stats_after_upload plain_digest ascii_json_dumps student_db
           graphs_env "Graph Theory" "Mathematics" "Graphs" "Trees and flows"
           "graphs, flows" "/tmp/gradio/graphs.pdf"
           (mk_session 2 "student1" "student") 2048);
    try discriminate; [exact student_db_reachable | reflexivity | reflexivity].
Defined.
